(** * botgrid: grid strategy engine and risk controller

    A shallow embedding of [modules/grid_logic.py], [modules/risk_manager.py]
    and the two formatting helpers of [modules/bybit_client.py], with the
    properties the specification states about them.

    Conventions of the embedding.
    - Python's [float] is an interface ([PyFloat]) with two instances: [exact]
      (rational arithmetic without rounding) and [binary64] (IEEE 754 double
      precision, the arithmetic CPython really runs).  Every function of the
      program is written once, over the interface.
    - An [await] on the exchange gateway or on the state store is an input of
      the function: the response the collaborator gave, which is either a
      returned value or a raised exception.
    - The calls by which a function acts on its collaborators (cancelling,
      placing and saving orders, saving the grid history, logging an event)
      are returned as a trace, in program order.  A call that only reads
      ([get_mark_price], [get_coin_balance], [get_open_orders],
      [get_positions], [get_wallet_balance]) is not an entry of the trace: it
      is present as the input that holds its answer.
    - [datetime] values are microseconds since the epoch; text that is only
      logged is not modelled. *)

From stdpp Require Import gmap strings sorting.
From Stdlib Require Import Ascii ZArith QArith Qabs Qround Floats Lia Lqa.

Open Scope Z_scope.

(** ** Exceptions and responses *)

Inductive exn : Type :=
| ZeroDivisionError
| ValueError.

Inductive result (A : Type) : Type :=
| Ok (a : A)
| Raise (e : exn).

Arguments Ok {A} a.
Arguments Raise {A} e.

#[global] Instance result_ret : MRet result := fun A a => Ok a.

#[global] Instance result_bind : MBind result := fun A B k r =>
  match r with
  | Ok a => k a
  | Raise e => Raise e
  end.

Definition of_option {A : Type} (e : exn) (o : option A) : result A :=
  match o with
  | Some a => Ok a
  | None => Raise e
  end.

(** What an awaited collaborator call gave back. *)
Inductive response (A : Type) : Type :=
| Returned (a : A)
| Raised.

Arguments Returned {A} a.
Arguments Raised {A}.

(** ** Python's float *)

Class PyFloat : Type := {
  num : Type;
  (** [n / d] for integers with [0 < d], correctly rounded: how [float()]
      reads a decimal literal and what [int / int] gives. *)
  of_ratio : Z -> Z -> num;
  (** the conversion of an [int] operand *)
  of_int : Z -> num;
  fadd : num -> num -> num;
  fsub : num -> num -> num;
  fmul : num -> num -> num;
  (** the quotient, meaningful for a divisor that is not zero *)
  fdiv : num -> num -> num;
  (** [y == 0], the test behind ZeroDivisionError *)
  is_zero : num -> bool;
  fabs : num -> num;
  flt : num -> num -> bool;
  fle : num -> num -> bool;
  (** [int(x)], truncation toward zero; [None] for nan and the infinities,
      where Python raises ValueError or OverflowError *)
  trunc : num -> option Z;
  (** [float(f"{x:.{p}f}")]: [x] written with [p] decimals and read back *)
  fixed : nat -> num -> num
}.

Declare Scope py_scope.
Delimit Scope py_scope with py.
Notation "x + y" := (fadd x y) : py_scope.
Notation "x - y" := (fsub x y) : py_scope.
Notation "x * y" := (fmul x y) : py_scope.
Notation "x <? y" := (flt x y) : py_scope.
Notation "x <=? y" := (fle x y) : py_scope.
Notation "x >? y" := (flt y x) : py_scope.
Notation "x >=? y" := (fle y x) : py_scope.

(** [x / y] of two floats, raising on a zero divisor. *)
Definition pydiv `{PyFloat} (x y : num) : result num :=
  if is_zero y then Raise ZeroDivisionError else Ok (fdiv x y).

(** The float [0.0] (also what the [int] 0 converts to). *)
Definition zero `{PyFloat} : num := of_int 0.

(** A decimal literal [m * 10^-k] of the source, such as [1.1] = [lit 11 1]. *)
Definition lit `{PyFloat} (m : Z) (k : nat) : num := of_ratio m (10 ^ Z.of_nat k).

(** Python's two-argument [max] and [min]: the first argument is kept unless
    the second compares strictly beyond it. *)
Definition fmax `{PyFloat} (a b : num) : num := if (b >? a)%py then b else a.
Definition fmin `{PyFloat} (a b : num) : num := if (b <? a)%py then b else a.

(** *** Exact arithmetic *)

(** Rounding of a rational to the nearest integer, ties to even. *)
Definition round_half_even (q : Q) : Z :=
  let f := Qfloor q in
  match Qcompare (q - inject_Z f) (1 # 2) with
  | Lt => f
  | Gt => f + 1
  | Eq => if Z.even f then f else f + 1
  end.

Definition Qtrunc (q : Q) : Z := Z.quot (Qnum q) (Zpos (Qden q)).

Definition Qfixed (p : nat) (q : Q) : Q :=
  Qred (round_half_even (q * inject_Z (10 ^ Z.of_nat p)) # Z.to_pos (10 ^ Z.of_nat p)).

Definition Qltb (x y : Q) : bool := negb (Qle_bool y x).

Definition exact : PyFloat := {|
  num := Q;
  of_ratio n d := Qred (n # Z.to_pos d);
  of_int := inject_Z;
  fadd := Qplus;
  fsub := Qminus;
  fmul := Qmult;
  fdiv := Qdiv;
  is_zero y := Qeq_bool y 0;
  fabs := Qabs;
  flt := Qltb;
  fle := Qle_bool;
  trunc q := Some (Qtrunc q);
  fixed := Qfixed
|}.

(** *** IEEE 754 binary64 *)

Definition Z2SF (z : Z) : spec_float :=
  match z with
  | Z0 => S754_zero false
  | Zpos p => S754_finite false p 0
  | Zneg p => S754_finite true p 0
  end.

Definition b64_of_ratio (n d : Z) : float :=
  SF2Prim (SFdiv prec emax (Z2SF n) (Z2SF d)).

Definition b64_of_int (z : Z) : float :=
  SF2Prim (binary_normalize prec emax z 0 false).

Definition signed (s : bool) (z : Z) : Z := if s then - z else z.

Definition b64_trunc (x : float) : option Z :=
  match Prim2SF x with
  | S754_zero _ => Some 0
  | S754_finite s m e =>
      Some (signed s (if 0 <=? e then Zpos m * 2 ^ e else Zpos m / 2 ^ (- e)))
  | S754_infinity _ => None
  | S754_nan => None
  end.

(** The rational number a double stands for ([None] for nan and the
    infinities). *)
Definition b64_value (x : float) : option Q :=
  match Prim2SF x with
  | S754_zero _ => Some 0%Q
  | S754_finite s m e =>
      Some (if 0 <=? e then inject_Z (signed s (Zpos m * 2 ^ e))
            else (signed s (Zpos m) # Z.to_pos (2 ^ (- e))))
  | S754_infinity _ => None
  | S754_nan => None
  end.

(** The nearest integer to [m * 2^e * 10^p], ties to even ([m] a magnitude). *)
Definition scaled_round (m e : Z) (p : nat) : Z :=
  let n := m * 10 ^ Z.of_nat p in
  if 0 <=? e then n * 2 ^ e
  else
    let d := 2 ^ (- e) in
    let q := n / d in
    match Z.compare (2 * (n mod d)) d with
    | Lt => q
    | Gt => q + 1
    | Eq => if Z.even q then q else q + 1
    end.

Definition b64_fixed (p : nat) (x : float) : float :=
  match Prim2SF x with
  | S754_finite s m e =>
      let n := scaled_round (Zpos m) e p in
      if n =? 0 then (if s then PrimFloat.opp PrimFloat.zero else PrimFloat.zero)
      else b64_of_ratio (signed s n) (10 ^ Z.of_nat p)
  | _ => x
  end.

Definition binary64 : PyFloat := {|
  num := float;
  of_ratio := b64_of_ratio;
  of_int := b64_of_int;
  fadd := PrimFloat.add;
  fsub := PrimFloat.sub;
  fmul := PrimFloat.mul;
  fdiv := PrimFloat.div;
  is_zero y := PrimFloat.eqb y PrimFloat.zero;
  fabs := PrimFloat.abs;
  flt := PrimFloat.ltb;
  fle := PrimFloat.leb;
  trunc := b64_trunc;
  fixed := b64_fixed
|}.

(** ** Reading a step size: [float(s)] and the number of decimals *)

Definition is_digit (c : ascii) : bool :=
  (48 <=? Z.of_nat (nat_of_ascii c)) && (Z.of_nat (nat_of_ascii c) <=? 57).

Definition digit_val (c : ascii) : Z := Z.of_nat (nat_of_ascii c) - 48.

(** The value of a string of decimal digits ([None] if another character
    occurs), continuing from [acc]. *)
Fixpoint digits_val (acc : Z) (s : list ascii) : option Z :=
  match s with
  | [] => Some acc
  | c :: r => if is_digit c then digits_val (10 * acc + digit_val c) r else None
  end.

Definition is_dot (c : ascii) : bool := Ascii.eqb c "."%char.
Definition is_zero_char (c : ascii) : bool := Ascii.eqb c "0"%char.

(** [s.split('.')]: the segments between dots, never empty as a list. *)
Fixpoint split_dot (s : list ascii) : list (list ascii) :=
  match s with
  | [] => [[]]
  | c :: r =>
      if is_dot c then [] :: split_dot r
      else match split_dot r with
           | seg :: segs => (c :: seg) :: segs
           | [] => [[c]]
           end
  end.

(** [s.rstrip('0')] *)
Fixpoint rstrip0 (s : list ascii) : list ascii :=
  match s with
  | [] => []
  | c :: r =>
      match rstrip0 r with
      | [] => if is_zero_char c then [] else [c]
      | r' => c :: r'
      end
  end.

(** [len(s.rstrip('0').split('.')[-1]) if '.' in s else 0] *)
Definition precision_of (s : string) : nat :=
  let l := String.list_ascii_of_string s in
  if existsb is_dot l then List.length (List.last (split_dot (rstrip0 l)) []) else 0%nat.

(** No dot occurs in [l]. *)
Definition no_dot (l : list ascii) : Prop := existsb is_dot l = false.

(** A literal in plain decimal notation, [[+-]digits[.digits]] with a digit on
    at least one side of the dot, as mantissa and number of decimals.  The
    exchange reports its steps in this notation; the other spellings that
    Python's [float()] accepts (exponents, [inf], [nan], padding) are outside
    the model and read as [None], like a string [float()] rejects. *)
Definition unsigned_decimal (l : list ascii) : option (Z * nat) :=
  match split_dot l with
  | [i] =>
      match i with
      | [] => None
      | _ => m ← digits_val 0 i; Some (m, 0%nat)
      end
  | [i; f] =>
      match (i ++ f)%list with
      | [] => None
      | _ => m ← digits_val 0 (i ++ f)%list; Some (m, List.length f)
      end
  | _ => None
  end.

Definition parse_decimal (s : string) : option (Z * nat) :=
  match String.list_ascii_of_string s with
  | c :: r =>
      if Ascii.eqb c "-"%char then
        '(m, k) ← unsigned_decimal r; Some (- m, k)
      else if Ascii.eqb c "+"%char then unsigned_decimal r
      else unsigned_decimal (c :: r)
  | [] => None
  end.

Section Formatting.
Context `{PyFloat}.

(** [float(s)] for a text in plain decimal notation.  For every other text
    the model raises ValueError, also where Python reads a number (["1e-05"],
    ["inf"]): a property that assumes [float_of_string s = Ok t] is a
    property of step texts in plain decimal notation. *)
Definition float_of_string (s : string) : result num :=
  match parse_decimal s with
  | Some (m, k) => Ok (lit m k)
  | None => Raise ValueError
  end.

(** [int(x / step) * step], written with [precision] decimals.  The function
    returns text; it is modelled by the float that text reads back as, which is
    how [grid_logic.py] uses every result ([float(self.client.format_...)]). *)
Definition format_step (x : num) (step_text : string) : result num :=
  step ← float_of_string step_text;
  let precision := precision_of step_text in
  q ← pydiv x step;
  n ← of_option ValueError (trunc q);
  let formatted := (of_int n * step)%py in
  Ok (fixed precision formatted).

(** [BybitClient.format_quantity] *)
Definition format_quantity (qty : num) (qty_step : string) : result num :=
  format_step qty qty_step.

(** [BybitClient.format_price] *)
Definition format_price (price : num) (tick_size : string) : result num :=
  format_step price tick_size.

End Formatting.

(** ** Grid strategy engine: data *)

Inductive Side : Type := Buy | Sell.

#[global] Instance Side_eq_dec : EqDecision Side.
Proof. solve_decision. Defined.

(** One entry of [buy_levels] / [sell_levels]: the dictionary with the keys
    ['level'], ['price'], ['qty'], ['side'], ['notional']. *)
Record GridLevel {N : Type} : Type := {
  level : Z;
  price : N;
  qty : N;
  side : Side;
  notional : N
}.

Arguments GridLevel : clear implicits.

(** [config['grid']['profiles'][name]] *)
Record Profile {N : Type} : Type := {
  grid_spacing : N;
  target_levels : Z
}.

Arguments Profile : clear implicits.

(** [config['recenter']] *)
Record RecenterConfig {N : Type} : Type := {
  price_deviation_pct : N;
  time_based_hours : N;
  one_side_hours : Z;
  pump_dump_pct : N
}.

Arguments RecenterConfig : clear implicits.

(** The keys of the configuration dictionary that the engine reads.
    [normal_profile] is the entry ['Normal'], which every profile lookup
    evaluates as its default; [profiles] holds the entries by name. *)
Record Config {N : Type} : Type := {
  normal_profile : Profile N;
  profiles : gmap string (Profile N);
  grid_spacing_max : N;
  initial_capital : N;
  recenter : RecenterConfig N
}.

Arguments Config : clear implicits.

(** The attributes of a [GridLogic] object. *)
Record GridLogic {N : Type} : Type := {
  config : Config N;
  center_price : N;
  buy_levels : list (GridLevel N);
  sell_levels : list (GridLevel N);
  active_orders : gmap string (GridLevel N);
  min_order_qty : N;
  qty_step : string;
  tick_size : string;
  min_notional : N;
  last_recenter_time : Z;
  price_history : list (N * Z)
}.

Arguments GridLogic : clear implicits.

(** The calls that act on the exchange gateway and on the state store.  The
    reads of the gateway have no constructor: [get_mark_price] and
    [get_coin_balance], which [setup_grid] awaits before it computes the
    levels, and [get_open_orders] are inputs ([env_mark_price], [env_balance],
    the arguments of [should_recenter]).  So a trace that is empty, or that
    starts with [CancelAllOrders], says that nothing was cancelled, placed,
    saved or logged before; it says nothing about reads. *)
Inductive call {N : Type} : Type :=
| CancelAllOrders
| PlaceOrder (l : GridLevel N)
| SaveOrder (order_id : string) (l : GridLevel N)
| SaveGridHistory
| LogEvent (event_type severity : string).

Arguments call : clear implicits.

(** What [place_order] did for one level: it raised, it returned a result
    without ['orderId'], or it returned an order id, after which [save_order]
    was awaited. *)
Inductive placement : Type :=
| PlaceRaised
| PlaceRefused
| PlaceAccepted (order_id : string) (saved : response unit).

(** The collaborators' answers during one [setup_grid]. *)
Record SetupEnv {N : Type} : Type := {
  env_now : Z;
  env_mark_price : response N;
  env_balance : response N;
  env_cancel : response unit;
  env_place : Z -> placement;
  env_save_history : response unit;
  env_log_event : response unit
}.

Arguments SetupEnv : clear implicits.

(** The reason text returned by [should_recenter], with the values it
    interpolates. *)
Inductive Reason {N : Type} : Type :=
| NoReason
| NoActiveOrders
| PriceAboveHighestSell (current_price highest_sell deviation_pct100 : N)
| PriceBelowLowestBuy (current_price lowest_buy deviation_pct100 : N)
| TimeBased (hours_since_recenter time_threshold : N)
| AboveCenter (above_pct100 : N) (recent_hours : Z)
| BelowCenter (below_pct100 : N) (recent_hours : Z)
| PumpDump (pump_pct100 : N)
| OtherReason (text : string).

Arguments Reason : clear implicits.

(** An open order as the gateway lists it: its ['side'] ([None] when it is
    neither ['Buy'] nor ['Sell']) and [safe_float] of its ['price']. *)
Record OpenOrder {N : Type} : Type := {
  order_side : option Side;
  order_price : N
}.

Arguments OpenOrder : clear implicits.

Section GridData.
Context `{PyFloat}.

Definition set_center_price (g : GridLogic num) (c : num) : GridLogic num :=
  {| config := config g; center_price := c; buy_levels := buy_levels g;
     sell_levels := sell_levels g; active_orders := active_orders g;
     min_order_qty := min_order_qty g; qty_step := qty_step g;
     tick_size := tick_size g; min_notional := min_notional g;
     last_recenter_time := last_recenter_time g;
     price_history := price_history g |}.

Definition set_levels (g : GridLogic num) (b s : list (GridLevel num)) : GridLogic num :=
  {| config := config g; center_price := center_price g; buy_levels := b;
     sell_levels := s; active_orders := active_orders g;
     min_order_qty := min_order_qty g; qty_step := qty_step g;
     tick_size := tick_size g; min_notional := min_notional g;
     last_recenter_time := last_recenter_time g;
     price_history := price_history g |}.

Definition set_active_orders (g : GridLogic num)
  (m : gmap string (GridLevel num)) : GridLogic num :=
  {| config := config g; center_price := center_price g;
     buy_levels := buy_levels g; sell_levels := sell_levels g;
     active_orders := m;
     min_order_qty := min_order_qty g; qty_step := qty_step g;
     tick_size := tick_size g; min_notional := min_notional g;
     last_recenter_time := last_recenter_time g;
     price_history := price_history g |}.

Definition set_last_recenter_time (g : GridLogic num) (t : Z) : GridLogic num :=
  {| config := config g; center_price := center_price g;
     buy_levels := buy_levels g; sell_levels := sell_levels g;
     active_orders := active_orders g;
     min_order_qty := min_order_qty g; qty_step := qty_step g;
     tick_size := tick_size g; min_notional := min_notional g;
     last_recenter_time := t;
     price_history := price_history g |}.

Definition set_price_history (g : GridLogic num) (h : list (num * Z)) : GridLogic num :=
  {| config := config g; center_price := center_price g;
     buy_levels := buy_levels g; sell_levels := sell_levels g;
     active_orders := active_orders g;
     min_order_qty := min_order_qty g; qty_step := qty_step g;
     tick_size := tick_size g; min_notional := min_notional g;
     last_recenter_time := last_recenter_time g;
     price_history := h |}.

(** [self.max_history_points], fixed by the constructor. *)
Definition max_history_points : nat := 720.

(** [l[-n:]] for [0 < n]: the last [n] elements. *)
Definition last_n {A : Type} (n : nat) (l : list A) : list A :=
  drop (length l - n) l.

(** [profiles.get(profile, profiles['Normal'])] *)
Definition profile_config (c : Config num) (profile : string) : Profile num :=
  default (normal_profile c) (profiles c !! profile).

(** ** Grid strategy engine: level computation *)

(** [GridLogic.get_current_price], given what [get_mark_price] answered at
    time [now]. *)
Definition get_current_price (g : GridLogic num) (now : Z) (mark : response num)
  : GridLogic num * num :=
  match mark with
  | Returned p =>
      if (p >? zero)%py then
        let h := price_history g ++ [(p, now)] in
        let h := if (max_history_points <? length h)%nat
                 then last_n max_history_points h else h in
        (set_price_history g h, p)
      else (g, zero)
  | Raised => (g, zero)
  end.

(** [abs(prices[i] - prices[i-1])] for [i] from 1. *)
Fixpoint ranges (prices : list num) : list num :=
  match prices with
  | a :: (b :: _) as rest => fabs (b - a)%py :: ranges rest
  | _ => []
  end.

(** [np.mean] of a non-empty list: the sum over the length.  The terms are
    added from left to right; numpy adds them pairwise, so that a binary64
    result can differ from this one in its last bit, and with it a comparison
    of [get_grid_spacing] that falls on the boundary.  No property below
    depends on the value of the mean. *)
Definition mean (l : list num) : num :=
  fdiv (foldl fadd zero l) (of_int (Z.of_nat (length l))).

(** [GridLogic.calculate_atr] with its default [period = 14]. *)
Definition calculate_atr (g : GridLogic num) : num :=
  let period := 14%nat in
  if (length (price_history g) <? period * 2)%nat then zero
  else
    let prices := fst <$> last_n (period * 2) (price_history g) in
    match ranges prices with
    | [] => zero
    | r => mean r
    end.

(** [GridLogic.get_grid_spacing] *)
Definition get_grid_spacing (g : GridLogic num) (profile : string) : result num :=
  let base_spacing := grid_spacing (profile_config (config g) profile) in
  let atr := calculate_atr g in
  if (atr >? zero)%py && (center_price g >? zero)%py then
    atr_pct ← pydiv atr (center_price g);
    if (atr_pct >? lit 5 3)%py
    then Ok (fmin (base_spacing * lit 12 1)%py (grid_spacing_max (config g)))
    else Ok base_spacing
  else Ok base_spacing.

(** [GridLogic._calculate_order_qty] *)
Definition _calculate_order_qty (g : GridLogic num) (price budget : num) : result num :=
  q ← pydiv budget price;
  let q := fmax q (min_order_qty g) in
  min_qty_for_notional ← pydiv (min_notional g) price;
  let q := fmax q min_qty_for_notional in
  qty_float ← format_quantity q (qty_step g);
  if (qty_float * price <? min_notional g)%py
  then format_quantity min_qty_for_notional (qty_step g)
  else Ok qty_float.

(** One iteration of a level loop of [calculate_grid_levels], for the index
    [i] on side [sd]: the level appended, or [None] when it is skipped. *)
Definition grid_level (g : GridLogic num) (sd : Side) (center spacing budget : num)
  (i : Z) : result (option (GridLevel num)) :=
  let factor := match sd with
                | Buy => (of_int 1 - spacing * of_int i)%py
                | Sell => (of_int 1 + spacing * of_int i)%py
                end in
  p ← format_price (center * factor)%py (tick_size g);
  q ← _calculate_order_qty g p budget;
  if (q >? zero)%py && (q * p >=? min_notional g)%py
  then Ok (Some {| level := match sd with Buy => - i | Sell => i end;
                   price := p; qty := q; side := sd;
                   notional := (q * p)%py |})
  else Ok None.

(** A whole level loop, over the indices in [idx]. *)
Fixpoint grid_side (g : GridLogic num) (sd : Side) (center spacing budget : num)
  (idx : list Z) : result (list (GridLevel num)) :=
  match idx with
  | [] => Ok []
  | i :: rest =>
      l ← grid_level g sd center spacing budget i;
      ls ← grid_side g sd center spacing budget rest;
      Ok (match l with Some l => l :: ls | None => ls end)
  end.

(** [GridLogic.calculate_grid_levels] *)
Definition calculate_grid_levels (g : GridLogic num) (center : num)
  (profile : string) (available_capital : num)
  : result (list (GridLevel num) * list (GridLevel num)) :=
  let target := target_levels (profile_config (config g) profile) in
  spacing ← get_grid_spacing g profile;
  let min_budget_per_level := (min_notional g * lit 11 1)%py in
  q ← pydiv available_capital min_budget_per_level;
  max_possible_levels ← of_option ValueError (trunc q);
  if max_possible_levels <? 2 then Ok ([], [])
  else
    let target :=
      if max_possible_levels <? target + target
      then max_possible_levels `div` 2 else target in
    let total_levels := target + target in
    budget_per_level ← pydiv available_capital (of_int total_levels);
    buys ← grid_side g Buy center spacing budget_per_level (seqZ 1 target);
    sells ← grid_side g Sell center spacing budget_per_level (seqZ 1 target);
    Ok (buys, sells).

(** ** Grid strategy engine: orders and recentering *)

(** One of the two placement loops of [setup_grid]: the orders dictionary,
    the calls issued and the success counter after it. *)
Fixpoint place_levels (place : Z -> placement) (levels : list (GridLevel num))
  (orders : gmap string (GridLevel num)) (success : nat)
  : gmap string (GridLevel num) * list (call num) * nat :=
  match levels with
  | [] => (orders, [], success)
  | l :: rest =>
      match place (level l) with
      | PlaceRaised | PlaceRefused =>
          let '(o, tr, n) := place_levels place rest orders success in
          (o, PlaceOrder l :: tr, n)
      | PlaceAccepted order_id saved =>
          let success' := match saved with
                          | Returned _ => S success
                          | Raised => success
                          end in
          let '(o, tr, n) :=
            place_levels place rest (<[order_id := l]> orders) success' in
          (o, PlaceOrder l :: SaveOrder order_id l :: tr, n)
      end
  end.

(** Truth value of a list: [not l]. *)
Definition is_empty {A : Type} (l : list A) : bool :=
  match l with [] => true | _ => false end.

(** [GridLogic.setup_grid] *)
Definition setup_grid (g : GridLogic num) (profile : string) (env : SetupEnv num)
  : GridLogic num * list (call num) * bool :=
  let '(g, current_price) := get_current_price g (env_now env) (env_mark_price env) in
  if (current_price <=? zero)%py then (g, [], false)
  else
    let g := set_center_price g current_price in
    match env_balance env with
    | Raised => (g, [], false)
    | Returned _ =>
        let capital := initial_capital (config g) in
        match calculate_grid_levels g (center_price g) profile capital with
        | Raise _ => (g, [], false)
        | Ok (b, s) =>
            let g := set_levels g b s in
            if is_empty b || is_empty s then (g, [], false)
            else
              match env_cancel env with
              | Raised => (g, [CancelAllOrders], false)
              | Returned _ =>
                  let '(o, tr_buy, _) :=
                    place_levels (env_place env) b (active_orders g) 0 in
                  let '(o, tr_sell, _) := place_levels (env_place env) s o 0 in
                  let g := set_active_orders g o in
                  let tr := CancelAllOrders :: tr_buy ++ tr_sell in
                  match get_grid_spacing g profile with
                  | Raise _ => (g, tr, false)
                  | Ok _ =>
                      match env_save_history env with
                      | Raised => (g, tr ++ [SaveGridHistory], false)
                      | Returned _ =>
                          let tr := tr ++ [SaveGridHistory; LogEvent "grid_setup" "INFO"] in
                          match env_log_event env with
                          | Raised => (g, tr, false)
                          | Returned _ => (g, tr, true)
                          end
                      end
                  end
              end
        end
    end.

Definition prices_of (sd : Side) (orders : list (OpenOrder num)) : list num :=
  order_price <$> filter (fun o => order_side o = Some sd) orders.

Definition microseconds_per_hour : Z := 3600 * 1000000.

(** The entries of the history not older than [hours] before [now]. *)
Definition recent_history (g : GridLogic num) (now hours : Z) : list (num * Z) :=
  filter (fun p => now - hours * microseconds_per_hour <= p.2) (price_history g).

(** Condition 3 of [should_recenter]: one-sided dominance. *)
Definition one_side_check (g : GridLogic num) (now : Z) : option (Reason num) :=
  if (60 <=? length (price_history g))%nat then
    let recent_hours := one_side_hours (recenter (config g)) in
    let recent := recent_history g now recent_hours in
    if (0 <? length recent)%nat then
      let above_center :=
        length (filter (fun p => (p.1 >? center_price g)%py = true) recent) in
      let above_pct := of_ratio (Z.of_nat above_center) (Z.of_nat (length recent)) in
      if (above_pct >? lit 8 1)%py
      then Some (AboveCenter (above_pct * of_int 100)%py recent_hours)
      else if (above_pct <? lit 2 1)%py
      then Some (BelowCenter ((of_int 1 - above_pct) * of_int 100)%py recent_hours)
      else None
    else None
  else None.

(** Condition 4 of [should_recenter]: pump/dump within the last hour. *)
Definition pump_dump_check (g : GridLogic num) (now : Z) : result (option (Reason num)) :=
  if (60 <=? length (price_history g))%nat then
    match fst <$> recent_history g now 1 with
    | [] => Ok None
    | p :: ps =>
        let min_price := foldl fmin p ps in
        let max_price := foldl fmax p ps in
        pump_pct ← pydiv (max_price - min_price)%py min_price;
        if (pump_pct >=? pump_dump_pct (recenter (config g)))%py
        then Ok (Some (PumpDump (pump_pct * of_int 100)%py))
        else Ok None
    end
  else Ok None.

(** The numbered conditions of [should_recenter], once the current price and
    the extreme active prices are known. *)
Definition recenter_conditions (g : GridLogic num) (now : Z)
  (current_price lowest_buy highest_sell : num) : result (bool * (Reason num)) :=
  let rc := recenter (config g) in
  let deviation_pct := price_deviation_pct rc in
  if (current_price >? highest_sell * (of_int 1 + deviation_pct))%py then
    Ok (true, PriceAboveHighestSell current_price highest_sell
                (deviation_pct * of_int 100)%py)
  else if (current_price <? lowest_buy * (of_int 1 - deviation_pct))%py then
    Ok (true, PriceBelowLowestBuy current_price lowest_buy
                (deviation_pct * of_int 100)%py)
  else
    let hours_since_recenter :=
      fdiv (of_ratio (now - last_recenter_time g) 1000000) (of_int 3600) in
    let time_threshold := time_based_hours rc in
    if (hours_since_recenter >=? time_threshold)%py then
      Ok (true, TimeBased hours_since_recenter time_threshold)
    else
      match one_side_check g now with
      | Some r => Ok (true, r)
      | None =>
          r ← pump_dump_check g now;
          match r with
          | Some r => Ok (true, r)
          | None => Ok (false, NoReason)
          end
      end.

(** [GridLogic.should_recenter], given the mark price and the open orders the
    gateway answered at time [now].  The state changes by the price sample. *)
Definition should_recenter (g : GridLogic num) (now : Z) (mark : response num)
  (open_orders : response (list (OpenOrder num)))
  : GridLogic num * result (bool * (Reason num)) :=
  let '(g, current_price) := get_current_price g now mark in
  if (current_price <=? zero)%py then (g, Ok (false, NoReason))
  else
    match open_orders with
    | Raised => (g, Ok (false, NoReason))
    | Returned [] => (g, Ok (true, NoActiveOrders))
    | Returned orders =>
        match prices_of Buy orders, prices_of Sell orders with
        | b :: bs, s :: ss =>
            let lowest_buy := foldl fmin b bs in
            let highest_sell := foldl fmax s ss in
            (g, recenter_conditions g now current_price lowest_buy highest_sell)
        | _, _ => (g, Ok (false, NoReason))
        end
    end.

(** The state [setup_grid] computes the levels in, when the mark price [p]
    was fetched at [now]. *)
Definition priced (g : GridLogic num) (now : Z) (p : num) : GridLogic num :=
  set_center_price (get_current_price g now (Returned p)).1 p.

(** [GridLogic.recenter_grid]: [logged] and [cancelled] answer its own two
    calls, [env] the nested [setup_grid], and [now] is the clock read after a
    successful setup. *)
Definition recenter_grid (g : GridLogic num) (reason : Reason num) (profile : string)
  (logged cancelled : response unit) (env : SetupEnv num) (now : Z)
  : GridLogic num * list (call num) * bool :=
  match logged with
  | Raised => (g, [LogEvent "recenter" "INFO"], false)
  | Returned _ =>
      match cancelled with
      | Raised => (g, [LogEvent "recenter" "INFO"; CancelAllOrders], false)
      | Returned _ =>
          let g := set_active_orders g ∅ in
          let '(g, tr, success) := setup_grid g profile env in
          let tr := LogEvent "recenter" "INFO" :: CancelAllOrders :: tr in
          if success then (set_last_recenter_time g now, tr, true)
          else (g, tr, false)
      end
  end.

End GridData.

(** ** Risk controller *)

(** [kill_switch_reason]: the empty string, the text [_check_drawdown]
    builds (with the values it interpolates), or a caller's text. *)
Inductive KillReason {N : Type} : Type :=
| NoKillReason
| DrawdownExceeds (drawdown threshold daily_max current_equity : N)
| KillReasonText (text : string).

Arguments KillReason : clear implicits.

(** The attributes of a [RiskManager] object; the first three are read from
    [config['risk']] by the constructor and never assigned again. *)
Record RiskManager {N : Type} : Type := {
  max_exposure_pct : N;
  kill_switch_drawdown_pct : N;
  max_position_size_pct : N;
  kill_switch_active : bool;
  kill_switch_reason : KillReason N;
  daily_max_equity : N;
  last_equity_check : Z;
  current_exposure_usdt : N;
  total_equity_usdt : N
}.

Arguments RiskManager : clear implicits.

(** The calls the risk controller issues. *)
Inductive risk_call : Type :=
| RiskCancelAllOrders
| RiskLogEvent (event_type severity : string).

(** One call on the risk controller, with the collaborators' answers.
    [calculate_funding_impact] and [get_safety_status] only read the state. *)
Inductive risk_op {N : Type} : Type :=
| UpdateEquityTracking (now : Z) (wallet : response (option N))
    (cancelled logged : response unit)
| CheckDrawdown (cancelled logged : response unit)
| TriggerKillSwitch (reason : KillReason N) (cancelled logged : response unit)
| DeactivateKillSwitch
| CheckMaxExposure (positions : response (list (N * N)))
    (wallet : response (option N)) (logged : response unit)
| ValidateOrderSize (qty price : N) (wallet : response (option N))
| CheckOrderAsMaker (sd : option Side) (price : N)
    (ticker : response (option (N * N)))
| GetRiskMetrics (now : Z) (wallet : response (option N))
    (cancelled logged : response unit) (positions : response (list (N * N)))
    (wallet' : response (option N)) (logged' : response unit)
| CalculateFundingImpact (positions : response (list (N * N)))
| GetSafetyStatus.

Arguments risk_op : clear implicits.

Section RiskData.
Context `{PyFloat}.

Definition set_kill_switch (r : RiskManager num) (active : bool) (reason : KillReason num)
  : RiskManager num :=
  {| max_exposure_pct := max_exposure_pct r;
     kill_switch_drawdown_pct := kill_switch_drawdown_pct r;
     max_position_size_pct := max_position_size_pct r;
     kill_switch_active := active;
     kill_switch_reason := reason;
     daily_max_equity := daily_max_equity r;
     last_equity_check := last_equity_check r;
     current_exposure_usdt := current_exposure_usdt r;
     total_equity_usdt := total_equity_usdt r |}.

Definition set_daily_max_equity (r : RiskManager num) (e : num) : RiskManager num :=
  {| max_exposure_pct := max_exposure_pct r;
     kill_switch_drawdown_pct := kill_switch_drawdown_pct r;
     max_position_size_pct := max_position_size_pct r;
     kill_switch_active := kill_switch_active r;
     kill_switch_reason := kill_switch_reason r;
     daily_max_equity := e;
     last_equity_check := last_equity_check r;
     current_exposure_usdt := current_exposure_usdt r;
     total_equity_usdt := total_equity_usdt r |}.

Definition set_last_equity_check (r : RiskManager num) (t : Z) : RiskManager num :=
  {| max_exposure_pct := max_exposure_pct r;
     kill_switch_drawdown_pct := kill_switch_drawdown_pct r;
     max_position_size_pct := max_position_size_pct r;
     kill_switch_active := kill_switch_active r;
     kill_switch_reason := kill_switch_reason r;
     daily_max_equity := daily_max_equity r;
     last_equity_check := t;
     current_exposure_usdt := current_exposure_usdt r;
     total_equity_usdt := total_equity_usdt r |}.

Definition set_current_exposure_usdt (r : RiskManager num) (e : num) : RiskManager num :=
  {| max_exposure_pct := max_exposure_pct r;
     kill_switch_drawdown_pct := kill_switch_drawdown_pct r;
     max_position_size_pct := max_position_size_pct r;
     kill_switch_active := kill_switch_active r;
     kill_switch_reason := kill_switch_reason r;
     daily_max_equity := daily_max_equity r;
     last_equity_check := last_equity_check r;
     current_exposure_usdt := e;
     total_equity_usdt := total_equity_usdt r |}.

Definition set_total_equity_usdt (r : RiskManager num) (e : num) : RiskManager num :=
  {| max_exposure_pct := max_exposure_pct r;
     kill_switch_drawdown_pct := kill_switch_drawdown_pct r;
     max_position_size_pct := max_position_size_pct r;
     kill_switch_active := kill_switch_active r;
     kill_switch_reason := kill_switch_reason r;
     daily_max_equity := daily_max_equity r;
     last_equity_check := last_equity_check r;
     current_exposure_usdt := current_exposure_usdt r;
     total_equity_usdt := e |}.

Definition microseconds_per_day : Z := 86400 * 1000000.

(** [t.date()] of a UTC [datetime], as a day number. *)
Definition date (t : Z) : Z := t `div` microseconds_per_day.

(** What [get_wallet_balance] answered: a dictionary ([None] when it is empty)
    whose ['totalEquity'] is given after [safe_float]. *)
Definition wallet_response : Type := response (option num).

(** [RiskManager.trigger_kill_switch] *)
Definition trigger_kill_switch (r : RiskManager num) (reason : KillReason num)
  (cancelled logged : response unit) : RiskManager num * list risk_call :=
  if kill_switch_active r then (r, [])
  else
    let r := set_kill_switch r true reason in
    match cancelled with
    | Raised => (r, [RiskCancelAllOrders])
    | Returned _ =>
        let details :=
          if (daily_max_equity r >? zero)%py
          then d ← pydiv (daily_max_equity r - total_equity_usdt r)%py
                     (daily_max_equity r);
               Ok (d * of_int 100)%py
          else Ok zero in
        match details with
        | Raise _ => (r, [RiskCancelAllOrders])
        | Ok _ => (r, [RiskCancelAllOrders; RiskLogEvent "kill_switch" "CRITICAL"])
        end
    end.

(** [RiskManager._check_drawdown] *)
Definition _check_drawdown (r : RiskManager num) (cancelled logged : response unit)
  : result (RiskManager num * list risk_call) :=
  if (daily_max_equity r <=? zero)%py then Ok (r, [])
  else
    let current_equity := total_equity_usdt r in
    drawdown ← pydiv (daily_max_equity r - current_equity)%py (daily_max_equity r);
    if (drawdown >=? kill_switch_drawdown_pct r)%py then
      let reason := DrawdownExceeds drawdown (kill_switch_drawdown_pct r)
                      (daily_max_equity r) current_equity in
      Ok (trigger_kill_switch r reason cancelled logged)
    else Ok (r, []).

(** [RiskManager.update_equity_tracking] at clock reading [now]. *)
Definition update_equity_tracking (r : RiskManager num) (now : Z)
  (wallet : wallet_response) (cancelled logged : response unit)
  : RiskManager num * list risk_call :=
  match wallet with
  | Raised => (r, [])
  | Returned None => (r, [])
  | Returned (Some total_equity) =>
      let r :=
        if bool_decide (date now ≠ date (last_equity_check r))
        then set_daily_max_equity r total_equity
        else if (total_equity >? daily_max_equity r)%py
             then set_daily_max_equity r total_equity
             else r in
      let r := set_total_equity_usdt r total_equity in
      let r := set_last_equity_check r now in
      match _check_drawdown r cancelled logged with
      | Ok out => out
      | Raise _ => (r, [])
      end
  end.

(** [RiskManager.deactivate_kill_switch] *)
Definition deactivate_kill_switch (r : RiskManager num) : RiskManager num :=
  if kill_switch_active r then
    let r := set_kill_switch r false NoKillReason in
    set_daily_max_equity r (total_equity_usdt r)
  else r.

(** The sum of [size * markPrice] over the positions with [size > 0], both
    given after [safe_float]. *)
Definition total_position_value (positions : list (num * num)) : num :=
  foldl (fun acc pos => if (pos.1 >? zero)%py then (acc + pos.1 * pos.2)%py else acc)
        zero positions.

(** [RiskManager.check_max_exposure] *)
Definition check_max_exposure (r : RiskManager num)
  (positions : response (list (num * num))) (wallet : wallet_response)
  (logged : response unit) : RiskManager num * list risk_call * bool :=
  match positions with
  | Raised => (r, [], false)
  | Returned ps =>
      let r := set_current_exposure_usdt r (total_position_value ps) in
      match wallet with
      | Raised => (r, [], false)
      | Returned w =>
          let r := match w with
                   | Some e => set_total_equity_usdt r e
                   | None => r
                   end in
          if (total_equity_usdt r <=? zero)%py then (r, [], false)
          else
            match pydiv (current_exposure_usdt r) (total_equity_usdt r) with
            | Raise _ => (r, [], false)
            | Ok exposure_pct =>
                if (exposure_pct >? max_exposure_pct r)%py
                then (r, [RiskLogEvent "max_exposure" "WARNING"], false)
                else (r, [], true)
            end
      end
  end.

(** [RiskManager.validate_order_size] *)
Definition validate_order_size (r : RiskManager num) (qty price : num)
  (wallet : wallet_response) : RiskManager num * bool :=
  let order_value := (qty * price)%py in
  let fetched :=
    if (total_equity_usdt r <=? zero)%py then
      match wallet with
      | Raised => None
      | Returned (Some e) => Some (set_total_equity_usdt r e)
      | Returned None => Some r
      end
    else Some r in
  match fetched with
  | None => (r, false)
  | Some r =>
      if (total_equity_usdt r <=? zero)%py then (r, false)
      else
        match pydiv order_value (total_equity_usdt r) with
        | Raise _ => (r, false)
        | Ok order_pct =>
            (r, negb (order_pct >? max_position_size_pct r)%py)
        end
  end.

(** [RiskManager.check_order_as_maker]: [ticker] is what [get_ticker]
    answered, an empty dictionary ([None]) or the best bid and ask after
    [safe_float]; [sd] is [None] for a side that is neither text. *)
Definition check_order_as_maker (sd : option Side) (price : num)
  (ticker : response (option (num * num))) : bool :=
  match ticker with
  | Raised => true
  | Returned None => false
  | Returned (Some (best_bid, best_ask)) =>
      match sd with
      | Some Buy => negb (price >=? best_ask)%py
      | Some Sell => negb (price <=? best_bid)%py
      | None => true
      end
  end.

(** The state change of [RiskManager.get_risk_metrics], which refreshes the
    tracking before it reports: [update_equity_tracking], then
    [check_max_exposure]. *)
Definition get_risk_metrics (r : RiskManager num) (now : Z) (wallet : wallet_response)
  (cancelled logged : response unit) (positions : response (list (num * num)))
  (wallet' : wallet_response) (logged' : response unit)
  : RiskManager num * list risk_call :=
  let '(r, tr) := update_equity_tracking r now wallet cancelled logged in
  let '(r, tr', _) := check_max_exposure r positions wallet' logged' in
  (r, tr ++ tr').

Definition risk_step (r : RiskManager num) (op : risk_op num) : RiskManager num * list risk_call :=
  match op with
  | UpdateEquityTracking now w c l => update_equity_tracking r now w c l
  | CheckDrawdown c l =>
      match _check_drawdown r c l with
      | Ok out => out
      | Raise _ => (r, [])
      end
  | TriggerKillSwitch reason c l => trigger_kill_switch r reason c l
  | DeactivateKillSwitch => (deactivate_kill_switch r, [])
  | CheckMaxExposure ps w l =>
      let '(r, tr, _) := check_max_exposure r ps w l in (r, tr)
  | ValidateOrderSize q p w => ((validate_order_size r q p w).1, [])
  | CheckOrderAsMaker _ _ _ => (r, [])
  | GetRiskMetrics now w c l ps w' l' => get_risk_metrics r now w c l ps w' l'
  | CalculateFundingImpact _ => (r, [])
  | GetSafetyStatus => (r, [])
  end.

(** A sequence of calls, in order: the final state and all calls issued. *)
Fixpoint risk_run (r : RiskManager num) (ops : list (risk_op num))
  : RiskManager num * list risk_call :=
  match ops with
  | [] => (r, [])
  | op :: rest =>
      let '(r, tr) := risk_step r op in
      let '(r, tr') := risk_run r rest in
      (r, tr ++ tr')
  end.

Definition is_deactivation (op : risk_op num) : bool :=
  match op with
  | DeactivateKillSwitch => true
  | _ => false
  end.

(** The time of the call, for the operations that read the clock. *)
Definition op_time (op : risk_op num) : option Z :=
  match op with
  | UpdateEquityTracking now _ _ _ => Some now
  | GetRiskMetrics now _ _ _ _ _ _ => Some now
  | _ => None
  end.

End RiskData.

(** ** Grid strategy engine: what it reports and what it keeps *)

(** The dictionary returned by [GridLogic.get_grid_stats]. *)
Record GridStats {N : Type} : Type := {
  stats_center_price : N;
  num_buy_levels : nat;
  num_sell_levels : nat;
  lowest_buy : N;
  highest_sell : N;
  total_active_orders : nat;
  last_recenter : Z
}.

Arguments GridStats : clear implicits.

Section GridReports.
Context `{PyFloat}.

(** [GridLogic.get_grid_stats]: [levels[-1]['price'] if levels else 0]. *)
Definition get_grid_stats (g : GridLogic num) : GridStats num :=
  {| stats_center_price := center_price g;
     num_buy_levels := length (buy_levels g);
     num_sell_levels := length (sell_levels g);
     lowest_buy := match last (buy_levels g) with
                   | Some l => price l
                   | None => zero
                   end;
     highest_sell := match last (sell_levels g) with
                     | Some l => price l
                     | None => zero
                     end;
     total_active_orders := size (active_orders g);
     last_recenter := last_recenter_time g |}.

(** Every sample of a price history was positive when it was taken. *)
Definition positive_history (h : list (num * Z)) : Prop :=
  Forall (fun sample => (sample.1 >? zero)%py = true) h.

(** The level number written for the index [i] of a level loop. *)
Definition signed_level (sd : Side) (i : Z) : Z :=
  match sd with Buy => - i | Sell => i end.

(** The levels passed to [place_order], in the order of the calls. *)
Definition placed_levels (tr : list (call num)) : list (GridLevel num) :=
  omap (fun c => match c with PlaceOrder l => Some l | _ => None end) tr.

(** How far one [setup_grid] got: it returned before the cancel-all call,
    that call raised, or the two placement loops ran. *)
Inductive setup_outcome (g : GridLogic num) (env : SetupEnv num)
  : GridLogic num -> list (call num) -> bool -> Prop :=
| SetupNoLevels g' :
    active_orders g' = active_orders g ->
    setup_outcome g env g' [] false
| SetupCancelRaised g' :
    active_orders g' = active_orders g ->
    buy_levels g' <> [] -> sell_levels g' <> [] ->
    env_cancel env = Raised ->
    setup_outcome g env g' [CancelAllOrders] false
| SetupPlaced g' o1 tb n1 ts n2 rest ok :
    buy_levels g' <> [] -> sell_levels g' <> [] ->
    (exists u, env_cancel env = Returned u) ->
    place_levels (env_place env) (buy_levels g') (active_orders g) 0 = (o1, tb, n1) ->
    place_levels (env_place env) (sell_levels g') o1 0 = (active_orders g', ts, n2) ->
    placed_levels rest = [] ->
    (forall id l, SaveOrder id l ∉ rest) ->
    CancelAllOrders ∉ rest ->
    setup_outcome g env g' (CancelAllOrders :: tb ++ ts ++ rest) ok.

End GridReports.

(** ** Risk controller: counting the cancel-all calls *)

#[global] Instance risk_call_eq_dec : EqDecision risk_call.
Proof. solve_decision. Defined.

(** How many times a trace asks the gateway to cancel all orders. *)
Definition cancel_calls (tr : list risk_call) : nat :=
  length (filter (fun c => c = RiskCancelAllOrders) tr).

(** The kill-switch was off in [r] and is on in [r']. *)
Definition fresh_activation {N : Type} (r r' : RiskManager N) : bool :=
  negb (kill_switch_active r) && kill_switch_active r'.

(** ** Exchange gateway: retries *)

(** What one attempt of [BybitClient._request], one pass through the body
    of its loop, met: a JSON body with its ['retCode'] ([None] when the key
    is absent or holds no integer) and its ['result'], [asyncio.TimeoutError],
    or any other exception raised inside the [try] block.  The ValueError
    that the block raises for a method that is neither ["GET"] nor ["POST"]
    is such an exception: that attempt sends no HTTP request. *)
Inductive attempt (R : Type) : Type :=
| Replied (ret_code : option Z) (payload : R)
| RequestTimeout
| RequestException.

Arguments Replied {R} _ _.
Arguments RequestTimeout {R}.
Arguments RequestException {R}.

(** What [_request] returns: the ['result'] of the body, a dictionary with
    the key ['error'] holding the return code, or one holding
    ['max_retries']. *)
Inductive reply (R : Type) : Type :=
| Result (payload : R)
| ErrorCode (ret_code : option Z)
| MaxRetries.

Arguments Result {R} _.
Arguments ErrorCode {R} _.
Arguments MaxRetries {R}.

(** [ret_code in [10001, 110043, 100028]] *)
Definition non_critical (code : option Z) : bool :=
  bool_decide (code ∈ [Some 10001; Some 110043; Some 100028]).

(** The loop [for attempt in range(retry_count)] of [_request], over the
    attempts still to make: the value returned or the exception re-raised,
    the seconds slept between attempts, and the number of attempts made.  An
    attempt sends one HTTP request, or none when the method is not
    supported. *)
Fixpoint request_attempts {R : Type} (answer : nat -> attempt R) (retry_count : nat)
  (range : list nat) : response (reply R) * list Z * nat :=
  match range with
  | [] => (Returned MaxRetries, [], 0%nat)
  | attempt :: rest =>
      let retry (wait : Z) :=
        let '(r, sleeps, made) := request_attempts answer retry_count rest in
        (r, wait :: sleeps, S made) in
      match answer attempt with
      | Replied ret_code payload =>
          if bool_decide (ret_code = Some 0) then (Returned (Result payload), [], 1%nat)
          else if non_critical ret_code then (Returned (ErrorCode ret_code), [], 1%nat)
          else if bool_decide (ret_code = Some 10006) then retry (2 ^ Z.of_nat attempt)
          else if (attempt <? retry_count - 1)%nat then retry 1
          else (Returned (ErrorCode ret_code), [], 1%nat)
      | RequestTimeout | RequestException =>
          if (attempt <? retry_count - 1)%nat then retry (2 ^ Z.of_nat attempt)
          else (Raised, [], 1%nat)
      end
  end.

(** [BybitClient._request] from its retry loop on, given what each attempt
    meets.  Before the loop the method awaits [_rate_limit] once (modelled
    on its own below) and signs the parameters; neither returns, raises or
    depends on the attempts, so the outcome of the method is the outcome of
    the loop, while the wait of the rate limiter comes on top of the sleeps
    listed here. *)
Definition _request {R : Type} (answer : nat -> attempt R) (retry_count : nat)
  : response (reply R) * list Z * nat :=
  request_attempts answer retry_count (seq 0 retry_count).

(** The attempt ended in an exception. *)
Definition raises {R : Type} (a : attempt R) : bool :=
  match a with Replied _ _ => false | _ => true end.

(** The attempt ends the loop whatever its position: success, or one of the
    three return codes that are handed back at once. *)
Definition settles {R : Type} (a : attempt R) : bool :=
  match a with
  | Replied code _ => bool_decide (code = Some 0) || non_critical code
  | _ => false
  end.

(** The attempt was answered with the rate-limit code 10006. *)
Definition rate_limited {R : Type} (a : attempt R) : bool :=
  match a with
  | Replied code _ => bool_decide (code = Some 10006) && negb (non_critical code)
  | _ => false
  end.

(** What a settling attempt makes [_request] return. *)
Definition settled {R : Type} (a : attempt R) : reply R :=
  match a with
  | Replied code payload =>
      if bool_decide (code = Some 0) then Result payload else ErrorCode code
  | _ => MaxRetries
  end.

Definition sum_list_Z (l : list Z) : Z := foldr Z.add 0 l.

(** ** Exchange gateway: rate limiting *)

(** [self.rate_limit_per_second], fixed by the constructor. *)
Definition rate_limit_per_second : nat := 10.

(** [BybitClient._rate_limit] at clock reading [current_time]: the new
    [request_times] and the time slept, if any.  ([request_times[0]] is only
    read when the list holds at least ten entries.) *)
Definition _rate_limit `{PyFloat} (request_times : list num) (current_time : num)
  : list num * option num :=
  let times :=
    filter (fun t => (current_time - t <? lit 1 0)%py = true) request_times in
  let '(times, slept) :=
    if (rate_limit_per_second <=? length times)%nat then
      match times with
      | first :: _ =>
          let sleep_time := (lit 1 0 - (current_time - first))%py in
          if (sleep_time >? zero)%py then ([], Some sleep_time) else (times, None)
      | [] => (times, None)
      end
    else (times, None) in
  (times ++ [current_time], slept).

(** ** The bot *)

(** The attributes of a [GridTradingBot] that its trading methods read and
    assign. *)
Record Bot {N : Type} : Type := {
  running : bool;
  active_profile : string;
  grid : GridLogic N;
  risk : RiskManager N
}.

Arguments Bot : clear implicits.

(** The collaborators' answers during one iteration of [_monitor_risk]: to
    [update_equity_tracking], to [check_max_exposure], to [get_risk_metrics]
    (which refreshes both again) and to the cancel-all call of
    [stop_trading]. *)
Record RiskTick {N : Type} : Type := {
  tick_now : Z;
  tick_wallet : response (option N);
  tick_cancelled : response unit;
  tick_logged : response unit;
  tick_positions : response (list (N * N));
  tick_exposure_wallet : response (option N);
  tick_exposure_logged : response unit;
  metrics_now : Z;
  metrics_wallet : response (option N);
  metrics_cancelled : response unit;
  metrics_logged : response unit;
  metrics_positions : response (list (N * N));
  metrics_exposure_wallet : response (option N);
  metrics_exposure_logged : response unit;
  tick_stop_cancelled : response unit
}.

Arguments RiskTick : clear implicits.

(** The collaborators' answers during one iteration of [_monitor_grid]: to
    [should_recenter], to [check_max_exposure] and to [recenter_grid]. *)
Record GridTick {N : Type} : Type := {
  grid_now : Z;
  grid_mark_price : response N;
  grid_open_orders : response (list (OpenOrder N));
  grid_positions : response (list (N * N));
  grid_wallet : response (option N);
  grid_exposure_logged : response unit;
  grid_recenter_logged : response unit;
  grid_recenter_cancelled : response unit;
  grid_setup : SetupEnv N;
  grid_recentered_at : Z
}.

Arguments GridTick : clear implicits.

(** How [GridTradingBot.start_trading] goes on after its own statements:
    it has returned, or it awaits [asyncio.gather] of the four monitoring
    loops, which run for as long as [running] holds. *)
Inductive start_outcome : Type :=
| StartReturned
| StartMonitoring.

Section BotData.
Context `{PyFloat}.

Definition set_running (b : Bot num) (v : bool) : Bot num :=
  {| running := v; active_profile := active_profile b;
     grid := grid b; risk := risk b |}.

Definition set_grid (b : Bot num) (g : GridLogic num) : Bot num :=
  {| running := running b; active_profile := active_profile b;
     grid := g; risk := risk b |}.

Definition set_risk (b : Bot num) (r : RiskManager num) : Bot num :=
  {| running := running b; active_profile := active_profile b;
     grid := grid b; risk := r |}.

(** The three values of the dictionary of [get_risk_metrics] that
    [_monitor_risk] formats: ['total_equity'], ['exposure_pct'] and
    ['current_drawdown_pct'].  When the computation raises,
    [get_risk_metrics] returns a dictionary without these keys. *)
Definition risk_metrics (r : RiskManager num) : result (num * num * num) :=
  exposure_pct ←
    (if (total_equity_usdt r >? zero)%py
     then q ← pydiv (current_exposure_usdt r) (total_equity_usdt r);
          Ok (q * of_int 100)%py
     else Ok zero);
  drawdown_pct ←
    (if (daily_max_equity r >? zero)%py
     then q ← pydiv (daily_max_equity r - total_equity_usdt r)%py (daily_max_equity r);
          Ok (q * of_int 100)%py
     else Ok zero);
  Ok (total_equity_usdt r, exposure_pct, drawdown_pct).

(** [GridTradingBot.start_trading] up to its [await asyncio.gather(...)]:
    the bot and the calls issued so far, and how the method goes on.  With
    [StartReturned] the pair is the result of the whole method.  With
    [StartMonitoring] it is the state in which the loops start; the method
    then returns only when they have ended, and what they do to the bot in
    between is the matter of [monitor_grid_step] and [monitor_risk_step].
    [setup_grid] catches its own exceptions, so the handler of the method
    (which resets [running]) is met by exceptions of the loops only. *)
Definition start_trading (b : Bot num) (env : SetupEnv num)
  : Bot num * list (call num) * start_outcome :=
  if running b then (b, [], StartReturned)
  else if kill_switch_active (risk b) then (b, [], StartReturned)
  else
    let '(g, tr, success) := setup_grid (grid b) (active_profile b) env in
    let b := set_grid b g in
    if success then (set_running b true, tr, StartMonitoring)
    else (b, tr, StartReturned).

(** [GridTradingBot.stop_trading]: the last component is what the cancel-all
    call did, an exception of which the method lets through. *)
Definition stop_trading (b : Bot num) (cancelled : response unit)
  : Bot num * list (call num) * response unit :=
  if running b then (set_running b false, [CancelAllOrders], cancelled)
  else (b, [], Returned tt).

(** One iteration of the loop of [GridTradingBot._monitor_risk], with no
    other task scheduled in between: the bot, the calls of the risk
    controller and the calls of [stop_trading].  Formatting the metrics of a
    dictionary that lacks them raises KeyError, which the loop catches
    before it looks at the kill-switch. *)
Definition monitor_risk_step (b : Bot num) (t : RiskTick num)
  : Bot num * list risk_call * list (call num) :=
  let '(r, tr1) := update_equity_tracking (risk b) (tick_now t) (tick_wallet t)
                     (tick_cancelled t) (tick_logged t) in
  let '(r, tr2, _) := check_max_exposure r (tick_positions t)
                        (tick_exposure_wallet t) (tick_exposure_logged t) in
  let '(r, tr3) := get_risk_metrics r (metrics_now t) (metrics_wallet t)
                     (metrics_cancelled t) (metrics_logged t) (metrics_positions t)
                     (metrics_exposure_wallet t) (metrics_exposure_logged t) in
  let b := set_risk b r in
  let tr := tr1 ++ tr2 ++ tr3 in
  match risk_metrics r with
  | Raise _ => (b, tr, [])
  | Ok _ =>
      if kill_switch_active r && running b then
        let '(b, calls, _) := stop_trading b (tick_stop_cancelled t) in (b, tr, calls)
      else (b, tr, [])
  end.

(** One iteration of the loop of [GridTradingBot._monitor_grid], with no
    other task scheduled in between: the bot, the calls of the risk
    controller and the calls of the engine. *)
Definition monitor_grid_step (b : Bot num) (t : GridTick num)
  : Bot num * list risk_call * list (call num) :=
  if kill_switch_active (risk b) then (b, [], [])
  else
    let '(g, decision) :=
      should_recenter (grid b) (grid_now t) (grid_mark_price t) (grid_open_orders t) in
    let b := set_grid b g in
    match decision with
    | Raise _ => (b, [], [])
    | Ok (false, _) => (b, [], [])
    | Ok (true, reason) =>
        let '(r, rtr, exposure_ok) :=
          check_max_exposure (risk b) (grid_positions t) (grid_wallet t)
            (grid_exposure_logged t) in
        let b := set_risk b r in
        if exposure_ok then
          let '(g, tr, _) :=
            recenter_grid (grid b) reason (active_profile b) (grid_recenter_logged t)
              (grid_recenter_cancelled t) (grid_setup t) (grid_recentered_at t) in
          (set_grid b g, rtr, tr)
        else (b, rtr, [])
    end.

End BotData.

(** ** What the proofs need of the arithmetic *)

(** Two facts about comparison with zero, true of exact and of binary64
    arithmetic alike (a nan compares false with everything). *)
Class PyFloatLaws (F : PyFloat) : Prop := {
  gt_zero_not_le : forall x : num, (x >? zero)%py = true -> (x <=? zero)%py = false;
  not_le_zero_nonzero : forall x : num, (x <=? zero)%py = false -> is_zero x = false
}.

(** Two more, about zero itself. *)
Class PyFloatZero (F : PyFloat) : Prop := {
  zero_le_zero : (zero <=? zero)%py = true;
  zero_not_gt_zero : (zero >? zero)%py = false
}.

(** One about [int()]: a float that compares [>= 0] and [< 2] truncates to
    0 or to 1 (a binary64 mantissa has at most 53 bits). *)
Class PyFloatTrunc (F : PyFloat) : Prop := {
  trunc_below_two : forall q : num,
    (zero <=? q)%py = true -> (q <? of_int 2)%py = true ->
    exists m, trunc q = Some m /\ 0 <= m < 2
}.

(** And one about the drawdown [(maximum - equity) / maximum]: when the
    equity has not fallen below a maximum that is not [<= 0] (it is the
    maximum itself, or compares equal to it), the drawdown does not reach a
    positive threshold.  In binary64 the difference is then 0.0, or a nan
    for an infinite or nan maximum, and neither compares [>=] to the
    threshold. *)
Class PyFloatDrawdown (F : PyFloat) : Prop := {
  no_fall_no_drawdown : forall x y p : num,
    (x <=? zero)%py = false ->
    x = y \/ ((x <=? y)%py = true /\ (x <? y)%py = false) ->
    (p >? zero)%py = true ->
    (fdiv (x - y) x >=? p)%py = false
}.

(** ** Sample states *)

(** A controller that has seen 1000 as the day's highest equity and now sees
    900, with a 5% drawdown threshold. *)
Definition sample_risk (active : bool) : RiskManager Q :=
  @Build_RiskManager Q
    (8 # 10)%Q (5 # 100)%Q (1 # 10)%Q
    active (if active then KillReasonText "manual" else NoKillReason)
    1000%Q 0 0%Q 900%Q.

(** An engine for an instrument with the given tick size, quantity step and
    minimum order quantity, a minimum notional of 5, one profile (['Normal'],
    three levels a side) and a capital of 100; the grid is still empty. *)
Definition sample_grid `{PyFloat} (spacing : num) (tick step : string)
  (min_qty : num) : GridLogic num :=
  {| config :=
       {| normal_profile := {| grid_spacing := spacing; target_levels := 3 |};
          profiles := ∅;
          grid_spacing_max := lit 5 2;
          initial_capital := of_int 100;
          recenter := {| price_deviation_pct := lit 2 2;
                         time_based_hours := of_int 48;
                         one_side_hours := 24;
                         pump_dump_pct := lit 5 2 |} |};
     center_price := zero;
     buy_levels := [];
     sell_levels := [];
     active_orders := ∅;
     min_order_qty := min_qty;
     qty_step := step;
     tick_size := tick;
     min_notional := of_int 5;
     last_recenter_time := 0;
     price_history := [] |}.

(** The scenario of the specification: centre 100, spacing 1%, tick 0.01. *)
Definition scenario_grid : GridLogic Q :=
  @sample_grid exact (1 # 100)%Q "0.01" "0.1" 0%Q.

Definition scenario_levels : list (GridLevel Q) * list (GridLevel Q) :=
  Eval vm_compute in
    match @calculate_grid_levels exact scenario_grid 100%Q "Normal" 100%Q with
    | Ok ls => ls
    | Raise _ => ([], [])
    end.

(** An instrument quoted near 0.0105 with a tick of 0.0001, traded with a
    spacing of 0.3%: one tick is more than one spacing step. *)
Definition coarse_grid `{PyFloat} : GridLogic num :=
  sample_grid (lit 3 3) "0.0001" "1" (of_int 1).

(** What [calculate_grid_levels] returns for that instrument, with a centre of
    0.0105 and a capital of 100, in exact and in binary64 arithmetic. *)
Definition coarse_levels_exact
  : result (list (GridLevel Q) * list (GridLevel Q)) :=
  Eval vm_compute in
    @calculate_grid_levels exact coarse_grid (105 # 10000)%Q "Normal" 100%Q.

Definition coarse_levels_binary64
  : result (list (GridLevel float) * list (GridLevel float)) :=
  Eval vm_compute in
    @calculate_grid_levels binary64 coarse_grid (@lit binary64 105 4) "Normal"
      (b64_of_int 100).

(** An instrument quoted near 2 with a tick of 0.01, traded with a spacing
    of 0.5%: one spacing step is one tick. *)
Definition fine_grid `{PyFloat} : GridLogic num :=
  sample_grid (lit 5 3) "0.01" "0.1" zero.

(** What [calculate_grid_levels] returns for that instrument, with a centre of
    2 and a capital of 100, in exact and in binary64 arithmetic. *)
Definition fine_levels_exact
  : result (list (GridLevel Q) * list (GridLevel Q)) :=
  Eval vm_compute in
    @calculate_grid_levels exact fine_grid 2%Q "Normal" 100%Q.

Definition fine_levels_binary64
  : result (list (GridLevel float) * list (GridLevel float)) :=
  Eval vm_compute in
    @calculate_grid_levels binary64 fine_grid (b64_of_int 2) "Normal" (b64_of_int 100).

(** An instrument with a minimum notional of 1.9, quoted near 1 with a tick
    of 0.01 and traded with a spacing of 1%. *)
Definition thin_grid `{PyFloat} : GridLogic num :=
  let g := sample_grid (lit 1 2) "0.01" "0.1" zero in
  {| config := config g;
     center_price := center_price g;
     buy_levels := [];
     sell_levels := [];
     active_orders := ∅;
     min_order_qty := min_order_qty g;
     qty_step := qty_step g;
     tick_size := tick_size g;
     min_notional := lit 19 1;
     last_recenter_time := 0;
     price_history := [] |}.

(** What [calculate_grid_levels] returns for that instrument in binary64,
    with a centre of 1 and a capital of 4.18. *)
Definition thin_levels_binary64 : list (GridLevel float) * list (GridLevel float) :=
  Eval vm_compute in
    match @calculate_grid_levels binary64 thin_grid (b64_of_int 1) "Normal"
            (@lit binary64 418 2) with
    | Ok ls => ls
    | Raise _ => ([], [])
    end.

(** A binary64 controller whose kill-switch was activated at an equity of
    950, after a day's maximum of 1000, with a 5% drawdown threshold. *)
Definition tripped_risk : RiskManager float :=
  @Build_RiskManager float
    (@lit binary64 9 1) (@lit binary64 5 2) (@lit binary64 1 1)
    true (KillReasonText "manual")
    (b64_of_int 1000) 0 (b64_of_int 0) (b64_of_int 950).

(** Open orders: buys at 98 and 99, sells at 101 and 102. *)
Definition scenario_orders : list (OpenOrder Q) :=
  [ @Build_OpenOrder Q (Some Buy) 98%Q;
    @Build_OpenOrder Q (Some Buy) 99%Q;
    @Build_OpenOrder Q (Some Sell) 101%Q;
    @Build_OpenOrder Q (Some Sell) 102%Q ].

(** 49 hours after the epoch. *)
Definition after_49_hours : Z := 49 * microseconds_per_hour.

(** A setup in which the gateway answers every call and refuses every
    order. *)
Definition refusing_env : SetupEnv Q :=
  @Build_SetupEnv Q after_49_hours (Returned 100%Q) (Returned 1000%Q)
    (Returned tt) (fun _ => PlaceRefused) (Returned tt) (Returned tt).

(** A setup in which the mark price cannot be fetched. *)
Definition priceless_env : SetupEnv Q :=
  @Build_SetupEnv Q after_49_hours Raised (Returned 1000%Q)
    (Returned tt) (fun _ => PlaceRefused) (Returned tt) (Returned tt).

(** Calls on the risk controller during which the equity recovers to twice
    the day's maximum. *)
Definition recovery_ops : list (risk_op Q) :=
  [ @UpdateEquityTracking Q 1000 (Returned (Some 2000%Q)) (Returned tt) (Returned tt);
    @CheckMaxExposure Q (Returned []) (Returned (Some 2000%Q)) (Returned tt);
    @ValidateOrderSize Q 1%Q 10%Q (Returned (Some 2000%Q));
    @GetRiskMetrics Q 2000 (Returned (Some 2000%Q)) (Returned tt) (Returned tt)
      (Returned []) (Returned (Some 2000%Q)) (Returned tt) ].

(** Open orders on the buy side only. *)
Definition buy_only_orders : list (OpenOrder Q) :=
  [ @Build_OpenOrder Q (Some Buy) 98%Q;
    @Build_OpenOrder Q (Some Buy) 99%Q ].

(** The engine of the scenario with its levels computed at the centre 100. *)
Definition scenario_grid_with_levels : GridLogic Q :=
  @set_levels exact scenario_grid scenario_levels.1 scenario_levels.2.

(** The engine of the scenario with a further profile, ['Flat'], that asks
    for no level at all. *)
Definition flat_grid : GridLogic Q :=
  {| config :=
       {| normal_profile := normal_profile (config scenario_grid);
          profiles := {[ "Flat" := @Build_Profile Q (1 # 100)%Q 0 ]};
          grid_spacing_max := grid_spacing_max (config scenario_grid);
          initial_capital := initial_capital (config scenario_grid);
          recenter := recenter (config scenario_grid) |};
     center_price := center_price scenario_grid;
     buy_levels := [];
     sell_levels := [];
     active_orders := ∅;
     min_order_qty := min_order_qty scenario_grid;
     qty_step := qty_step scenario_grid;
     tick_size := tick_size scenario_grid;
     min_notional := min_notional scenario_grid;
     last_recenter_time := 0;
     price_history := [] |}.

(** A gateway that times out twice and then answers with success. *)
Definition flaky_gateway : nat -> attempt unit :=
  fun i => if (i <? 2)%nat then RequestTimeout else Replied (Some 0) tt.

(** A running bot whose controller has seen 1000 as the day's highest
    equity. *)
Definition sample_bot : Bot Q :=
  {| running := true; active_profile := "Normal";
     grid := scenario_grid; risk := sample_risk false |}.

(** An iteration of the risk monitor during which the wallet reports an
    equity of 900 and no position is open. *)
Definition falling_tick : RiskTick Q :=
  {| tick_now := 1000;
     tick_wallet := Returned (Some 900%Q);
     tick_cancelled := Returned tt;
     tick_logged := Returned tt;
     tick_positions := Returned [];
     tick_exposure_wallet := Returned (Some 900%Q);
     tick_exposure_logged := Returned tt;
     metrics_now := 2000;
     metrics_wallet := Returned (Some 900%Q);
     metrics_cancelled := Returned tt;
     metrics_logged := Returned tt;
     metrics_positions := Returned [];
     metrics_exposure_wallet := Returned (Some 900%Q);
     metrics_exposure_logged := Returned tt;
     tick_stop_cancelled := Returned tt |}.

(** * Properties *)

Lemma exact_laws : PyFloatLaws exact.
Proof.
  split; cbn; intros x.
  - unfold Qltb. rewrite negb_true_iff. auto.
  - intros Hle. destruct (Qeq_bool x 0) eqn:E; [|done].
    apply Qeq_bool_iff in E.
    assert (Qle_bool x (inject_Z 0) = true); [|congruence].
    apply Qle_bool_iff. rewrite E. apply Qle_refl.
Qed.

Lemma b64_zero_of_int : Prim2SF (b64_of_int 0) = S754_zero false.
Proof. vm_compute. reflexivity. Qed.

Lemma b64_zero_literal : Prim2SF PrimFloat.zero = S754_zero false.
Proof. vm_compute. reflexivity. Qed.

Lemma binary64_laws : PyFloatLaws binary64.
Proof.
  split; intros x; unfold zero; cbn [flt fle is_zero of_int binary64].
  - rewrite ltb_spec, leb_spec, b64_zero_of_int.
    destruct (Prim2SF x) as [s|s| |s m e]; try destruct s; cbn; congruence.
  - rewrite leb_spec, eqb_spec, b64_zero_of_int, b64_zero_literal.
    destruct (Prim2SF x) as [s|s| |s m e]; try destruct s; cbn; congruence.
Qed.

#[global] Existing Instance exact_laws.
#[global] Existing Instance binary64_laws.

(** ** The kill-switch *)

Section RiskProofs.
Context {F : PyFloat} {L : PyFloatLaws F}.

Lemma pydiv_positive (x y : num) :
  (y <=? zero)%py = false -> pydiv x y = Ok (fdiv x y).
Proof. intros Hy. unfold pydiv. by rewrite (not_le_zero_nonzero _ Hy). Qed.

Lemma trigger_sets_active (r : RiskManager num) reason c l :
  kill_switch_active (trigger_kill_switch r reason c l).1 = true.
Proof.
  unfold trigger_kill_switch.
  destruct (kill_switch_active r) eqn:E; [done|].
  repeat case_match; done.
Qed.

Lemma check_drawdown_latch (r r' : RiskManager num) c l tr :
  _check_drawdown r c l = Ok (r', tr) ->
  kill_switch_active r = true -> kill_switch_active r' = true.
Proof.
  unfold _check_drawdown. intros Hc Ha.
  destruct (daily_max_equity r <=? zero)%py; [by simplify_eq|].
  destruct (pydiv _ _) as [d|]; simpl in Hc; [|done].
  destruct (fle _ d).
  - injection Hc as Hc.
    pose proof (trigger_sets_active r (DrawdownExceeds d
      (kill_switch_drawdown_pct r) (daily_max_equity r) (total_equity_usdt r)) c l) as Ht.
    by rewrite Hc in Ht.
  - by simplify_eq.
Qed.

Lemma update_latch (r : RiskManager num) now w c l :
  kill_switch_active r = true ->
  kill_switch_active (update_equity_tracking r now w c l).1 = true.
Proof.
  intros Ha. unfold update_equity_tracking.
  destruct w as [[e|]|]; [|done..].
  match goal with |- context [_check_drawdown ?x c l] => set (r1 := x) end.
  assert (kill_switch_active r1 = true) as Ha1.
  { subst r1. repeat case_match; done. }
  destruct (_check_drawdown r1 c l) as [[r' tr]|] eqn:E; [|done].
  by eapply check_drawdown_latch.
Qed.

Lemma exposure_keeps_switch (r : RiskManager num) ps w l :
  kill_switch_active (check_max_exposure r ps w l).1.1 = kill_switch_active r.
Proof. unfold check_max_exposure. repeat case_match; done. Qed.

Lemma validate_keeps_switch (r : RiskManager num) q p w :
  kill_switch_active (validate_order_size r q p w).1 = kill_switch_active r.
Proof. unfold validate_order_size. repeat case_match; simplify_eq; done. Qed.

Lemma risk_step_latch (r : RiskManager num) (op : risk_op num) :
  kill_switch_active r = true -> is_deactivation op = false ->
  kill_switch_active (risk_step r op).1 = true.
Proof.
  intros Ha Hop. destruct op; simpl in *; try done.
  - by apply update_latch.
  - destruct (_check_drawdown r cancelled logged) as [[r' tr]|] eqn:E; [|done].
    by eapply check_drawdown_latch.
  - apply trigger_sets_active.
  - pose proof (exposure_keeps_switch r positions wallet logged) as Hk.
    destruct (check_max_exposure r positions wallet logged) as [[r' tr] b].
    simpl in *. congruence.
  - by rewrite validate_keeps_switch.
  - unfold get_risk_metrics.
    pose proof (update_latch r now wallet cancelled logged Ha) as Hu.
    destruct (update_equity_tracking r now wallet cancelled logged) as [r1 tr1].
    pose proof (exposure_keeps_switch r1 positions wallet' logged') as Hk.
    destruct (check_max_exposure r1 positions wallet' logged') as [[r2 tr2] b].
    simpl in *. congruence.
Qed.

Lemma trigger_keeps_tracking (r : RiskManager num) reason c l :
  daily_max_equity (trigger_kill_switch r reason c l).1 = daily_max_equity r /\
  last_equity_check (trigger_kill_switch r reason c l).1 = last_equity_check r /\
  total_equity_usdt (trigger_kill_switch r reason c l).1 = total_equity_usdt r.
Proof. unfold trigger_kill_switch. repeat case_match; done. Qed.

Lemma check_drawdown_keeps_tracking (r r' : RiskManager num) c l tr :
  _check_drawdown r c l = Ok (r', tr) ->
  daily_max_equity r' = daily_max_equity r /\
  last_equity_check r' = last_equity_check r /\
  total_equity_usdt r' = total_equity_usdt r.
Proof.
  unfold _check_drawdown. intros Hc.
  destruct (daily_max_equity r <=? zero)%py; [by simplify_eq|].
  destruct (pydiv _ _) as [d|]; simpl in Hc; [|done].
  destruct (fle _ d); [|by simplify_eq].
  injection Hc as Hc.
  pose proof (trigger_keeps_tracking r (DrawdownExceeds d
    (kill_switch_drawdown_pct r) (daily_max_equity r) (total_equity_usdt r)) c l) as Ht.
  by rewrite Hc in Ht.
Qed.

(** What [update_equity_tracking] leaves in the tracking fields when the
    wallet reports the equity [e]. *)
Lemma update_tracking (r : RiskManager num) now e c l :
  daily_max_equity (update_equity_tracking r now (Returned (Some e)) c l).1 =
    (if bool_decide (date now ≠ date (last_equity_check r)) then e
     else if (e >? daily_max_equity r)%py then e else daily_max_equity r) /\
  last_equity_check (update_equity_tracking r now (Returned (Some e)) c l).1 = now /\
  total_equity_usdt (update_equity_tracking r now (Returned (Some e)) c l).1 = e.
Proof.
  unfold update_equity_tracking.
  match goal with |- context [_check_drawdown ?x c l] => set (r1 := x) end.
  assert (daily_max_equity r1 =
    (if bool_decide (date now ≠ date (last_equity_check r)) then e
     else if (e >? daily_max_equity r)%py then e else daily_max_equity r) /\
    last_equity_check r1 = now /\ total_equity_usdt r1 = e) as H1.
  { subst r1. repeat case_match; done. }
  destruct (_check_drawdown r1 c l) as [[r' tr]|] eqn:E; [|done].
  apply check_drawdown_keeps_tracking in E as (E1 & E2 & E3). simpl.
  by rewrite E1, E2, E3.
Qed.

Lemma update_daily_max_same_day (r : RiskManager num) now w c l :
  date now = date (last_equity_check r) ->
  daily_max_equity (update_equity_tracking r now w c l).1 = daily_max_equity r \/
  (daily_max_equity (update_equity_tracking r now w c l).1 >? daily_max_equity r)%py = true.
Proof.
  intros Hd. destruct w as [[e|]|]; [|by left..].
  destruct (update_tracking r now e c l) as (-> & _ & _).
  rewrite bool_decide_eq_false_2 by (intros Hne; by apply Hne).
  destruct (e >? daily_max_equity r)%py eqn:E; [by right|by left].
Qed.

Lemma exposure_keeps_daily_max (r : RiskManager num) ps w l :
  daily_max_equity (check_max_exposure r ps w l).1.1 = daily_max_equity r /\
  last_equity_check (check_max_exposure r ps w l).1.1 = last_equity_check r.
Proof. unfold check_max_exposure. repeat case_match; done. Qed.

Lemma validate_keeps_daily_max (r : RiskManager num) q p w :
  daily_max_equity (validate_order_size r q p w).1 = daily_max_equity r.
Proof. unfold validate_order_size. repeat case_match; simplify_eq; done. Qed.

(** C5, as the code has it.  Within one UTC day (every clock reading of the
    operation falls on the date of the last equity check) an operation other
    than [deactivate_kill_switch] leaves [daily_max_equity] unchanged or
    strictly raises it.  An equity update on another date sets it to the
    reported equity and records the new date, so that the following updates
    of that date do not reset it again.  [deactivate_kill_switch] sets it to
    the current equity when the switch is active, and may lower it. *)
Theorem daily_max_equity_discipline (r : RiskManager num) (op : risk_op num)
  (now : Z) (e : num) (c l : response unit) :
  is_deactivation op = false ->
  (forall t, op_time op = Some t -> date t = date (last_equity_check r)) ->
  (let r' := (risk_step r op).1 in
   daily_max_equity r' = daily_max_equity r \/
   (daily_max_equity r' >? daily_max_equity r)%py = true) /\
  (date now ≠ date (last_equity_check r) ->
   let r' := (update_equity_tracking r now (Returned (Some e)) c l).1 in
   daily_max_equity r' = e /\ date (last_equity_check r') = date now) /\
  daily_max_equity (deactivate_kill_switch r) =
    (if kill_switch_active r then total_equity_usdt r else daily_max_equity r).
Proof.
  intros Hop Hday. split; [|split].
  - destruct op; simpl in *; try done; try (by left).
    + apply update_daily_max_same_day. by apply Hday.
    + destruct (_check_drawdown r cancelled logged) as [[r' tr]|] eqn:E; [|by left].
      apply check_drawdown_keeps_tracking in E as (E1 & _). simpl. by left.
    + destruct (trigger_keeps_tracking r reason cancelled logged) as (-> & _).
      by left.
    + pose proof (exposure_keeps_daily_max r positions wallet logged) as [Hk _].
      destruct (check_max_exposure r positions wallet logged) as [[r' tr] b].
      simpl in *. by left.
    + rewrite validate_keeps_daily_max. by left.
    + unfold get_risk_metrics.
      pose proof (update_daily_max_same_day r now0 wallet cancelled logged
                    (Hday _ eq_refl)) as Hu.
      destruct (update_equity_tracking r now0 wallet cancelled logged) as [r1 tr1].
      pose proof (exposure_keeps_daily_max r1 positions wallet' logged') as [Hk _].
      destruct (check_max_exposure r1 positions wallet' logged') as [[r2 tr2] b].
      simpl in *. by rewrite Hk.
  - intros Hne. cbv zeta.
    destruct (update_tracking r now e c l) as (-> & -> & _).
    by rewrite bool_decide_eq_true_2.
  - unfold deactivate_kill_switch. by destruct (kill_switch_active r).
Qed.

(** C2, as the code has it.  In the state Normal with a positive
    [daily_max_equity], [_check_drawdown] activates the kill-switch exactly
    when the drawdown reaches the threshold.  On activation the cancel-all
    call is issued first; the critical event is logged when that call
    returns, and not when it raises. *)
Theorem drawdown_triggers_kill_switch (r : RiskManager num) (c l : response unit) :
  kill_switch_active r = false ->
  (daily_max_equity r >? zero)%py = true ->
  let drawdown :=
    fdiv (daily_max_equity r - total_equity_usdt r)%py (daily_max_equity r) in
  let fires := (drawdown >=? kill_switch_drawdown_pct r)%py in
  exists r' tr,
    _check_drawdown r c l = Ok (r', tr) /\
    kill_switch_active r' = fires /\
    (fires = false -> r' = r /\ tr = []) /\
    (fires = true ->
     r' = set_kill_switch r true
            (DrawdownExceeds drawdown (kill_switch_drawdown_pct r)
               (daily_max_equity r) (total_equity_usdt r)) /\
     tr = match c with
          | Returned _ => [RiskCancelAllOrders; RiskLogEvent "kill_switch" "CRITICAL"]
          | Raised => [RiskCancelAllOrders]
          end).
Proof.
  intros Hn Hpos drawdown fires.
  pose proof (gt_zero_not_le _ Hpos) as Hle.
  unfold _check_drawdown. rewrite Hle, (pydiv_positive _ _ Hle). simpl.
  fold drawdown. fold fires. destruct fires eqn:Ef.
  - unfold trigger_kill_switch. rewrite Hn. simpl. rewrite Hpos.
    rewrite (pydiv_positive _ _ Hle). simpl.
    destruct c; (eexists _, _; split; [reflexivity|done]).
  - eexists _, _. split; [reflexivity|]. by rewrite Hn.
Qed.

(** C3. Once the kill-switch is active it stays active under every sequence
    of risk-controller operations that contains no call of
    [deactivate_kill_switch], whatever equity the wallet reports. *)
Theorem kill_switch_is_a_latch (r : RiskManager num) (ops : list (risk_op num)) :
  kill_switch_active r = true ->
  forallb (fun op => negb (is_deactivation op)) ops = true ->
  kill_switch_active (risk_run r ops).1 = true.
Proof.
  revert r. induction ops as [|op ops IH]; intros r Ha Hops; [done|].
  simpl in Hops. apply andb_true_iff in Hops as [Hop Hops].
  apply negb_true_iff in Hop. simpl.
  pose proof (risk_step_latch r op Ha Hop) as Hs.
  destruct (risk_step r op) as [r1 tr1]. simpl in Hs.
  specialize (IH r1 Hs Hops).
  destruct (risk_run r1 ops) as [r2 tr2]. done.
Qed.

(** C8. Triggering an active kill-switch returns the controller unchanged
    and issues no call; deactivating an inactive one returns the controller
    unchanged. *)
Theorem kill_switch_transitions_idempotent (r r' : RiskManager num) reason c l :
  kill_switch_active r = true -> kill_switch_active r' = false ->
  trigger_kill_switch r reason c l = (r, []) /\ deactivate_kill_switch r' = r'.
Proof.
  intros Ha Hb. unfold trigger_kill_switch, deactivate_kill_switch.
  by rewrite Ha, Hb.
Qed.

End RiskProofs.

(** ** Setting up and recentering the grid *)

Section GridProofs.
Context {F : PyFloat} {L : PyFloatLaws F}.

Lemma get_current_price_keeps (g : GridLogic num) now mark :
  last_recenter_time (get_current_price g now mark).1 = last_recenter_time g /\
  active_orders (get_current_price g now mark).1 = active_orders g.
Proof. unfold get_current_price. repeat case_match; done. Qed.

Lemma setup_keeps_time (g : GridLogic num) profile env :
  last_recenter_time (setup_grid g profile env).1.1 = last_recenter_time g.
Proof.
  unfold setup_grid.
  pose proof (get_current_price_keeps g (env_now env) (env_mark_price env)) as [Ht _].
  destruct (get_current_price g (env_now env) (env_mark_price env)) as [g1 cp].
  simpl in Ht. repeat case_match; simplify_eq; simpl; try done.
Qed.

(** C4. Whenever [recenter_grid] reports failure, whether [setup_grid]
    returned failure or one of its own two calls raised, [last_recenter_time]
    is what it was before the call; when it reports success,
    [last_recenter_time] is the clock reading taken after the setup. *)
Theorem recenter_failure_keeps_time (g : GridLogic num) reason profile
  (logged cancelled : response unit) (env : SetupEnv num) (now : Z) :
  ((recenter_grid g reason profile logged cancelled env now).2 = false ->
   last_recenter_time (recenter_grid g reason profile logged cancelled env now).1.1
   = last_recenter_time g) /\
  ((recenter_grid g reason profile logged cancelled env now).2 = true ->
   last_recenter_time (recenter_grid g reason profile logged cancelled env now).1.1
   = now).
Proof.
  unfold recenter_grid. destruct logged; [|done]. destruct cancelled; [|done].
  pose proof (setup_keeps_time (set_active_orders g ∅) profile env) as Hk.
  destruct (setup_grid (set_active_orders g ∅) profile env) as [[g1 tr] ok].
  destruct ok; simpl; split; done.
Qed.

Lemma place_levels_all_fail (place : Z -> placement) (ls : list (GridLevel num)) o n :
  (forall i, place i = PlaceRaised \/ place i = PlaceRefused) ->
  place_levels place ls o n = (o, PlaceOrder <$> ls, n).
Proof.
  intros Hf. induction ls as [|l ls IH]; [done|].
  simpl. rewrite IH. by destruct (Hf (level l)) as [-> | ->].
Qed.

Lemma calculate_needs_spacing (g : GridLogic num) center profile capital b s :
  calculate_grid_levels g center profile capital = Ok (b, s) ->
  exists sp, get_grid_spacing g profile = Ok sp.
Proof.
  unfold calculate_grid_levels. destruct (get_grid_spacing g profile); [eauto|done].
Qed.

(** The level computation reads the instrument data, the configuration, the
    centre and the price history of the engine, and nothing else. *)
Lemma grid_side_ext (g g' : GridLogic num) sd center spacing budget idx :
  min_order_qty g' = min_order_qty g -> qty_step g' = qty_step g ->
  tick_size g' = tick_size g -> min_notional g' = min_notional g ->
  grid_side g' sd center spacing budget idx = grid_side g sd center spacing budget idx.
Proof.
  intros H1 H2 H3 H4. induction idx as [|i idx IH]; [done|].
  simpl. rewrite IH. unfold grid_level, _calculate_order_qty.
  by rewrite H1, H2, H3, H4.
Qed.

Lemma get_grid_spacing_ext (g g' : GridLogic num) profile :
  config g' = config g -> center_price g' = center_price g ->
  price_history g' = price_history g ->
  get_grid_spacing g' profile = get_grid_spacing g profile.
Proof.
  intros Hc Hp Hh. unfold get_grid_spacing, calculate_atr. by rewrite Hc, Hp, Hh.
Qed.

Lemma calculate_grid_levels_ext (g g' : GridLogic num) center profile capital :
  config g' = config g -> center_price g' = center_price g ->
  price_history g' = price_history g ->
  min_order_qty g' = min_order_qty g -> qty_step g' = qty_step g ->
  tick_size g' = tick_size g -> min_notional g' = min_notional g ->
  calculate_grid_levels g' center profile capital
  = calculate_grid_levels g center profile capital.
Proof.
  intros Hc Hp Hh H1 H2 H3 H4.
  unfold calculate_grid_levels, get_grid_spacing, calculate_atr.
  rewrite Hc, Hp, Hh, H4.
  destruct (if _ : bool then _ else _) as [sp|]; [|done]. simpl.
  destruct (pydiv capital _) as [q|]; [|done]. simpl.
  destruct (of_option ValueError (trunc q)) as [m|]; [|done]. simpl.
  destruct (m <? 2); [done|].
  destruct (pydiv capital _) as [bd|]; [|done]. simpl.
  by rewrite !(grid_side_ext g g').
Qed.

Lemma priced_clear (g : GridLogic num) now p profile capital :
  calculate_grid_levels (priced (set_active_orders g ∅) now p) p profile capital
  = calculate_grid_levels (priced g now p) p profile capital.
Proof.
  apply calculate_grid_levels_ext; unfold priced, get_current_price;
    destruct (p >? zero)%py; reflexivity.
Qed.

Lemma setup_grid_reports_success (g : GridLogic num) profile env p bal b s :
  env_mark_price env = Returned p -> (p >? zero)%py = true ->
  env_balance env = Returned bal ->
  calculate_grid_levels (priced g (env_now env) p) p profile
    (initial_capital (config g)) = Ok (b, s) ->
  b <> [] -> s <> [] ->
  env_cancel env = Returned tt ->
  env_save_history env = Returned tt ->
  env_log_event env = Returned tt ->
  (setup_grid g profile env).2 = true /\
  ((forall i, env_place env i = PlaceRaised \/ env_place env i = PlaceRefused) ->
   active_orders (setup_grid g profile env).1.1 = active_orders g /\
   (setup_grid g profile env).1.2
   = CancelAllOrders :: (PlaceOrder <$> b) ++ (PlaceOrder <$> s)
       ++ [SaveGridHistory; LogEvent "grid_setup" "INFO"]).
Proof.
  intros Hm Hp Hb Hc Hbn Hsn Hcan Hsave Hlog.
  pose proof (calculate_needs_spacing _ _ _ _ _ _ Hc) as [sp Hsp].
  assert (forall g', config g' = config (priced g (env_now env) p) ->
            center_price g' = center_price (priced g (env_now env) p) ->
            price_history g' = price_history (priced g (env_now env) p) ->
            get_grid_spacing g' profile = Ok sp) as Hsp'.
  { intros g' H1 H2 H3. by rewrite (get_grid_spacing_ext _ g' profile H1 H2 H3). }
  unfold setup_grid. rewrite Hm. unfold priced in Hc, Hsp'.
  unfold get_current_price in *. rewrite Hp in *. simpl in Hc, Hsp' |- *.
  rewrite (gt_zero_not_le _ Hp), Hb. simpl. rewrite Hc.
  destruct b as [|b0 b]; [done|]. destruct s as [|s0 s]; [done|].
  simpl is_empty. cbv iota. simpl orb. cbv iota. rewrite Hcan.
  split.
  - repeat (match goal with
            | |- context [place_levels ?a ?b ?c ?d] =>
                destruct (place_levels a b c d) as [[? ?] ?]
            end).
    rewrite Hsp' by reflexivity. by rewrite Hsave, Hlog.
  - intros Hf. rewrite !(place_levels_all_fail _ _ _ _ Hf).
    rewrite Hsp' by reflexivity. rewrite Hsave, Hlog. simpl.
    split; [done|]. by rewrite <- app_assoc.
Qed.

(** C10. When the mark price is positive, both level lists are computed
    non-empty and no call raises, [setup_grid] and [recenter_grid] report
    success whatever the placements did.  If every placement raised or was
    refused, the recentered grid has an empty [active_orders], no order was
    saved, and [last_recenter_time] is nevertheless advanced. *)
Theorem recenter_succeeds_without_orders (g : GridLogic num) reason profile env
  (now : Z) p bal b s :
  env_mark_price env = Returned p -> (p >? zero)%py = true ->
  env_balance env = Returned bal ->
  calculate_grid_levels (priced g (env_now env) p) p profile
    (initial_capital (config g)) = Ok (b, s) ->
  b <> [] -> s <> [] ->
  env_cancel env = Returned tt ->
  env_save_history env = Returned tt ->
  env_log_event env = Returned tt ->
  (setup_grid g profile env).2 = true /\
  (recenter_grid g reason profile (Returned tt) (Returned tt) env now).2 = true /\
  ((forall i, env_place env i = PlaceRaised \/ env_place env i = PlaceRefused) ->
   let out := recenter_grid g reason profile (Returned tt) (Returned tt) env now in
   active_orders out.1.1 = ∅ /\
   last_recenter_time out.1.1 = now /\
   out.1.2 = LogEvent "recenter" "INFO" :: CancelAllOrders :: CancelAllOrders
               :: (PlaceOrder <$> b) ++ (PlaceOrder <$> s)
               ++ [SaveGridHistory; LogEvent "grid_setup" "INFO"]).
Proof.
  intros Hm Hp Hb Hc Hbn Hsn Hcan Hsave Hlog.
  destruct (setup_grid_reports_success g profile env p bal b s) as [Hs _]; try done.
  pose proof Hc as Hc'. rewrite <- priced_clear in Hc'.
  destruct (setup_grid_reports_success (set_active_orders g ∅) profile env p bal b s)
    as [Hs' Hf']; try done.
  split; [done|]. unfold recenter_grid.
  destruct (setup_grid (set_active_orders g ∅) profile env) as [[g1 tr] ok].
  simpl in Hs'. subst ok. split; [done|].
  intros Hf. destruct (Hf' Hf) as [Ha Ht]. simpl in *. by subst tr.
Qed.

(** C6. With a positive current price and active orders on both sides, a
    price outside the deviation band gives the deviation reason (the upper
    band first), also when the time-based threshold is exceeded at the same
    moment. *)
Theorem deviation_reason_has_priority (g : GridLogic num) (now : Z) (p : num)
  (orders : list (OpenOrder num)) (b s : num) (bs ss : list num) :
  (p >? zero)%py = true ->
  prices_of Buy orders = b :: bs ->
  prices_of Sell orders = s :: ss ->
  let lowest_buy := foldl fmin b bs in
  let highest_sell := foldl fmax s ss in
  let dev := price_deviation_pct (recenter (config g)) in
  let above := (p >? highest_sell * (of_int 1 + dev))%py in
  let below := (p <? lowest_buy * (of_int 1 - dev))%py in
  above || below = true ->
  (fdiv (of_ratio (now - last_recenter_time g) 1000000) (of_int 3600)
     >=? time_based_hours (recenter (config g)))%py = true ->
  (should_recenter g now (Returned p) (Returned orders)).2
  = Ok (true,
        if above
        then PriceAboveHighestSell p highest_sell (dev * of_int 100)%py
        else PriceBelowLowestBuy p lowest_buy (dev * of_int 100)%py).
Proof.
  intros Hp Hb Hs lowest_buy highest_sell dev above below Hbreach _.
  unfold should_recenter, get_current_price. rewrite Hp.
  rewrite (gt_zero_not_le _ Hp).
  destruct orders as [|o orders]; [done|].
  rewrite Hb, Hs. unfold recenter_conditions. simpl.
  fold lowest_buy highest_sell dev above below.
  destruct above; [done|]. simpl in Hbreach. by rewrite Hbreach.
Qed.

End GridProofs.

(** ** Step sizes in decimal notation *)

Lemma split_dot_nonempty l : split_dot l <> [].
Proof.
  induction l as [|c l IH]; simpl; [done|].
  destruct (is_dot c); [done|]. by destruct (split_dot l).
Qed.

Lemma split_dot_no_dot l : no_dot l -> split_dot l = [l].
Proof.
  unfold no_dot. induction l as [|c l IH]; simpl; [done|].
  destruct (is_dot c); simpl; [done|]. intros H. by rewrite IH.
Qed.

Lemma split_dot_app pre r : no_dot pre -> split_dot (pre ++ "."%char :: r) = pre :: split_dot r.
Proof.
  unfold no_dot. induction pre as [|c pre IH]; simpl; [done|].
  destruct (is_dot c); simpl; [done|]. intros H. by rewrite IH.
Qed.

Lemma split_dot_one l i : split_dot l = [i] -> i = l /\ no_dot l.
Proof.
  unfold no_dot. revert i. induction l as [|c l IH]; simpl; intros i H.
  - by simplify_eq.
  - destruct (is_dot c) eqn:E.
    + injection H as _ H. by apply split_dot_nonempty in H.
    + destruct (split_dot l) as [|seg segs] eqn:E2; [by apply split_dot_nonempty in E2|].
      simplify_eq. destruct (IH seg eq_refl) as [-> ?]. done.
Qed.

Lemma is_dot_eq c : is_dot c = true -> c = "."%char.
Proof. unfold is_dot. by intros ?%Ascii.eqb_eq. Qed.

Lemma split_dot_two l i f :
  split_dot l = [i; f] ->
  l = (i ++ "."%char :: f)%list /\ no_dot i /\ no_dot f.
Proof.
  revert i. induction l as [|c l IH]; simpl; intros i H; [done|].
  destruct (is_dot c) eqn:E.
  - injection H as <- H. apply split_dot_one in H as [-> ?].
    apply is_dot_eq in E as ->. done.
  - destruct (split_dot l) as [|seg segs] eqn:E2; [by apply split_dot_nonempty in E2|].
    simplify_eq. destruct (IH seg eq_refl) as (-> & ? & ?).
    split; [done|]. split; [|done]. unfold no_dot in *. simpl. by rewrite E.
Qed.

Lemma rstrip0_app l1 l2 : rstrip0 l2 <> [] -> rstrip0 (l1 ++ l2) = (l1 ++ rstrip0 l2)%list.
Proof.
  intros H. induction l1 as [|c l1 IH]; simpl; [done|].
  rewrite IH. destruct (l1 ++ rstrip0 l2)%list eqn:E; [|done].
  apply app_eq_nil in E as [_ ?]. done.
Qed.

Lemma rstrip0_dot f : rstrip0 ("."%char :: f) = "."%char :: rstrip0 f.
Proof. simpl. by destruct (rstrip0 f). Qed.

Lemma rstrip0_zeros f : exists j, f = (rstrip0 f ++ replicate j "0"%char)%list.
Proof.
  induction f as [|c f [j IH]]; simpl; [by exists 0%nat|].
  destruct (rstrip0 f) as [|c' r] eqn:E.
  - destruct (is_zero_char c) eqn:Ec.
    + exists (S j). simpl in *. apply Ascii.eqb_eq in Ec as ->. by rewrite IH at 1.
    + exists j. simpl in *. by rewrite IH at 1.
  - exists j. simpl. by rewrite IH at 1.
Qed.

Lemma no_dot_app l1 l2 : no_dot (l1 ++ l2) <-> no_dot l1 /\ no_dot l2.
Proof. unfold no_dot. rewrite existsb_app, orb_false_iff. done. Qed.

Lemma digits_val_app acc a b m :
  digits_val acc (a ++ b) = Some m ->
  exists m', digits_val acc a = Some m' /\ digits_val m' b = Some m.
Proof.
  revert acc. induction a as [|c a IH]; simpl; intros acc H; [eauto|].
  destruct (is_digit c); [|done]. by apply IH.
Qed.

Lemma digits_val_zeros acc j m :
  digits_val acc (replicate j "0"%char) = Some m -> m = acc * 10 ^ Z.of_nat j.
Proof.
  revert acc. induction j as [|j IH]; intros acc; simpl replicate; simpl digits_val.
  - intros [= <-]. simpl. lia.
  - change (is_digit "0") with true. cbv iota. change (digit_val "0") with 0.
    intros H%IH. rewrite H, Nat2Z.inj_succ, Z.pow_succ_r by lia. lia.
Qed.

Lemma digits_no_dot acc l m : digits_val acc l = Some m -> no_dot l.
Proof.
  unfold no_dot. revert acc. induction l as [|c l IH]; simpl; intros acc H; [done|].
  destruct (is_digit c) eqn:E; [|done]. rewrite (IH _ H), orb_false_r.
  destruct (is_dot c) eqn:Ed; [|done]. apply is_dot_eq in Ed as ->. done.
Qed.

Lemma unsigned_decimal_precision pre l m k :
  no_dot pre ->
  unsigned_decimal l = Some (m, k) ->
  let p := (if existsb is_dot (pre ++ l)
            then length (List.last (split_dot (rstrip0 (pre ++ l))) [])
            else 0)%nat in
  exists j, k = (p + j)%nat /\ exists m', m = m' * 10 ^ Z.of_nat j.
Proof.
  intros Hpre. unfold unsigned_decimal.
  destruct (split_dot l) as [|i [|f [|? ?]]] eqn:E; try done.
  - apply split_dot_one in E as [-> Hl].
    destruct l as [|c l]; [done|]. 
    destruct (digits_val 0 (c :: l)) as [m0|] eqn:Ed; simpl; [|done].
    intros [= <- <-].
    assert (existsb is_dot (pre ++ c :: l) = false) as -> by (by apply no_dot_app).
    exists 0%nat. split; [done|]. exists m0. simpl. lia.
  - apply split_dot_two in E as (-> & Hi & Hf).
    destruct (i ++ f)%list as [|c0 r0] eqn:Eif; [done|]. rewrite <- Eif. clear Eif c0 r0.
    destruct (digits_val 0 (i ++ f)) as [m0|] eqn:Ed; simpl; [|done].
    intros [= <- <-].
    replace (existsb is_dot (pre ++ i ++ "."%char :: f)) with true; cycle 1.
    { symmetry. rewrite !existsb_app. simpl. by rewrite !orb_true_r. }
    rewrite (app_assoc pre i), rstrip0_app by by rewrite rstrip0_dot.
    rewrite rstrip0_dot.
    destruct (rstrip0_zeros f) as [j Hj].
    assert (no_dot (rstrip0 f)) as Hrf.
    { rewrite Hj in Hf. by apply no_dot_app in Hf as [? _]. }
    rewrite split_dot_app by by apply no_dot_app.
    rewrite (split_dot_no_dot _ Hrf). simpl List.last.
    exists j. split.
    + rewrite Hj at 1. by rewrite length_app, length_replicate.
    + rewrite Hj, app_assoc in Ed. apply digits_val_app in Ed as (m' & _ & Hz).
      apply digits_val_zeros in Hz. eauto.
Qed.

Lemma parse_decimal_precision s m k :
  parse_decimal s = Some (m, k) ->
  exists j, k = (precision_of s + j)%nat /\ exists m', m = m' * 10 ^ Z.of_nat j.
Proof.
  unfold parse_decimal, precision_of.
  destruct (String.list_ascii_of_string s) as [|c r]; [done|].
  destruct (Ascii.eqb c "-") eqn:E1; [|destruct (Ascii.eqb c "+") eqn:E2].
  - apply Ascii.eqb_eq in E1 as ->.
    destruct (unsigned_decimal r) as [[m0 k0]|] eqn:E; simpl; [|done].
    intros [= <- <-].
    destruct (unsigned_decimal_precision ["-"%char] r m0 k0 eq_refl E) as (j & Hk & m' & Hm).
    exists j. split; [done|]. exists (- m'). lia.
  - apply Ascii.eqb_eq in E2 as ->. intros E.
    exact (unsigned_decimal_precision ["+"%char] r m k eq_refl E).
  - intros E. exact (unsigned_decimal_precision [] (c :: r) m k eq_refl E).
Qed.
(** ** Formatting in exact arithmetic *)

Lemma round_half_even_Z q n : (q == inject_Z n)%Q -> round_half_even q = n.
Proof.
  intros Hq. unfold round_half_even.
  assert (Qfloor q = n) as ->.
  { rewrite (Qfloor_comp _ _ Hq). apply Qfloor_Z. }
  assert ((q - inject_Z n ?= 1 # 2)%Q = Lt) as ->; [|done].
  apply Qlt_alt. assert (q - inject_Z n == 0)%Q as -> by (rewrite Hq; ring). done.
Qed.

Lemma pow10_pos (p : nat) : 0 < 10 ^ Z.of_nat p.
Proof. apply Z.pow_pos_nonneg; lia. Qed.

Lemma Qfixed_exact p x n :
  (x * inject_Z (10 ^ Z.of_nat p) == inject_Z n)%Q -> (Qfixed p x == x)%Q.
Proof.
  intros Hx. unfold Qfixed. rewrite Qred_correct, (round_half_even_Z _ _ Hx).
  pose proof (pow10_pos p) as Hp.
  destruct x as [a b]. unfold Qeq in *. simpl in *.
  rewrite Z2Pos.id by done. lia.
Qed.

Lemma Qtrunc_nonneg q : (0 <= q)%Q -> 
  (0 <= inject_Z (Qtrunc q) /\ inject_Z (Qtrunc q) <= q /\ q < inject_Z (Qtrunc q) + 1)%Q.
Proof.
  intros Hq. assert (Qtrunc q = Qfloor q) as ->.
  { destruct q as [n d]. unfold Qtrunc, Qfloor. simpl.
    apply Z.quot_div_nonneg; [|lia]. unfold Qle in Hq. simpl in Hq. lia. }
  split; [|split].
  - change 0%Q with (inject_Z 0). rewrite <- Zle_Qle.
    rewrite <- (Qfloor_Z 0). by apply Qfloor_resp_le.
  - apply Qfloor_le.
  - pose proof (Qlt_floor q) as H. by rewrite inject_Z_plus in H.
Qed.

Lemma Qtrunc_opp q : Qtrunc (- q) = - Qtrunc q.
Proof. destruct q as [n d]. unfold Qtrunc. simpl. apply Z.quot_opp_l. lia. Qed.

Lemma Qtrunc_nonpos q : (q <= 0)%Q -> (q <= inject_Z (Qtrunc q) /\ inject_Z (Qtrunc q) <= 0)%Q.
Proof.
  intros Hq. assert (0 <= - q)%Q as H by lra.
  apply Qtrunc_nonneg in H as (H0 & H1 & _).
  rewrite Qtrunc_opp, inject_Z_opp in *. lra.
Qed.

Lemma Qtrunc_Z q n : (q == inject_Z n)%Q -> Qtrunc q = n.
Proof.
  intros Hq. destruct q as [a d]. unfold Qtrunc, Qeq in *. simpl in *.
  assert (a = n * Z.pos d) as -> by lia. apply Z.quot_mul. lia.
Qed.

Lemma lit_scaled (s : string) m k :
  parse_decimal s = Some (m, k) ->
  exists m', (@lit exact m k * inject_Z (10 ^ Z.of_nat (precision_of s)) == inject_Z m')%Q.
Proof.
  intros (j & -> & m' & ->)%parse_decimal_precision. exists m'.
  unfold lit. cbn [of_ratio exact]. rewrite Qred_correct.
  pose proof (pow10_pos (precision_of s + j)) as Hp.
  unfold Qeq, Qmult, inject_Z. cbn [Qnum Qden].
  rewrite Pos.mul_1_r, Z2Pos.id by done.
  rewrite Nat2Z.inj_add, Z.pow_add_r by lia. lia.
Qed.

Lemma format_step_exact (x : Q) (s : string) (y : Q) :
  @format_step exact x s = Ok y ->
  exists t, @float_of_string exact s = Ok t /\ ~ (t == 0)%Q /\
    y = Qfixed (precision_of s) (inject_Z (Qtrunc (x / t)) * t) /\
    (y == inject_Z (Qtrunc (x / t)) * t)%Q.
Proof.
  unfold format_step, float_of_string.
  destruct (parse_decimal s) as [[m k]|] eqn:Ep; [|done].
  destruct (lit_scaled s m k Ep) as [m' Hm].
  remember (@lit exact m k) as t eqn:Et. clear Et. simpl.
  unfold pydiv. cbn [is_zero fdiv trunc of_int fmul fixed exact].
  destruct (Qeq_bool t 0) eqn:Ez; [done|]. simpl.
  intros [= <-]. exists t. split; [done|]. split.
  { intros H%Qeq_bool_iff. congruence. }
  split; [done|].
  apply (Qfixed_exact _ _ (Qtrunc (x / t) * m')).
  rewrite inject_Z_mult, <- Hm. ring.
Qed.

Lemma format_step_bounds (x : Q) (s : string) (t y : Q) :
  @float_of_string exact s = Ok t -> (0 < t)%Q ->
  @format_step exact x s = Ok y ->
  ((0 <= x -> 0 <= y /\ y <= x /\ x - t < y) /\ (x <= 0 -> x <= y /\ y <= 0))%Q.
Proof.
  intros Ht Hpos (t' & Ht' & Hnz & _ & Hy)%format_step_exact.
  rewrite Ht in Ht'. injection Ht' as <-.
  assert (x == (x / t) * t)%Q as Hx by (field; done).
  set (q := (x / t)%Q) in *. split; intros H0.
  - assert (0 <= q)%Q as Hq.
    { apply Qle_shift_div_l; [done|]. lra. }
    apply Qtrunc_nonneg in Hq as (H1 & H2 & H3).
    rewrite Hy. set (n := inject_Z (Qtrunc q)) in *. nra.
  - assert (q <= 0)%Q as Hq.
    { apply Qle_shift_div_r; [done|]. lra. }
    apply Qtrunc_nonpos in Hq as (H1 & H2).
    rewrite Hy. set (n := inject_Z (Qtrunc q)) in *. nra.
Qed.

Lemma format_step_idempotent (x : Q) (s : string) (y : Q) :
  @format_step exact x s = Ok y -> @format_step exact y s = Ok y.
Proof.
  intros Hf. pose proof Hf as (t & Ht & Hnz & Hy & Hy')%format_step_exact.
  revert Hf. unfold format_step. rewrite Ht. simpl.
  unfold pydiv. cbn [is_zero fdiv trunc of_int fmul fixed exact].
  destruct (Qeq_bool t 0); [done|]. simpl. intros _.
  assert (Qtrunc (y / t) = Qtrunc (x / t)) as ->; [|by rewrite Hy].
  apply Qtrunc_Z. rewrite Hy'. field. done.
Qed.

(** ** The level computation *)

Section LevelProofs.
Context {F : PyFloat} {L : PyFloatLaws F}.

Lemma get_grid_spacing_ok (g : GridLogic num) profile :
  exists sp, get_grid_spacing g profile = Ok sp.
Proof.
  unfold get_grid_spacing.
  destruct (_ && _) eqn:E; [|by eexists].
  apply andb_true_iff in E as [_ Hc].
  unfold pydiv. rewrite (not_le_zero_nonzero _ (gt_zero_not_le _ Hc)). simpl.
  case_match; by eexists.
Qed.

Lemma grid_side_elem (g : GridLogic num) sd center sp budget idx ls l :
  grid_side g sd center sp budget idx = Ok ls -> l ∈ ls ->
  exists i, i ∈ idx /\ grid_level g sd center sp budget i = Ok (Some l).
Proof.
  revert ls. induction idx as [|i idx IH]; simpl; intros ls Hs Hl.
  - simplify_eq. by apply elem_of_nil in Hl.
  - destruct (grid_level g sd center sp budget i) as [o|] eqn:Eg; [|done]. simpl in Hs.
    destruct (grid_side g sd center sp budget idx) as [ls'|]; [|done]. simpl in Hs.
    injection Hs as <-. destruct o as [l0|].
    + apply elem_of_cons in Hl as [->|Hl].
      * exists i. split; [left|done].
      * destruct (IH ls' eq_refl Hl) as (j & ? & ?). exists j. split; [by right|done].
    + destruct (IH ls' eq_refl Hl) as (j & ? & ?). exists j. split; [by right|done].
Qed.

Lemma grid_level_inv (g : GridLogic num) sd center sp budget i l :
  grid_level g sd center sp budget i = Ok (Some l) ->
  format_price (center * match sd with
                         | Buy => (of_int 1 - sp * of_int i)
                         | Sell => (of_int 1 + sp * of_int i)
                         end)%py (tick_size g) = Ok (price l) /\
  (qty l >? zero)%py = true /\
  (qty l * price l >=? min_notional g)%py = true /\
  level l = match sd with Buy => - i | Sell => i end /\
  side l = sd /\ notional l = (qty l * price l)%py.
Proof.
  unfold grid_level.
  destruct (format_price _ _) as [p|]; [|done]. simpl.
  destruct (_calculate_order_qty g p budget) as [q|]; [|done]. simpl.
  destruct (_ && _) eqn:E; [|done]. apply andb_true_iff in E as [? ?].
  intros [= <-]. done.
Qed.

(** The guard of the level loops, in any arithmetic: a returned level has a
    positive quantity and a notional that compares [>=] to the minimum. *)
Lemma returned_levels_pass_the_guard (g : GridLogic num) center profile capital
  buys sells l :
  calculate_grid_levels g center profile capital = Ok (buys, sells) ->
  l ∈ buys ++ sells ->
  (qty l >? zero)%py = true /\
  (qty l * price l >=? min_notional g)%py = true /\
  notional l = (qty l * price l)%py.
Proof.
  intros Hcalc Hl. unfold calculate_grid_levels in Hcalc.
  destruct (get_grid_spacing g profile) as [sp|]; [|done]. simpl in Hcalc.
  destruct (pydiv capital _) as [q|]; [|done]. simpl in Hcalc.
  destruct (of_option ValueError (trunc q)) as [m|]; [|done]. simpl in Hcalc.
  destruct (m <? 2).
  { injection Hcalc as <- <-. by apply elem_of_nil in Hl. }
  destruct (pydiv capital _) as [bd|]; [|done]. simpl in Hcalc.
  match type of Hcalc with context [seqZ 1 ?n] => set (k := n) in * end.
  destruct (grid_side g Buy center sp bd (seqZ 1 k)) as [bs|] eqn:Eb; [|done].
  simpl in Hcalc.
  destruct (grid_side g Sell center sp bd (seqZ 1 k)) as [ss|] eqn:Es; [|done].
  injection Hcalc as <- <-.
  apply elem_of_app in Hl as [Hl|Hl].
  - destruct (grid_side_elem _ _ _ _ _ _ _ _ Eb Hl) as (i & _ & Hi).
    by apply grid_level_inv in Hi as (_ & ? & ? & _ & _ & ?).
  - destruct (grid_side_elem _ _ _ _ _ _ _ _ Es Hl) as (i & _ & Hi).
    by apply grid_level_inv in Hi as (_ & ? & ? & _ & _ & ?).
Qed.

End LevelProofs.

Lemma calculate_inv `{F : PyFloat} (g : GridLogic num) center profile capital buys sells :
  calculate_grid_levels g center profile capital = Ok (buys, sells) ->
  (buys = [] /\ sells = []) \/
  exists sp budget n,
    get_grid_spacing g profile = Ok sp /\
    grid_side g Buy center sp budget (seqZ 1 n) = Ok buys /\
    grid_side g Sell center sp budget (seqZ 1 n) = Ok sells.
Proof.
  unfold calculate_grid_levels.
  destruct (get_grid_spacing g profile) as [sp|]; [|done]. simpl.
  destruct (pydiv capital _) as [q|]; [|done]. simpl.
  destruct (of_option ValueError (trunc q)) as [m|]; [|done]. simpl.
  destruct (m <? 2); [intros [= <- <-]; by left|].
  destruct (pydiv capital _) as [bd|]; [|done]. simpl.
  match goal with |- context [seqZ 1 ?n] => set (k := n) end.
  destruct (grid_side g Buy center sp bd (seqZ 1 k)) as [bs|] eqn:Eb; [|done]. simpl.
  destruct (grid_side g Sell center sp bd (seqZ 1 k)) as [ss|] eqn:Es; [|done]. simpl.
  intros [= <- <-]. right. by exists sp, bd, k.
Qed.

(** *** Truncation of a small quotient *)

Lemma exact_trunc : PyFloatTrunc exact.
Proof.
  split. intros q H0 H2. exists (Qtrunc q). split; [done|].
  cbn [fle flt exact] in H0, H2. unfold Qltb in H2.
  apply Qle_bool_iff in H0. apply negb_true_iff in H2.
  change (@zero exact) with 0%Q in H0. change (@of_int exact 2) with 2%Q in H2.
  assert (q < 2)%Q as Hq.
  { apply Qnot_le_lt. intros Hle%Qle_bool_iff. congruence. }
  destruct (Qtrunc_nonneg q H0) as (Ha & Hb & _).
  change 0%Q with (inject_Z 0) in Ha. rewrite <- Zle_Qle in Ha. split; [done|].
  rewrite Zlt_Qlt. change (inject_Z 2) with 2%Q. lra.
Qed.

Lemma digits2_pos_bound (m : positive) : Z.pos m < 2 ^ Z.pos (digits2_pos m).
Proof.
  induction m as [m IH|m IH|]; cbn [digits2_pos].
  - rewrite Pos2Z.inj_succ, Z.pow_succ_r by lia. lia.
  - rewrite Pos2Z.inj_succ, Z.pow_succ_r by lia. lia.
  - done.
Qed.

Lemma b64_two : Prim2SF (b64_of_int 2) = S754_finite false 4503599627370496 (-51).
Proof. vm_compute. reflexivity. Qed.

Lemma binary64_trunc : PyFloatTrunc binary64.
Proof.
  split. intros q. unfold zero. cbn [flt fle trunc of_int binary64 num].
  rewrite leb_spec, ltb_spec, b64_zero_of_int, b64_two. unfold b64_trunc.
  pose proof (Prim2SF_valid q) as Hv.
  destruct (Prim2SF q) as [s|s| |s m e].
  - intros _ _. exists 0. split; [done|lia].
  - by destruct s.
  - done.
  - destruct s; [done|]. intros _ H2.
    unfold SFltb in H2. cbn [SFcompare] in H2.
    cbn [valid_binary] in Hv. unfold bounded, canonical_mantissa, fexp in Hv.
    apply andb_true_iff in Hv as [Hc _]. apply Z.eqb_eq in Hc.
    pose proof (digits2_pos_bound m) as Hd.
    assert (Z.pos (digits2_pos m) <= 53) as Hd53.
    { unfold prec in Hc. lia. }
    assert (Z.pos m < 2 ^ 53) as Hm.
    { eapply Z.lt_le_trans; [exact Hd|]. apply Z.pow_le_mono_r; lia. }
    assert (e <= -51 /\ Z.pos m < 2 ^ (1 - e)) as [He Hlt].
    { destruct (e ?= -51) eqn:Ec; [| |done].
      - apply Z.compare_eq in Ec as ->. split; [lia|].
        destruct (Pos.compare_cont Eq m 4503599627370496) eqn:Em; done.
      - change (e < -51) in Ec. split; [lia|].
        eapply Z.lt_le_trans; [exact Hm|]. apply Z.pow_le_mono_r; lia. }
    exists (Z.pos m / 2 ^ (- e)).
    destruct (0 <=? e) eqn:E0; [apply Z.leb_le in E0; lia|].
    split; [done|]. split; [apply Z.div_pos; [lia|apply Z.pow_pos_nonneg; lia]|].
    apply Z.div_lt_upper_bound; [apply Z.pow_pos_nonneg; lia|].
    replace (1 - e) with (Z.succ (- e)) in Hlt by lia.
    rewrite Z.pow_succ_r in Hlt by lia. lia.
Qed.

#[global] Existing Instance exact_trunc.
#[global] Existing Instance binary64_trunc.


(** In exact arithmetic the condition on the quotient is the bound on the
    capital: a capital that is not negative and below
    [2 * min_notional * 1.1] gives two empty level lists. *)
Lemma small_capital_exact (g : GridLogic Q) (center : Q)
  (profile : string) (capital : Q) :
  (0 <= capital)%Q -> (capital < 2 * min_notional g * (11 # 10))%Q ->
  @calculate_grid_levels exact g center profile capital = Ok ([], []).
Proof.
  intros H0 Hc. unfold calculate_grid_levels.
  change (@lit exact 11 1) with (11 # 10)%Q.
  destruct (@get_grid_spacing_ok exact exact_laws g profile) as [sp ->].
  cbn [fmul num exact].
  set (mb := (min_notional g * (11 # 10))%Q).
  assert (0 < mb)%Q as Hmb by (subst mb; lra).
  assert (@pydiv exact capital mb = Ok (capital / mb)%Q) as ->.
  { unfold pydiv. cbn [is_zero fdiv exact].
    destruct (Qeq_bool mb 0) eqn:Ez; [|done]. apply Qeq_bool_iff in Ez. lra. }
  cbn [mbind result_bind of_option trunc exact].
  assert ((Qtrunc (capital / mb) <? 2) = true) as ->; [|done].
  apply Z.ltb_lt.
  assert (0 <= capital / mb)%Q as Hq by (apply Qle_shift_div_l; lra).
  destruct (Qtrunc_nonneg _ Hq) as (_ & Hle & _).
  assert (capital / mb < 2)%Q as Hlt by (apply Qlt_shift_div_r; subst mb; lra).
  rewrite Zlt_Qlt. change (inject_Z 2) with 2%Q. lra.
Qed.

(** The bounds of the levels in exact arithmetic.  For a positive centre, a
    positive spacing and a positive tick: every returned level has
    [qty * price >= min_notional]; every buy price is strictly below the
    centre; every sell price is the tick floor of [center * (1 + spacing * i)],
    so it lies within one tick below that value, and it is strictly above the
    centre when one tick is at most [center * spacing].  (Binary64 loses the
    last bound to rounding.) *)
Lemma grid_levels_bounds (g : GridLogic Q) (center : Q) (profile : string)
  (capital sp t : Q) (buys sells : list (GridLevel Q)) :
  (0 < center)%Q ->
  @get_grid_spacing exact g profile = Ok sp -> (0 < sp)%Q ->
  @float_of_string exact (tick_size g) = Ok t -> (0 < t)%Q ->
  @calculate_grid_levels exact g center profile capital = Ok (buys, sells) ->
  (forall l, l ∈ buys ++ sells ->
     (min_notional g <= qty l * price l)%Q /\ notional l = (qty l * price l)%Q) /\
  (forall l, l ∈ buys -> side l = Buy /\ (price l < center)%Q) /\
  (forall l, l ∈ sells ->
     side l = Sell /\ 1 <= level l /\
     (price l <= center * (1 + sp * inject_Z (level l)))%Q /\
     (center * (1 + sp * inject_Z (level l)) - t < price l)%Q /\
     ((t <= center * sp)%Q -> (center < price l)%Q)).
Proof.
  intros Hc Hsp Hsp0 Ht Ht0 Hcalc.
  apply (@calculate_inv exact) in Hcalc as [[-> ->]|(sp' & bd & n & Hsp' & Hb & Hs)].
  { split; [|split]; intros l Hl; simpl in Hl; by apply elem_of_nil in Hl. }
  rewrite Hsp in Hsp'. injection Hsp' as <-.
  split; [|split].
  - intros l [Hl|Hl]%elem_of_app.
    + destruct (@grid_side_elem exact _ _ _ _ _ _ _ _ Hb Hl) as (i & _ & Hi).
      apply (@grid_level_inv exact) in Hi as (_ & _ & Hn & _ & _ & Hnot).
      split; [by apply Qle_bool_iff|exact Hnot].
    + destruct (@grid_side_elem exact _ _ _ _ _ _ _ _ Hs Hl) as (i & _ & Hi).
      apply (@grid_level_inv exact) in Hi as (_ & _ & Hn & _ & _ & Hnot).
      split; [by apply Qle_bool_iff|exact Hnot].
  - intros l Hl.
    destruct (@grid_side_elem exact _ _ _ _ _ _ _ _ Hb Hl) as (i & Hi1 & Hi).
    apply elem_of_seqZ in Hi1.
    apply (@grid_level_inv exact) in Hi as (Hf & _ & _ & _ & Hside & _).
    split; [exact Hside|].
    cbn [fmul fsub of_int num exact] in Hf.
    destruct (format_step_bounds _ _ _ _ Ht Ht0 Hf) as [Hpos Hneg].
    assert (1 <= inject_Z i)%Q as Hi1'.
    { change 1%Q with (inject_Z 1). rewrite <- Zle_Qle. lia. }
    set (raw := (center * (inject_Z 1 - sp * inject_Z i))%Q) in *.
    assert (raw < center)%Q as Hraw.
    { subst raw. change (inject_Z 1) with 1%Q.
      assert (0 < sp * inject_Z i)%Q as Hsi by nra.
      set (si := (sp * inject_Z i)%Q) in *. nra. }
    destruct (Qlt_le_dec raw 0) as [Hr|Hr].
    + destruct Hneg as [_ ?]; lra.
    + destruct (Hpos Hr) as (_ & ? & _). lra.
  - intros l Hl.
    destruct (@grid_side_elem exact _ _ _ _ _ _ _ _ Hs Hl) as (i & Hi1 & Hi).
    apply elem_of_seqZ in Hi1.
    apply (@grid_level_inv exact) in Hi as (Hf & _ & _ & Hlev & Hside & _).
    split; [exact Hside|].
    change (@level Q l) with (@level (@num exact) l). rewrite Hlev.
    split; [lia|].
    cbn [fmul fadd of_int num exact] in Hf.
    destruct (format_step_bounds _ _ _ _ Ht Ht0 Hf) as [Hpos _].
    assert (1 <= inject_Z i)%Q as Hi1'.
    { change 1%Q with (inject_Z 1). rewrite <- Zle_Qle. lia. }
    change (inject_Z 1) with 1%Q in *.
    set (raw := (center * (1 + sp * inject_Z i))%Q) in *.
    assert (center + center * sp <= raw)%Q as Hraw.
    { subst raw. assert (sp <= sp * inject_Z i)%Q as Hsi by nra.
      set (si := (sp * inject_Z i)%Q) in *. nra. }
    destruct Hpos as (_ & ? & ?); [nra|].
    split; [done|]. split; [done|]. intros Hts. lra.
Qed.

(** ** Formatting in binary64 *)

(** C9.  In binary64, the arithmetic the program runs, formatting is neither
    idempotent nor bounded by its input.  [format_price(0.35, "0.1")] is 0.3,
    and formatting that result again gives 0.2: the quotient [0.3 / 0.1] is
    2.9999999999999996, which [int()] truncates to 2.  [format_quantity] is
    the same function.  And the double just below 0.000003 is formatted to
    0.000003 with the step "0.000001", above the input.  (In exact arithmetic
    both properties hold: [format_step_idempotent], [format_step_bounds].) *)
Theorem binary64_formatting_drops_a_step :
  @format_price binary64 (@lit binary64 35 2) "0.1" = Ok (@lit binary64 3 1) /\
  @format_price binary64 (@lit binary64 3 1) "0.1" = Ok (@lit binary64 2 1) /\
  @format_quantity binary64 (@lit binary64 3 1) "0.1" = Ok (@lit binary64 2 1) /\
  PrimFloat.ltb (@lit binary64 2 1) (@lit binary64 3 1) = true /\
  (let x := PrimFloat.next_down (@lit binary64 3 6) in
   @format_price binary64 x "0.000001" = Ok (@lit binary64 3 6) /\
   PrimFloat.ltb x (@lit binary64 3 6) = true).
Proof. vm_compute. repeat split; reflexivity. Qed.

(** ** The properties at sample inputs *)

Lemma grid_levels_bounds_witness :
  (forall l, l ∈ scenario_levels.1 -> (price l < 100)%Q) /\
  (forall l, l ∈ scenario_levels.2 -> (100 < price l)%Q) /\
  (forall l, l ∈ scenario_levels.1 ++ scenario_levels.2 ->
     (5 <= qty l * price l)%Q).
Proof.
  destruct (grid_levels_bounds scenario_grid 100%Q "Normal" 100%Q
              (1 # 100)%Q (1 # 100)%Q scenario_levels.1 scenario_levels.2)
    as (Hn & Hb & Hs); [reflexivity..|].
  split; [|split].
  - intros l Hl. by apply Hb.
  - intros l Hl. apply Hs; [done|]. vm_compute. discriminate.
  - intros l Hl. by apply Hn.
Defined.

(** C1.  [calculate_grid_levels] returns sell levels that are not above the
    centre, against its own comment (SELL levels, above center): the sell
    prices are floored to the tick like the buy prices.  With a centre of
    0.0105, a tick of 0.0001 and a spacing of 0.3%, the first sell level is
    priced 0.0105, the centre itself, in exact and in binary64 arithmetic
    alike.  And in binary64, the arithmetic the program runs, a tick within
    one spacing step does not help: with a centre of 2, a tick of 0.01 and a
    spacing of 0.5% ([0.01 <= 2 * 0.005] as the program compares them) the
    first sell level is priced 2.0, where exact arithmetic gives 2.01: the
    product [2 * 1.005] is 2.0099999999999998 and its quotient by 0.01 is
    200.99999999999997, which [int()] truncates to 200. *)
Theorem sell_level_at_the_centre :
  (@calculate_grid_levels exact coarse_grid (105 # 10000)%Q "Normal" 100%Q
   = coarse_levels_exact /\
   exists buys l sells,
     coarse_levels_exact = Ok (buys, l :: sells) /\
     side l = Sell /\ (5 <= qty l * price l)%Q /\
     ~ (105 # 10000 < price l)%Q) /\
  (@calculate_grid_levels binary64 coarse_grid (@lit binary64 105 4) "Normal"
     (b64_of_int 100)
   = coarse_levels_binary64 /\
   exists buys l sells,
     coarse_levels_binary64 = Ok (buys, l :: sells) /\
     side l = Sell /\
     PrimFloat.ltb (@lit binary64 105 4) (price l) = false) /\
  (@calculate_grid_levels binary64 fine_grid (b64_of_int 2) "Normal" (b64_of_int 100)
   = fine_levels_binary64 /\
   @float_of_string binary64 (tick_size (@fine_grid binary64)) = Ok (@lit binary64 1 2) /\
   @get_grid_spacing binary64 fine_grid "Normal" = Ok (@lit binary64 5 3) /\
   PrimFloat.leb (@lit binary64 1 2)
     (PrimFloat.mul (b64_of_int 2) (@lit binary64 5 3)) = true /\
   exists buys l sells,
     fine_levels_binary64 = Ok (buys, l :: sells) /\
     side l = Sell /\ level l = 1 /\
     price l = b64_of_int 2 /\
     PrimFloat.ltb (b64_of_int 2) (price l) = false) /\
  (@calculate_grid_levels exact fine_grid 2%Q "Normal" 100%Q = fine_levels_exact /\
   exists buys l sells,
     fine_levels_exact = Ok (buys, l :: sells) /\
     side l = Sell /\ level l = 1 /\ (price l == 201 # 100)%Q).
Proof.
  split; [|split; [|split]]; (split; [vm_compute; reflexivity|]).
  - eexists _, _, _. split; [reflexivity|]. split; [reflexivity|].
    split; vm_compute; discriminate.
  - eexists _, _, _. split; [reflexivity|]. split; [reflexivity|].
    vm_compute. reflexivity.
  - split; [vm_compute; reflexivity|]. split; [vm_compute; reflexivity|].
    split; [vm_compute; reflexivity|].
    eexists _, _, _. split; [reflexivity|]. split; [reflexivity|].
    split; [reflexivity|]. split; vm_compute; reflexivity.
  - eexists _, _, _. split; [reflexivity|]. split; [reflexivity|].
    split; [reflexivity|]. vm_compute. reflexivity.
Qed.


Lemma drawdown_triggers_kill_switch_witness :
  exists r',
    @_check_drawdown exact (sample_risk false) (Returned tt) (Returned tt)
    = Ok (r', [RiskCancelAllOrders; RiskLogEvent "kill_switch" "CRITICAL"]) /\
    kill_switch_active r' = true.
Proof.
  destruct (@drawdown_triggers_kill_switch exact exact_laws (sample_risk false)
              (Returned tt) (Returned tt) eq_refl eq_refl)
    as (r' & tr & Hc & Ha & _ & Hf).
  destruct (Hf eq_refl) as [_ ->]. exists r'. split; [exact Hc|exact Ha].
Defined.

(** C2 as stated fails: when the cancel-all call raises, the kill-switch
    is activated but no event record is written. *)
Lemma kill_switch_event_lost_when_cancel_raises :
  kill_switch_active (sample_risk false) = false /\
  exists r',
    @_check_drawdown exact (sample_risk false) Raised (Returned tt)
    = Ok (r', [RiskCancelAllOrders]) /\
    kill_switch_active r' = true /\
    RiskLogEvent "kill_switch" "CRITICAL" ∉ [@RiskCancelAllOrders].
Proof.
  split; [reflexivity|]. eexists. split; [vm_compute; reflexivity|].
  split; [reflexivity|]. by intros ?%list_elem_of_singleton.
Qed.

Lemma kill_switch_is_a_latch_witness :
  kill_switch_active (@risk_run exact (sample_risk true) recovery_ops).1 = true.
Proof.
  apply (@kill_switch_is_a_latch exact (sample_risk true) recovery_ops);
    reflexivity.
Defined.

Lemma recenter_failure_keeps_time_witness :
  (@recenter_grid exact scenario_grid NoActiveOrders "Normal" (Returned tt)
     (Returned tt) priceless_env after_49_hours).2 = false /\
  last_recenter_time
    (@recenter_grid exact scenario_grid NoActiveOrders "Normal" (Returned tt)
       (Returned tt) priceless_env after_49_hours).1.1 = 0.
Proof.
  split; [reflexivity|].
  apply (@recenter_failure_keeps_time exact scenario_grid NoActiveOrders "Normal"
           (Returned tt) (Returned tt) priceless_env after_49_hours).
  reflexivity.
Defined.

Lemma daily_max_equity_discipline_witness :
  (1000 < daily_max_equity
            (@update_equity_tracking exact (sample_risk false) 1000
               (Returned (Some 1100%Q)) (Returned tt) (Returned tt)).1)%Q.
Proof.
  destruct (@daily_max_equity_discipline exact (sample_risk false)
              (UpdateEquityTracking 1000 (Returned (Some 1100%Q)) (Returned tt)
                 (Returned tt))
              microseconds_per_day 500%Q (Returned tt) (Returned tt) eq_refl)
    as ([He|Hlt] & _ & _).
  - intros t [= <-]. reflexivity.
  - vm_compute in He. discriminate.
  - vm_compute. reflexivity.
Defined.

(** C5 as stated fails: deactivating an active kill-switch lowers the day's
    maximum from 1000 to the current equity 900, within the same day. *)
Lemma deactivation_lowers_daily_max :
  kill_switch_active (sample_risk true) = true /\
  (daily_max_equity (@risk_step exact (sample_risk true) DeactivateKillSwitch).1
   < daily_max_equity (sample_risk true))%Q.
Proof. split; reflexivity. Qed.

Lemma deviation_reason_has_priority_witness :
  (@should_recenter exact scenario_grid after_49_hours (Returned 105%Q)
     (Returned scenario_orders)).2
  = Ok (true, PriceAboveHighestSell 105%Q 102%Q (@lit exact 2 2 * 100)%Q).
Proof.
  exact (@deviation_reason_has_priority exact exact_laws scenario_grid
           after_49_hours 105%Q scenario_orders 98%Q 101%Q [99%Q] [102%Q]
           eq_refl eq_refl eq_refl eq_refl eq_refl).
Defined.


Lemma kill_switch_transitions_idempotent_witness :
  @trigger_kill_switch exact (sample_risk true) (KillReasonText "again")
    (Returned tt) (Returned tt) = (sample_risk true, []) /\
  @deactivate_kill_switch exact (sample_risk false) = sample_risk false.
Proof.
  apply (@kill_switch_transitions_idempotent exact (sample_risk true)
           (sample_risk false)); reflexivity.
Defined.

Lemma recenter_succeeds_without_orders_witness :
  let out := @recenter_grid exact scenario_grid NoActiveOrders "Normal"
               (Returned tt) (Returned tt) refusing_env after_49_hours in
  out.2 = true /\ active_orders out.1.1 = ∅ /\
  last_recenter_time out.1.1 = after_49_hours.
Proof.
  destruct (@recenter_succeeds_without_orders exact exact_laws scenario_grid
              NoActiveOrders "Normal" refusing_env after_49_hours 100%Q 1000%Q
              scenario_levels.1 scenario_levels.2)
    as (_ & Hok & Hempty).
  - reflexivity.
  - reflexivity.
  - reflexivity.
  - vm_compute. reflexivity.
  - vm_compute. discriminate.
  - vm_compute. discriminate.
  - reflexivity.
  - reflexivity.
  - reflexivity.
  - destruct Hempty as (Ha & Ht & _); [intros i; by right|].
    cbv zeta. split; [exact Hok|]. split; [exact Ha|exact Ht].
Defined.

(** * Further properties of the code *)

Lemma exact_zero : PyFloatZero exact.
Proof. split; reflexivity. Qed.

Lemma binary64_zero : PyFloatZero binary64.
Proof. split; vm_compute; reflexivity. Qed.

#[global] Existing Instance exact_zero.
#[global] Existing Instance binary64_zero.

(** ** The price history and the recenter decision *)

Section HistoryProofs.
Context {F : PyFloat} {L : PyFloatLaws F}.

Lemma last_n_length {A : Type} (n : nat) (l : list A) : (length (last_n n l) <= n)%nat.
Proof. unfold last_n. rewrite length_drop. lia. Qed.

Lemma last_n_elem {A : Type} (n : nat) (l : list A) x : x ∈ last_n n l -> x ∈ l.
Proof. unfold last_n. intros Hx. by eapply subseteq_drop. Qed.

Lemma last_n_last {A : Type} (n : nat) (l : list A) x :
  (0 < n)%nat -> last (last_n n (l ++ [x])) = Some x.
Proof.
  intros Hn. unfold last_n. rewrite last_lookup, length_drop, lookup_drop.
  rewrite length_app. simpl.
  replace (length l + 1 - n + Init.Nat.pred (length l + 1 - (length l + 1 - n)))%nat
    with (length l) by lia.
  by rewrite lookup_app_r, Nat.sub_diag.
Qed.

Lemma get_current_price_failed (g : GridLogic num) now mark :
  (forall p, mark = Returned p -> (p >? zero)%py = false) ->
  get_current_price g now mark = (g, zero).
Proof.
  intros Hp. unfold get_current_price. destruct mark as [p|]; [|done].
  by rewrite (Hp p eq_refl).
Qed.

Lemma get_current_price_sample (g : GridLogic num) now mark x :
  x ∈ price_history (get_current_price g now mark).1 ->
  x ∈ price_history g \/
  exists p, mark = Returned p /\ (p >? zero)%py = true /\ x = (p, now).
Proof.
  unfold get_current_price. destruct mark as [p|]; [|by left].
  destruct (p >? zero)%py eqn:Ep; [|by left]. simpl.
  intros Hx.
  assert (x ∈ price_history g ++ [(p, now)]) as Hx'.
  { destruct (_ <? _)%nat; [by apply last_n_elem in Hx|done]. }
  apply elem_of_app in Hx' as [?|Hx']; [by left|].
  apply list_elem_of_singleton in Hx' as ->. right. by exists p.
Qed.

Lemma positive_history_kept (g : GridLogic num) now mark :
  positive_history (price_history g) ->
  positive_history (price_history (get_current_price g now mark).1).
Proof.
  unfold positive_history. rewrite !Forall_forall. intros Hh x Hx.
  apply get_current_price_sample in Hx as [Hx|(p & _ & Hp & ->)]; [by apply Hh|done].
Qed.

(** X1. [get_current_price] keeps the price history within
    [max_history_points] (720) samples and keeps every sample positive.  A
    fetched price that is positive is returned and becomes the newest
    sample, stamped with the clock reading; when the fetch raises or gives a
    price that is not positive, the engine is unchanged and 0.0 is
    returned. *)
Theorem price_history_invariant (g : GridLogic num) (now : Z) (mark : response num) :
  let out := get_current_price g now mark in
  ((length (price_history g) <= max_history_points)%nat ->
   (length (price_history out.1) <= max_history_points)%nat) /\
  (positive_history (price_history g) -> positive_history (price_history out.1)) /\
  (forall p, mark = Returned p -> (p >? zero)%py = true ->
     out.2 = p /\ last (price_history out.1) = Some (p, now)) /\
  ((forall p, mark = Returned p -> (p >? zero)%py = false) -> out = (g, zero)).
Proof.
  cbv zeta. split; [|split; [|split]].
  - intros Hl. unfold get_current_price. destruct mark as [p|]; [|done].
    destruct (p >? zero)%py; [|done]. simpl.
    destruct (_ <? _)%nat eqn:E; [apply last_n_length|by apply Nat.ltb_ge in E].
  - apply positive_history_kept.
  - intros p -> Hp. unfold get_current_price. rewrite Hp. simpl. split; [done|].
    destruct (_ <? _)%nat; [|apply last_snoc].
    apply last_n_last. unfold max_history_points. lia.
  - apply get_current_price_failed.
Qed.

Lemma foldl_fmin_elem (a : num) (l : list num) : foldl fmin a l ∈ a :: l.
Proof.
  revert a. induction l as [|b l IH]; intros a; simpl; [left|].
  unfold fmin at 2. destruct (b <? a)%py.
  - right. apply IH.
  - specialize (IH a). apply elem_of_cons in IH as [->|?]; [left|right; by right].
Qed.

Lemma pump_dump_never_raises (g : GridLogic num) now :
  positive_history (price_history g) -> exists r, pump_dump_check g now = Ok r.
Proof.
  intros Hh. unfold pump_dump_check. destruct (_ <=? _)%nat; [|by eexists].
  destruct (fst <$> recent_history g now 1) as [|p ps] eqn:E; [by eexists|].
  assert ((foldl fmin p ps >? zero)%py = true) as Hpos.
  { pose proof (foldl_fmin_elem p ps) as Hin. rewrite <- E in Hin.
    apply list_elem_of_fmap in Hin as (s & -> & Hs).
    unfold recent_history in Hs. apply list_elem_of_filter in Hs as [_ Hs].
    unfold positive_history in Hh. rewrite Forall_forall in Hh. by apply Hh. }
  unfold pydiv. rewrite (not_le_zero_nonzero _ (gt_zero_not_le _ Hpos)). simpl.
  case_match; by eexists.
Qed.

(** X2. As long as every sample of the price history is positive (which
    [get_current_price] maintains, starting from the empty history of the
    constructor), [should_recenter] returns a decision: the division by the
    lowest price of the last hour in its pump/dump test never raises
    ZeroDivisionError.  The history it leaves is again positive. *)
Theorem should_recenter_never_raises (g : GridLogic num) (now : Z)
  (mark : response num) (orders : response (list (OpenOrder num))) :
  positive_history (price_history g) ->
  positive_history (price_history (should_recenter g now mark orders).1) /\
  exists decision, (should_recenter g now mark orders).2 = Ok decision.
Proof.
  intros Hh. pose proof (positive_history_kept g now mark Hh) as Hk.
  unfold should_recenter.
  destruct (get_current_price g now mark) as [g1 cp]. simpl in Hk.
  destruct (cp <=? zero)%py; [split; [done|by eexists]|].
  destruct orders as [[|o os]|]; [split; [done|by eexists]| |split; [done|by eexists]].
  destruct (prices_of Buy (o :: os)) as [|b bs]; [split; [done|by eexists]|].
  destruct (prices_of Sell (o :: os)) as [|s ss]; [split; [done|by eexists]|].
  simpl. split; [done|]. unfold recenter_conditions.
  repeat (case_match; [by eexists|]).
  destruct (pump_dump_never_raises g1 now Hk) as [r ->]. simpl.
  case_match; by eexists.
Qed.

(** X3. When the gateway lists open orders but none on one of the two
    sides, [should_recenter] answers [(False, "")]: no deviation, time,
    one-sided or pump/dump test is evaluated, however long ago the last
    recenter was. *)
Theorem one_sided_orders_never_trigger (g : GridLogic num) (now : Z)
  (mark : response num) (orders : list (OpenOrder num)) (sd : Side) :
  orders <> [] -> Forall (fun o => order_side o <> Some sd) orders ->
  (should_recenter g now mark (Returned orders)).2 = Ok (false, NoReason).
Proof.
  intros Hne Hs. unfold should_recenter.
  destruct (get_current_price g now mark) as [g1 cp].
  destruct (cp <=? zero)%py; [done|].
  assert (prices_of sd orders = []) as Hnil.
  { unfold prices_of. clear Hne. induction Hs as [|x xs Hx _ IH]; [done|].
    rewrite filter_cons. destruct (decide (order_side x = Some sd)); [done|exact IH]. }
  destruct orders as [|o os]; [done|].
  destruct sd; rewrite Hnil; [done|]. by destruct (prices_of Buy _).
Qed.

End HistoryProofs.

(** ** The grid spacing *)

Section SpacingProofs.
Context {F : PyFloat} {L : PyFloatLaws F} {Z0 : PyFloatZero F}.

(** X4. [get_grid_spacing] always returns a spacing (its division by the
    centre price is guarded), and that spacing is the profile's base spacing
    or [min(base * 1.2, grid_spacing_max)].  It is the base spacing whenever
    the history holds fewer than 28 samples, and whenever the centre price
    is not positive. *)
Theorem grid_spacing_choice (g : GridLogic num) (profile : string) :
  let base := grid_spacing (profile_config (config g) profile) in
  exists sp,
    get_grid_spacing g profile = Ok sp /\
    (sp = base \/ sp = fmin (base * lit 12 1)%py (grid_spacing_max (config g))) /\
    ((length (price_history g) < 28)%nat -> sp = base) /\
    ((center_price g >? zero)%py = false -> sp = base).
Proof.
  intros base. unfold get_grid_spacing. fold base.
  assert ((length (price_history g) < 28)%nat -> calculate_atr g = zero) as Hatr.
  { intros Hl. unfold calculate_atr.
    assert ((length (price_history g) <? 14 * 2)%nat = true) as ->; [|done].
    apply Nat.ltb_lt. lia. }
  destruct ((calculate_atr g >? zero)%py && (center_price g >? zero)%py) eqn:E.
  - apply andb_true_iff in E as [Ha Hc].
    rewrite (pydiv_positive _ _ (gt_zero_not_le _ Hc)). simpl.
    assert ((length (price_history g) < 28)%nat -> False) as Hno.
    { intros Hl. rewrite (Hatr Hl), zero_not_gt_zero in Ha. done. }
    destruct (_ >? lit 5 3)%py; eexists; (split; [done|]).
    + split; [by right|]. split; [by intros ?%Hno|]. by rewrite Hc.
    + split; [by left|done].
  - exists base. split; [done|]. split; [by left|done].
Qed.

End SpacingProofs.

(** ** The shape of the level lists *)

Section LevelShape.
Context {F : PyFloat}.

Lemma calculate_shape (g : GridLogic num) center profile capital b s :
  calculate_grid_levels g center profile capital = Ok (b, s) ->
  exists sp q mp,
    get_grid_spacing g profile = Ok sp /\
    pydiv capital (min_notional g * lit 11 1)%py = Ok q /\ trunc q = Some mp /\
    ((mp < 2 /\ b = [] /\ s = []) \/
     (2 <= mp /\ exists n bd,
        n = (if mp <? target_levels (profile_config (config g) profile)
                      + target_levels (profile_config (config g) profile)
             then mp `div` 2
             else target_levels (profile_config (config g) profile)) /\
        pydiv capital (of_int (n + n)) = Ok bd /\
        grid_side g Buy center sp bd (seqZ 1 n) = Ok b /\
        grid_side g Sell center sp bd (seqZ 1 n) = Ok s)).
Proof.
  unfold calculate_grid_levels.
  destruct (get_grid_spacing g profile) as [sp|]; [|done]. simpl.
  destruct (pydiv capital _) as [q|] eqn:Eq; [|done]. simpl.
  destruct (trunc q) as [mp|] eqn:Et; [|done]. simpl.
  destruct (mp <? 2) eqn:E2.
  { intros [= <- <-]. exists sp, q, mp. repeat split; try done. left. split; [lia|done]. }
  match goal with |- context [seqZ 1 ?n] => set (k := n) end.
  destruct (pydiv capital (of_int (k + k))) as [bd|] eqn:Ebd; [|done]. simpl.
  destruct (grid_side g Buy center sp bd (seqZ 1 k)) as [bs|] eqn:Eb; [|done]. simpl.
  destruct (grid_side g Sell center sp bd (seqZ 1 k)) as [ss|] eqn:Es; [|done]. simpl.
  intros [= <- <-]. exists sp, q, mp. repeat split; try done. right.
  split; [lia|]. by exists k, bd.
Qed.

Lemma grid_side_sublist (g : GridLogic num) sd center sp bd idx ls :
  grid_side g sd center sp bd idx = Ok ls ->
  (level <$> ls) `sublist_of` (signed_level sd <$> idx).
Proof.
  revert ls. induction idx as [|i idx IH]; simpl; intros ls Hs.
  - simplify_eq. constructor.
  - destruct (grid_level g sd center sp bd i) as [o|] eqn:Eg; [|done]. simpl in Hs.
    destruct (grid_side g sd center sp bd idx) as [ls'|]; [|done]. simpl in Hs.
    injection Hs as <-. specialize (IH ls' eq_refl). destruct o as [l0|].
    + unfold grid_level in Eg.
      destruct (format_price _ _) as [p|]; [|done]. simpl in Eg.
      destruct (_calculate_order_qty g p bd) as [q|]; [|done]. simpl in Eg.
      destruct (_ && _); [|done]. injection Eg as <-. simpl. by constructor.
    + by constructor.
Qed.

Lemma grid_level_fields (g : GridLogic num) sd center sp bd i l :
  grid_level g sd center sp bd i = Ok (Some l) ->
  level l = signed_level sd i /\ side l = sd /\
  _calculate_order_qty g (price l) bd = Ok (qty l).
Proof.
  unfold grid_level.
  destruct (format_price _ _) as [p|]; [|done]. simpl.
  destruct (_calculate_order_qty g p bd) as [q|] eqn:Eq; [|done]. simpl.
  destruct (_ && _); [|done]. by intros [= <-].
Qed.

Lemma seqZ_sorted m n : StronglySorted Z.lt (seqZ m n).
Proof.
  destruct (decide (0 <= n)) as [Hn|Hn].
  - revert m. pattern n. apply natlike_ind; [| |exact Hn].
    + intros m. constructor.
    + intros k Hk IH m. rewrite seqZ_cons by lia.
      replace (Z.pred (Z.succ k)) with k by lia.
      constructor; [apply IH|].
      apply Forall_forall. intros x Hx%elem_of_seqZ. lia.
  - unfold seqZ. replace (Z.to_nat n) with 0%nat by lia. constructor.
Qed.

Lemma seqZ_nonpos m n : n <= 0 -> seqZ m n = [].
Proof. intros Hn. unfold seqZ. by replace (Z.to_nat n) with 0%nat by lia. Qed.

Lemma seqZ_positive n : Forall (fun i => 0 < i) (seqZ 1 n).
Proof. apply Forall_forall. intros x Hx%elem_of_seqZ. lia. Qed.

Lemma grid_side_sorted (g : GridLogic num) sd center sp bd idx ls :
  StronglySorted Z.lt idx -> Forall (fun i => 0 < i) idx ->
  grid_side g sd center sp bd idx = Ok ls ->
  StronglySorted (fun a b => Z.abs (level a) < Z.abs (level b)) ls.
Proof.
  intros Hsort Hpos. revert ls.
  induction idx as [|i idx IH]; simpl; intros ls Hs.
  - simplify_eq. constructor.
  - apply StronglySorted_cons in Hsort as [Hi Hsort].
    apply Forall_cons in Hpos as [Hi0 Hpos].
    destruct (grid_level g sd center sp bd i) as [o|] eqn:Eg; [|done]. simpl in Hs.
    destruct (grid_side g sd center sp bd idx) as [ls'|] eqn:Es; [|done]. simpl in Hs.
    injection Hs as <-. specialize (IH Hsort Hpos ls' eq_refl).
    destruct o as [l0|]; [|done].
    constructor; [done|]. apply Forall_forall. intros l Hl.
    destruct (grid_side_elem _ _ _ _ _ _ _ _ Es Hl) as (j & Hj & Hlj).
    apply grid_level_fields in Eg as (-> & _).
    apply grid_level_fields in Hlj as (-> & _).
    rewrite Forall_forall in Hi, Hpos. specialize (Hi j Hj). specialize (Hpos j Hj).
    destruct sd; simpl; lia.
Qed.

Lemma sorted_last {A : Type} (R : A -> A -> Prop) (ls : list A) x :
  StronglySorted R ls -> last ls = Some x -> forall l, l ∈ ls -> l = x \/ R l x.
Proof.
  intros Hs Hl. apply last_Some in Hl as [pre ->].
  intros l [Hl|Hl]%elem_of_app.
  - right. eapply StronglySorted_app_1_elem_of; [done|done|]. left.
  - apply list_elem_of_singleton in Hl. by left.
Qed.

Lemma last_elem {A : Type} (ls : list A) x : last ls = Some x -> x ∈ ls.
Proof. intros [pre ->]%last_Some. apply elem_of_app. right. left. Qed.

(** X5. Whatever the arithmetic, [calculate_grid_levels] returns at most
    [target_levels] levels a side; buy levels are numbered from -1 down to
    [-target_levels] and sell levels from 1 up to [target_levels], each list
    in that order (closest to the centre first), so that no level number
    occurs twice. *)
Theorem level_numbers (g : GridLogic num) (center : num) (profile : string)
  (capital : num) (buys sells : list (GridLevel num)) :
  calculate_grid_levels g center profile capital = Ok (buys, sells) ->
  let target := target_levels (profile_config (config g) profile) in
  (length buys <= Z.to_nat target)%nat /\ (length sells <= Z.to_nat target)%nat /\
  (forall l, l ∈ buys -> side l = Buy /\ - target <= level l <= -1) /\
  (forall l, l ∈ sells -> side l = Sell /\ 1 <= level l <= target) /\
  StronglySorted (fun x y => level y < level x) buys /\
  StronglySorted (fun x y => level x < level y) sells.
Proof.
  intros (sp & q & mp & _ & _ & _ &
          [(_ & -> & ->)|(Hmp & n & bd & Hn & _ & Hb & Hs)])%calculate_shape;
    intros target.
  { simpl. split; [lia|]. split; [lia|].
    split; [by intros l ?%elem_of_nil|]. split; [by intros l ?%elem_of_nil|].
    split; apply SSorted_nil. }
  assert (n <= target) as Hnt.
  { subst n target. destruct (_ <? _) eqn:E; [|lia].
    apply Z.ltb_lt in E. apply Z.div_le_upper_bound; lia. }
  pose proof (grid_side_sublist _ _ _ _ _ _ _ Hb) as Sb.
  pose proof (grid_side_sublist _ _ _ _ _ _ _ Hs) as Ss.
  apply sublist_length in Sb, Ss. rewrite !length_fmap, length_seqZ in Sb, Ss.
  pose proof (grid_side_sorted _ _ _ _ _ _ _ (seqZ_sorted 1 n) (seqZ_positive n) Hb) as Ob.
  pose proof (grid_side_sorted _ _ _ _ _ _ _ (seqZ_sorted 1 n) (seqZ_positive n) Hs) as Os.
  assert (forall l, l ∈ buys -> side l = Buy /\ - target <= level l <= -1) as Rb.
  { intros l Hl.
    destruct (grid_side_elem _ _ _ _ _ _ _ _ Hb Hl) as (i & Hi%elem_of_seqZ & Hli).
    apply grid_level_fields in Hli as (-> & -> & _). split; [done|simpl; lia]. }
  assert (forall l, l ∈ sells -> side l = Sell /\ 1 <= level l <= target) as Rs.
  { intros l Hl.
    destruct (grid_side_elem _ _ _ _ _ _ _ _ Hs Hl) as (i & Hi%elem_of_seqZ & Hli).
    apply grid_level_fields in Hli as (-> & -> & _). split; [done|simpl; lia]. }
  split; [lia|]. split; [lia|]. split; [done|]. split; [done|]. split.
  - clear -Ob Rb. induction Ob as [|x l Hl IH Hx]; [constructor|].
    constructor.
    + apply IH. intros y Hy. apply Rb. by right.
    + apply Forall_forall. intros y Hy. rewrite Forall_forall in Hx.
      specialize (Hx y Hy). pose proof (Rb x ltac:(left)) as [_ ?].
      pose proof (Rb y ltac:(by right)) as [_ ?]. lia.
  - clear -Os Rs. induction Os as [|x l Hl IH Hx]; [constructor|].
    constructor.
    + apply IH. intros y Hy. apply Rs. by right.
    + apply Forall_forall. intros y Hy. rewrite Forall_forall in Hx.
      specialize (Hx y Hy). pose proof (Rs x ltac:(left)) as [_ ?].
      pose proof (Rs y ltac:(by right)) as [_ ?]. lia.
Qed.

(** X6. Whatever the arithmetic, the levels returned are within what the
    program holds affordable: their number does not exceed
    [max_possible_levels], the count [int(available_capital /
    (min_notional * 1.1))] that the program computes.  When a level is
    returned, the plan was for [n >= 1] levels a side with
    [2 * n <= max_possible_levels], where [n] is [target_levels], or half of
    [max_possible_levels] (rounded down) when the target is not affordable;
    and every returned level has the quantity that [_calculate_order_qty]
    gives for its price and the one budget [available_capital / (2 * n)]. *)
Theorem level_plan_is_affordable (g : GridLogic num) (center : num) (profile : string)
  (capital : num) (buys sells : list (GridLevel num)) :
  calculate_grid_levels g center profile capital = Ok (buys, sells) ->
  let target := target_levels (profile_config (config g) profile) in
  exists q max_possible_levels,
    pydiv capital (min_notional g * lit 11 1)%py = Ok q /\
    trunc q = Some max_possible_levels /\
    Z.of_nat (length buys + length sells) <= Z.max 0 max_possible_levels /\
    (buys ++ sells <> [] ->
     exists n budget_per_level,
       1 <= n /\ n + n <= max_possible_levels /\
       (n = target \/ (max_possible_levels < target + target /\
                       n = max_possible_levels `div` 2)) /\
       (length buys <= Z.to_nat n)%nat /\ (length sells <= Z.to_nat n)%nat /\
       pydiv capital (of_int (n + n)) = Ok budget_per_level /\
       forall l, l ∈ buys ++ sells ->
         _calculate_order_qty g (price l) budget_per_level = Ok (qty l)).
Proof.
  intros (sp & q & mp & _ & Hq & Hmp &
     [(_ & -> & ->)|(Hmp2 & n & bd & Hn & Hbd & Hb & Hs)])%calculate_shape target.
  { exists q, mp. split; [done|]. split; [done|]. split; [simpl; lia|]. done. }
  exists q, mp. split; [done|]. split; [done|].
  pose proof (grid_side_sublist _ _ _ _ _ _ _ Hb) as Sb.
  pose proof (grid_side_sublist _ _ _ _ _ _ _ Hs) as Ss.
  apply sublist_length in Sb, Ss. rewrite !length_fmap, length_seqZ in Sb, Ss.
  assert (n + n <= mp /\ (n = target \/ (mp < target + target /\ n = mp `div` 2)))
    as [Hnmp Hcase].
  { subst target. rewrite Hn. destruct (_ <? _) eqn:E.
    - apply Z.ltb_lt in E. split; [|right; by split].
      pose proof (Z.div_mod mp 2 ltac:(lia)).
      pose proof (Z.mod_pos_bound mp 2 ltac:(lia)). lia.
    - apply Z.ltb_ge in E. split; [lia|by left]. }
  split; [lia|].
  intros Hne. exists n, bd.
  assert (1 <= n) as Hn1.
  { destruct (decide (n <= 0)) as [Hn0|]; [|lia].
    rewrite (seqZ_nonpos 1 n Hn0) in Hb, Hs. simpl in Hb, Hs.
    injection Hb as <-. injection Hs as <-. done. }
  repeat (split; [done|]).
  intros l [Hl|Hl]%elem_of_app.
  - destruct (grid_side_elem _ _ _ _ _ _ _ _ Hb Hl) as (i & _ & Hi).
    by apply grid_level_fields in Hi as (_ & _ & ?).
  - destruct (grid_side_elem _ _ _ _ _ _ _ _ Hs Hl) as (i & _ & Hi).
    by apply grid_level_fields in Hi as (_ & _ & ?).
Qed.

End LevelShape.

(** ** Prices of the levels, in exact arithmetic *)

Lemma exact_gt (x y : Q) : @flt exact y x = true <-> (y < x)%Q.
Proof.
  cbn [flt exact]. unfold Qltb. rewrite negb_true_iff. split.
  - intros H. destruct (Qlt_le_dec y x) as [?|Hle]; [done|].
    apply Qle_bool_iff in Hle. congruence.
  - intros H. destruct (Qle_bool x y) eqn:E; [|done].
    apply Qle_bool_iff in E. lra.
Qed.

Lemma exact_gt_false (x y : Q) : @flt exact y x = false <-> (x <= y)%Q.
Proof.
  cbn [flt exact]. unfold Qltb. rewrite negb_false_iff. apply Qle_bool_iff.
Qed.

Lemma exact_le (x y : Q) : @fle exact x y = true <-> (x <= y)%Q.
Proof. apply Qle_bool_iff. Qed.

Lemma exact_le_false (x y : Q) : @fle exact x y = false <-> (y < x)%Q.
Proof.
  cbn [fle exact]. split.
  - intros H. destruct (Qlt_le_dec y x) as [?|Hle]; [done|].
    apply Qle_bool_iff in Hle. congruence.
  - intros H. destruct (Qle_bool x y) eqn:E; [|done].
    apply Qle_bool_iff in E. lra.
Qed.

Lemma exact_pydiv (x y : Q) : ~ (y == 0)%Q -> @pydiv exact x y = Ok (x / y)%Q.
Proof.
  intros Hy. unfold pydiv. cbn [is_zero fdiv exact].
  destruct (Qeq_bool y 0) eqn:E; [|done]. by apply Qeq_bool_iff in E.
Qed.

Lemma Qtrunc_mono q1 q2 : (q1 <= q2)%Q -> Qtrunc q1 <= Qtrunc q2.
Proof.
  intros Hle.
  destruct (Qlt_le_dec q1 0) as [H1|H1], (Qlt_le_dec q2 0) as [H2|H2].
  - assert (Qtrunc (- q2) <= Qtrunc (- q1)) as Hm.
    { unfold Qtrunc. destruct q1 as [n1 d1], q2 as [n2 d2].
      unfold Qle, Qlt, Qopp in *. simpl in *.
      rewrite !Z.quot_div_nonneg by lia.
      rewrite <- (Z.div_mul_cancel_r (- n2) (Z.pos d2) (Z.pos d1)) by lia.
      rewrite <- (Z.div_mul_cancel_r (- n1) (Z.pos d1) (Z.pos d2)) by lia.
      rewrite (Z.mul_comm (Z.pos d1) (Z.pos d2)).
      apply Z.div_le_mono; lia. }
    rewrite !Qtrunc_opp in Hm. lia.
  - rewrite Zle_Qle. destruct (Qtrunc_nonpos q1) as [_ ?]; [lra|].
    destruct (Qtrunc_nonneg q2 H2) as [? _]. lra.
  - lra.
  - unfold Qtrunc. destruct q1 as [n1 d1], q2 as [n2 d2].
    unfold Qle in *. simpl in *.
    rewrite !Z.quot_div_nonneg by lia.
    rewrite <- (Z.div_mul_cancel_r n2 (Z.pos d2) (Z.pos d1)) by lia.
    rewrite <- (Z.div_mul_cancel_r n1 (Z.pos d1) (Z.pos d2)) by lia.
    rewrite (Z.mul_comm (Z.pos d1) (Z.pos d2)).
    apply Z.div_le_mono; lia.
Qed.

Lemma format_step_mono (x1 x2 : Q) (s : string) (t y1 y2 : Q) :
  @float_of_string exact s = Ok t -> (0 < t)%Q -> (x1 <= x2)%Q ->
  @format_step exact x1 s = Ok y1 -> @format_step exact x2 s = Ok y2 ->
  (y1 <= y2)%Q.
Proof.
  intros Ht Hpos Hle (t1 & Ht1 & _ & _ & Hy1)%format_step_exact
    (t2 & Ht2 & _ & _ & Hy2)%format_step_exact.
  rewrite Ht in Ht1, Ht2. injection Ht1 as <-. injection Ht2 as <-.
  rewrite Hy1, Hy2.
  assert (x1 / t <= x2 / t)%Q as Hq.
  { apply Qle_shift_div_l; [done|].
    assert (x1 / t * t == x1)%Q as -> by (field; lra). done. }
  apply Qtrunc_mono in Hq. rewrite Zle_Qle in Hq.
  set (a := inject_Z (Qtrunc (x1 / t))) in *.
  set (b := inject_Z (Qtrunc (x2 / t))) in *.
  nra.
Qed.

Lemma side_prices_monotone (g : GridLogic Q) sd (center sp bd t : Q) idx ls l l' :
  (0 <= center)%Q -> (0 <= sp)%Q ->
  @float_of_string exact (tick_size g) = Ok t -> (0 < t)%Q ->
  @grid_side exact g sd center sp bd idx = Ok ls -> l ∈ ls -> l' ∈ ls ->
  Z.abs (level l) <= Z.abs (level l') -> Forall (fun i => 0 < i) idx ->
  match sd with
  | Buy => (price l' <= price l)%Q
  | Sell => (price l <= price l')%Q
  end.
Proof.
  intros Hc Hsp Ht Ht0 Hs Hl Hl' Hlev Hpos. rewrite Forall_forall in Hpos.
  destruct (@grid_side_elem exact _ _ _ _ _ _ _ _ Hs Hl) as (i & Hi & Hli).
  destruct (@grid_side_elem exact _ _ _ _ _ _ _ _ Hs Hl') as (j & Hj & Hlj).
  apply (@grid_level_inv exact) in Hli as (Hf & _ & _ & Hlv & _).
  apply (@grid_level_inv exact) in Hlj as (Hf' & _ & _ & Hlv' & _).
  apply Hpos in Hi, Hj.
  assert (i <= j) as Hij.
  { change (@level Q l) with (@level (@num exact) l) in Hlev.
    change (@level Q l') with (@level (@num exact) l') in Hlev.
    rewrite Hlv, Hlv' in Hlev. destruct sd; lia. }
  rewrite Zle_Qle in Hij.
  cbn [fmul fsub fadd of_int num exact] in Hf, Hf'.
  change (inject_Z 1) with 1%Q in *.
  assert (sp * inject_Z i <= sp * inject_Z j)%Q as Hsij by nra.
  set (a := (sp * inject_Z i)%Q) in *. set (b := (sp * inject_Z j)%Q) in *.
  destruct sd.
  - eapply (format_step_mono _ _ _ _ _ _ Ht Ht0); [|exact Hf'|exact Hf]. nra.
  - eapply (format_step_mono _ _ _ _ _ _ Ht Ht0); [|exact Hf|exact Hf']. nra.
Qed.

(** X7. In exact arithmetic, for a centre and a spacing that are not
    negative and a positive tick: prices follow the level numbers (a buy
    level farther from the centre is not priced higher, a sell level
    farther from the centre is not priced lower), and no buy level is priced
    above a sell level. *)
Theorem prices_follow_levels (g : GridLogic Q) (center : Q) (profile : string)
  (capital sp t : Q) (buys sells : list (GridLevel Q)) :
  (0 <= center)%Q ->
  @get_grid_spacing exact g profile = Ok sp -> (0 <= sp)%Q ->
  @float_of_string exact (tick_size g) = Ok t -> (0 < t)%Q ->
  @calculate_grid_levels exact g center profile capital = Ok (buys, sells) ->
  (forall l l', l ∈ buys -> l' ∈ buys -> level l' <= level l ->
     (price l' <= price l)%Q) /\
  (forall l l', l ∈ sells -> l' ∈ sells -> level l <= level l' ->
     (price l <= price l')%Q) /\
  (forall l l', l ∈ buys -> l' ∈ sells -> (price l <= price l')%Q).
Proof.
  intros Hc Hsp Hsp0 Ht Ht0
    (sp' & q & mp & Hsp' & _ & _ &
     [(_ & -> & ->)|(_ & n & bd & _ & _ & Hb & Hs)])%(@calculate_shape exact).
  { split; [|split]; by intros l l' ?%elem_of_nil. }
  rewrite Hsp in Hsp'. injection Hsp' as <-.
  pose proof (seqZ_positive n) as Hpos.
  assert (forall sd ls l, @grid_side exact g sd center sp bd (seqZ 1 n) = Ok ls ->
            l ∈ ls -> Z.abs (level l) = match sd with Buy => - level l | Sell => level l end)
    as Habs.
  { intros sd ls l Hls Hl.
    destruct (@grid_side_elem exact _ _ _ _ _ _ _ _ Hls Hl)
      as (i & Hi%elem_of_seqZ & Hli).
    apply (@grid_level_inv exact) in Hli as (_ & _ & _ & Hlv & _).
    change (@level Q l) with (@level (@num exact) l). rewrite Hlv. destruct sd; lia. }
  split; [|split].
  - intros l l' Hl Hl' Hlev.
    apply (side_prices_monotone g Buy center sp bd t _ _ l l' Hc Hsp0 Ht Ht0 Hb Hl Hl');
      [|done].
    pose proof (Habs Buy _ _ Hb Hl) as E1. pose proof (Habs Buy _ _ Hb Hl') as E2.
    cbn [num exact] in *. lia.
  - intros l l' Hl Hl' Hlev.
    apply (side_prices_monotone g Sell center sp bd t _ _ l l' Hc Hsp0 Ht Ht0 Hs Hl Hl');
      [|done].
    pose proof (Habs Sell _ _ Hs Hl) as E1. pose proof (Habs Sell _ _ Hs Hl') as E2.
    cbn [num exact] in *. lia.
  - intros l l' Hl Hl'.
    destruct (@grid_side_elem exact _ _ _ _ _ _ _ _ Hb Hl)
      as (i & Hi%elem_of_seqZ & Hli).
    destruct (@grid_side_elem exact _ _ _ _ _ _ _ _ Hs Hl')
      as (j & Hj%elem_of_seqZ & Hlj).
    apply (@grid_level_inv exact) in Hli as (Hf & _).
    apply (@grid_level_inv exact) in Hlj as (Hf' & _).
    cbn [fmul fsub fadd of_int num exact] in Hf, Hf'.
    change (inject_Z 1) with 1%Q in *.
    assert (1 <= inject_Z i)%Q as Hi1.
    { change 1%Q with (inject_Z 1). rewrite <- Zle_Qle. lia. }
    assert (1 <= inject_Z j)%Q as Hj1.
    { change 1%Q with (inject_Z 1). rewrite <- Zle_Qle. lia. }
    assert (0 <= sp * inject_Z i)%Q as Ha by nra.
    assert (0 <= sp * inject_Z j)%Q as Hb' by nra.
    set (a := (sp * inject_Z i)%Q) in *. set (b := (sp * inject_Z j)%Q) in *.
    eapply (format_step_mono _ _ _ _ _ _ Ht Ht0); [|exact Hf|exact Hf']. nra.
Qed.

(** X8. In exact arithmetic, under the same conditions: once the engine
    holds the levels that [calculate_grid_levels] returned, the
    ['lowest_buy'] that [get_grid_stats] reports (the price of the last buy
    level) is the lowest buy price of the grid, and its ['highest_sell'] is
    the highest sell price. *)
Theorem grid_stats_extremes (g g' : GridLogic Q) (center : Q) (profile : string)
  (capital sp t : Q) :
  (0 <= center)%Q ->
  @get_grid_spacing exact g profile = Ok sp -> (0 <= sp)%Q ->
  @float_of_string exact (tick_size g) = Ok t -> (0 < t)%Q ->
  @calculate_grid_levels exact g center profile capital
    = Ok (buy_levels g', sell_levels g') ->
  (forall l, l ∈ buy_levels g' ->
     (lowest_buy (@get_grid_stats exact g') <= price l)%Q) /\
  (forall l, l ∈ sell_levels g' ->
     (price l <= highest_sell (@get_grid_stats exact g'))%Q).
Proof.
  intros Hc Hsp Hsp0 Ht Ht0 Hcalc.
  apply (@calculate_shape exact) in Hcalc
    as (sp' & q & mp & Hsp' & _ & _ &
        [(_ & Eb & Es)|(_ & n & bd & _ & _ & Hb & Hs)]).
  { rewrite Eb, Es. split; by intros l ?%elem_of_nil. }
  rewrite Hsp in Hsp'. injection Hsp' as <-.
  pose proof (seqZ_positive n) as Hpos.
  pose proof (@grid_side_sorted exact _ _ _ _ _ _ _ (seqZ_sorted 1 n) Hpos Hb) as Sb.
  pose proof (@grid_side_sorted exact _ _ _ _ _ _ _ (seqZ_sorted 1 n) Hpos Hs) as Ss.
  unfold get_grid_stats. cbn [lowest_buy highest_sell num exact].
  split; intros l Hl.
  - destruct (last (buy_levels g')) as [x|] eqn:El.
    2:{ apply last_None in El. rewrite El in Hl. by apply elem_of_nil in Hl. }
    pose proof (last_elem _ _ El) as Hx.
    apply (side_prices_monotone g Buy center sp bd t _ _ l x Hc Hsp0 Ht Ht0 Hb Hl Hx);
      [|done].
    destruct (sorted_last _ _ _ Sb El l Hl) as [->|Hlt]; cbn [num exact] in *; lia.
  - destruct (last (sell_levels g')) as [x|] eqn:El.
    2:{ apply last_None in El. rewrite El in Hl. by apply elem_of_nil in Hl. }
    pose proof (last_elem _ _ El) as Hx.
    apply (side_prices_monotone g Sell center sp bd t _ _ l x Hc Hsp0 Ht Ht0 Hs Hl Hx);
      [|done].
    destruct (sorted_last _ _ _ Ss El l Hl) as [->|Hlt]; cbn [num exact] in *; lia.
Qed.

(** ** The number of decimals of a step *)

(** X20. For a step text in plain decimal notation (an optional sign,
    digits, at most one point; not an exponent form such as ["1e-05"], which
    has no point and for which the formatters take the precision 0), the
    number of decimals that [format_quantity] and [format_price] read off
    the text is enough to write the step.  If [float()] reads the text as
    the integer [m] over [10 ^ k], with [k] digits after the point, then the
    precision [p] is at most [k] and the last [k - p] digits of [m] are
    zeros: the step, and with it every integer multiple of the step, is a
    whole number of units [10 ^ -p]. *)
Theorem step_precision_suffices (s : string) (m : Z) (k : nat) :
  parse_decimal s = Some (m, k) ->
  (precision_of s <= k)%nat /\
  (10 ^ Z.of_nat (k - precision_of s) | m).
Proof.
  intros (j & -> & m' & ->)%parse_decimal_precision.
  split; [lia|]. replace (precision_of s + j - precision_of s)%nat with j by lia.
  by exists m'.
Qed.

(** ** What [setup_grid] and [recenter_grid] do to the orders *)

Section OrderProofs.
Context {F : PyFloat}.

Lemma placed_levels_app (a b : list (call num)) :
  placed_levels (a ++ b) = placed_levels a ++ placed_levels b.
Proof. apply omap_app. Qed.

Lemma placed_levels_place (l : GridLevel num) (tr : list (call num)) :
  placed_levels (PlaceOrder l :: tr) = l :: placed_levels tr.
Proof. reflexivity. Qed.

Lemma placed_levels_save id (l : GridLevel num) (tr : list (call num)) :
  placed_levels (SaveOrder id l :: tr) = placed_levels tr.
Proof. reflexivity. Qed.

(** One placement loop: it calls [place_order] once for each level, in
    order; it only adds to the orders dictionary; it saves and tracks every
    order the gateway accepted, and tracks nothing else. *)
Lemma place_levels_spec (place : Z -> placement) (ls : list (GridLevel num)) o n :
  let '(o', tr, n') := place_levels place ls o n in
  placed_levels tr = ls /\
  (forall id, is_Some (o !! id) -> is_Some (o' !! id)) /\
  (forall id l, SaveOrder id l ∈ tr -> is_Some (o' !! id)) /\
  (forall id l, o' !! id = Some l -> o !! id = Some l \/ l ∈ ls) /\
  (forall l id sv, l ∈ ls -> place (level l) = PlaceAccepted id sv ->
     SaveOrder id l ∈ tr) /\
  CancelAllOrders ∉ tr.
Proof.
  revert o n. induction ls as [|l ls IH]; intros o n; simpl.
  - split; [done|]. split; [done|]. split; [by intros ?? ?%elem_of_nil|].
    split; [by left|]. split; [by intros ??? ?%elem_of_nil|by intros ?%elem_of_nil].
  - destruct (place (level l)) as [| |id sv] eqn:Ep.
    + specialize (IH o n). destruct (place_levels place ls o n) as [[o' tr] n'].
      destruct IH as (I1 & I2 & I3 & I4 & I5 & I6).
      split; [by rewrite ?placed_levels_place, ?placed_levels_save, I1|].
      split; [done|]. split.
      { intros id l' [?|?]%elem_of_cons; [done|]. by eapply I3. }
      split.
      { intros id l' Hl. destruct (I4 id l' Hl); [by left|right; by right]. }
      split.
      { intros l' id sv [->|?]%elem_of_cons Hp; [congruence|]. right. by eapply I5. }
      intros [?|?]%elem_of_cons; [done|]. by apply I6.
    + specialize (IH o n). destruct (place_levels place ls o n) as [[o' tr] n'].
      destruct IH as (I1 & I2 & I3 & I4 & I5 & I6).
      split; [by rewrite ?placed_levels_place, ?placed_levels_save, I1|].
      split; [done|]. split.
      { intros id l' [?|?]%elem_of_cons; [done|]. by eapply I3. }
      split.
      { intros id l' Hl. destruct (I4 id l' Hl); [by left|right; by right]. }
      split.
      { intros l' id sv [->|?]%elem_of_cons Hp; [congruence|]. right. by eapply I5. }
      intros [?|?]%elem_of_cons; [done|]. by apply I6.
    + match goal with |- context [place_levels place ls ?o1 ?n1] =>
        specialize (IH o1 n1); destruct (place_levels place ls o1 n1) as [[o' tr] n'] end.
      destruct IH as (I1 & I2 & I3 & I4 & I5 & I6).
      split; [by rewrite ?placed_levels_place, ?placed_levels_save, I1|].
      split.
      { intros id' Hid. apply I2. destruct (decide (id = id')) as [->|Hne].
        - rewrite lookup_insert_eq. by eexists.
        - by rewrite lookup_insert_ne. }
      split.
      { intros id' l' [?|[Heq|?]%elem_of_cons]%elem_of_cons; [done| |by eapply I3].
        injection Heq as -> ->. apply I2. rewrite lookup_insert_eq. by eexists. }
      split.
      { intros id' l' Hl. destruct (I4 id' l' Hl) as [Hin|?]; [|right; by right].
        destruct (decide (id = id')) as [->|Hne].
        - rewrite lookup_insert_eq in Hin. injection Hin as ->. right. left.
        - rewrite lookup_insert_ne in Hin by done. by left. }
      split.
      { intros l' id' sv' [->|?]%elem_of_cons Hp.
        - rewrite Ep in Hp. injection Hp as -> ->. right. left.
        - right. right. by eapply I5. }
      intros [?|[?|?]%elem_of_cons]%elem_of_cons; [done|done|]. by apply I6.
Qed.

Lemma is_empty_false {A : Type} (l : list A) : is_empty l = false -> l <> [].
Proof. by destruct l. Qed.

Lemma get_current_price_orders (g : GridLogic num) now mark :
  active_orders (get_current_price g now mark).1 = active_orders g /\
  config (get_current_price g now mark).1 = config g.
Proof. unfold get_current_price. repeat case_match; done. Qed.

Lemma setup_grid_outcome (g : GridLogic num) profile env :
  setup_outcome g env (setup_grid g profile env).1.1
    (setup_grid g profile env).1.2 (setup_grid g profile env).2.
Proof.
  unfold setup_grid.
  pose proof (get_current_price_orders g (env_now env) (env_mark_price env)) as [Ha _].
  destruct (get_current_price g (env_now env) (env_mark_price env)) as [g1 cp].
  simpl in Ha.
  destruct (cp <=? zero)%py; [by constructor|].
  destruct (env_balance env); [|by constructor].
  destruct (calculate_grid_levels _ _ _ _) as [[b s]|]; [|by constructor].
  destruct (is_empty b || is_empty s) eqn:Ee; [by constructor|].
  apply orb_false_iff in Ee as [Eb%is_empty_false Es%is_empty_false].
  destruct (env_cancel env) as [u|] eqn:Ec; [|by constructor].
  simpl active_orders.
  destruct (place_levels (env_place env) b (active_orders g1) 0) as [[o1 tb] n1] eqn:E1.
  destruct (place_levels (env_place env) s o1 0) as [[o2 ts] n2] eqn:E2.
  rewrite Ha in E1.
  assert (forall rest ok g', buy_levels g' = b -> sell_levels g' = s ->
            active_orders g' = o2 -> placed_levels rest = [] ->
            (forall id l, SaveOrder id l ∉ rest) -> CancelAllOrders ∉ rest ->
            setup_outcome g env g' (CancelAllOrders :: tb ++ ts ++ rest) ok)
    as Hout.
  { intros rest ok g' <- <- <- Hr1 Hr2 Hr3.
    eapply SetupPlaced; eauto. }
  destruct (get_grid_spacing _ _).
  2:{ simpl. rewrite <- (app_nil_r ts) at 1. apply Hout; try done.
      - by intros ?? ?%elem_of_nil.
      - by intros ?%elem_of_nil. }
  destruct (env_save_history env).
  2:{ simpl. rewrite <- app_assoc. apply Hout; try done.
      - by intros ?? ?%list_elem_of_singleton.
      - by intros ?%list_elem_of_singleton. }
  assert (forall ok, setup_outcome g env
            (set_active_orders (set_levels (set_center_price g1 cp) b s) o2)
            ((CancelAllOrders :: tb ++ ts)
               ++ [SaveGridHistory; LogEvent "grid_setup" "INFO"]) ok) as Hfin.
  { intros ok. simpl. rewrite <- app_assoc. apply Hout; try done.
    - intros ?? [?|[?|?%elem_of_nil]%elem_of_cons]%elem_of_cons; done.
    - intros [?|[?|?%elem_of_nil]%elem_of_cons]%elem_of_cons; done. }
  destruct (env_log_event env); apply Hfin.
Qed.

(** X9. With a profile whose [target_levels] is zero or negative,
    [setup_grid] acts on nothing.  It reads the mark price and the balance
    (reads are inputs here, not entries of the trace); after that it cancels
    no order, places none, saves and logs nothing, so that the trace of its
    acting calls is empty, and it returns [False], whatever the capital and
    the arithmetic. *)
Theorem nonpositive_target_places_nothing (g : GridLogic num) (profile : string)
  (env : SetupEnv num) :
  target_levels (profile_config (config g) profile) <= 0 ->
  (setup_grid g profile env).1.2 = [] /\ (setup_grid g profile env).2 = false.
Proof.
  intros Ht. unfold setup_grid.
  pose proof (get_current_price_orders g (env_now env) (env_mark_price env)) as [_ Hc].
  destruct (get_current_price g (env_now env) (env_mark_price env)) as [g1 cp].
  simpl in Hc.
  destruct (cp <=? zero)%py; [done|].
  destruct (env_balance env); [|done].
  destruct (calculate_grid_levels _ _ _ _) as [[b s]|] eqn:Ecalc; [|done].
  apply calculate_shape in Ecalc
    as (sp & q & mp & _ & _ & _ & [(_ & -> & ->)|(Hmp & n & bd & Hn & _ & Hb & _)]);
    [done|].
  simpl config in Hn. rewrite Hc in Hn.
  assert (n <= 0) as Hn0.
  { rewrite Hn. destruct (_ <? _) eqn:E; [apply Z.ltb_lt in E; lia|done]. }
  rewrite (seqZ_nonpos 1 n Hn0) in Hb. injection Hb as <-. done.
Qed.

(** X11. [setup_grid] only adds to [active_orders]: an entry tracked before
    the call is still tracked after it (the method itself never clears the
    dictionary).  Every order the gateway accepted is tracked and passed to
    [save_order], also when [save_order] raises; and every tracked level was
    tracked before or is a level of the new grid. *)
Theorem setup_tracks_accepted_orders (g : GridLogic num) (profile : string)
  (env : SetupEnv num) :
  let out := setup_grid g profile env in
  let g' := out.1.1 in
  let tr := out.1.2 in
  (forall id, is_Some (active_orders g !! id) -> is_Some (active_orders g' !! id)) /\
  (forall l id saved, PlaceOrder l ∈ tr ->
     env_place env (level l) = PlaceAccepted id saved ->
     SaveOrder id l ∈ tr /\ is_Some (active_orders g' !! id)) /\
  (forall id l, active_orders g' !! id = Some l ->
     active_orders g !! id = Some l \/ l ∈ buy_levels g' ++ sell_levels g').
Proof.
  intros out g' tr. subst out g' tr.
  destruct (setup_grid_outcome g profile env)
    as [g' Ha|g' Ha Hb Hs Hc|g' o1 tb n1 ts n2 rest ok Hb Hs [u Hc] E1 E2 R1 R2 R3].
  - rewrite Ha. split; [done|].
    split; [by intros ??? ?%elem_of_nil|]. intros id l Hl'. by left.
  - rewrite Ha. split; [done|].
    split; [by intros ??? ?%list_elem_of_singleton|]. intros id l Hl'. by left.
  - pose proof (place_levels_spec (env_place env) (buy_levels g') (active_orders g) 0) as P1.
    pose proof (place_levels_spec (env_place env) (sell_levels g') o1 0) as P2.
    rewrite E1 in P1. rewrite E2 in P2.
    destruct P1 as (B1 & B2 & B3 & B4 & B5 & B6).
    destruct P2 as (S1 & S2 & S3 & S4 & S5 & S6).
    split; [intros id Hid; by apply S2, B2|]. split.
    + intros l id saved Hin Hp.
      assert (l ∈ buy_levels g' ++ sell_levels g') as Hl.
      { rewrite <- B1, <- S1, <- (app_nil_r (placed_levels ts)), <- R1.
        rewrite <- !placed_levels_app. unfold placed_levels.
        apply list_elem_of_omap. exists (PlaceOrder l). split; [|done].
        by apply elem_of_cons in Hin as [?|?]. }
      apply elem_of_app in Hl as [Hl|Hl].
      * pose proof (B5 l id saved Hl Hp) as Hs'. split.
        -- right. rewrite !elem_of_app. by left.
        -- apply S2. by eapply B3.
      * pose proof (S5 l id saved Hl Hp) as Hs'. split.
        -- right. rewrite !elem_of_app. right. by left.
        -- by eapply S3.
    + intros id l Hl. destruct (S4 id l Hl) as [Ho|?].
      * destruct (B4 id l Ho) as [?|?]; [by left|].
        right. apply elem_of_app. by left.
      * right. apply elem_of_app. by right.
Qed.

(** X12. When one of the two calls of [recenter_grid] itself raises, the
    engine is unchanged (in particular no order is forgotten) and the result
    is [False].  When both return, every order the engine tracks afterwards
    is a level of the grid it then holds, whether the recentering succeeded
    or not. *)
Theorem recenter_tracks_only_current_levels (g : GridLogic num) (reason : Reason num)
  (profile : string) (logged cancelled : response unit) (env : SetupEnv num)
  (now : Z) :
  let out := recenter_grid g reason profile logged cancelled env now in
  (logged = Raised \/ cancelled = Raised -> out.1.1 = g /\ out.2 = false) /\
  ((exists u v, logged = Returned u /\ cancelled = Returned v) ->
   forall id l, active_orders out.1.1 !! id = Some l ->
     l ∈ buy_levels out.1.1 ++ sell_levels out.1.1).
Proof.
  intros out. subst out. split.
  - intros [-> | ->]; unfold recenter_grid; [done|]. by destruct logged.
  - intros (u & v & -> & ->) id l. unfold recenter_grid.
    pose proof (setup_grid_outcome (set_active_orders g ∅) profile env) as Hs.
    destruct (setup_grid (set_active_orders g ∅) profile env) as [[g1 tr] ok].
    simpl in Hs. intros Hl.
    assert (active_orders g1 !! id = Some l) as Hl' by (by destruct ok).
    assert (l ∈ buy_levels g1 ++ sell_levels g1) as Hin; [|by destruct ok].
    clear Hl.
    inversion Hs as [g' Ha|g' Ha _ _ _|g' o1 tb n1 ts n2 rest ok' _ _ _ E1 E2 _ _ _];
      subst.
    + rewrite Ha in Hl'. simpl in Hl'. by rewrite lookup_empty in Hl'.
    + rewrite Ha in Hl'. simpl in Hl'. by rewrite lookup_empty in Hl'.
    + pose proof (place_levels_spec (env_place env) (buy_levels g1) ∅ 0) as P1.
      pose proof (place_levels_spec (env_place env) (sell_levels g1) o1 0) as P2.
      simpl in E1. rewrite E1 in P1. rewrite E2 in P2.
      destruct P1 as (_ & _ & _ & B4 & _). destruct P2 as (_ & _ & _ & S4 & _).
      apply elem_of_app. destruct (S4 id l Hl') as [Ho|?]; [|by right].
      destruct (B4 id l Ho) as [Hempty|?]; [by rewrite lookup_empty in Hempty|by left].
Qed.

End OrderProofs.

Section SetupCalls.
Context {F : PyFloat} {Z0 : PyFloatZero F}.

Lemma setup_grid_acts_after_reads (g : GridLogic num) (profile : string)
  (env : SetupEnv num) :
  (setup_grid g profile env).1.2 <> [] ->
  exists p balance,
    env_mark_price env = Returned p /\ (p >? zero)%py = true /\
    env_balance env = Returned balance.
Proof.
  destruct (env_mark_price env) as [p|] eqn:Em; cycle 1.
  { unfold setup_grid. rewrite Em. cbn [get_current_price]. by rewrite zero_le_zero. }
  destruct (p >? zero)%py eqn:Ep; cycle 1.
  { unfold setup_grid. rewrite Em. cbn [get_current_price]. rewrite Ep.
    by rewrite zero_le_zero. }
  destruct (env_balance env) as [balance|] eqn:Eb; [by eauto|].
  unfold setup_grid. rewrite Em, Eb. cbn [get_current_price]. rewrite Ep.
  by destruct (p <=? zero)%py.
Qed.

(** X10. The calls by which [setup_grid] acts, in their order, and where
    they stand to its two reads.  Nothing is cancelled, placed, saved or
    logged unless [get_mark_price] returned a positive price,
    [get_coin_balance] returned, and both level lists were computed
    non-empty.  The first acting call is then the cancel-all call, and there
    is no second one.  When that call returns, [place_order] is called
    exactly once for each level, the buy levels first, each list in order;
    when it raises, no order is placed.  In particular a setup that reports
    success has placed each level of the grid once. *)
Theorem setup_cancels_then_places_each_level (g : GridLogic num) (profile : string)
  (env : SetupEnv num) :
  let out := setup_grid g profile env in
  let g' := out.1.1 in
  let tr := out.1.2 in
  (tr = [] \/
   exists tr', tr = CancelAllOrders :: tr' /\ (CancelAllOrders ∉ tr') /\
     (exists p balance,
        env_mark_price env = Returned p /\ (p >? zero)%py = true /\
        env_balance env = Returned balance) /\
     buy_levels g' <> [] /\ sell_levels g' <> [] /\
     placed_levels tr' = (match env_cancel env with
                          | Returned _ => buy_levels g' ++ sell_levels g'
                          | Raised => []
                          end)) /\
  (out.2 = true -> placed_levels tr = buy_levels g' ++ sell_levels g').
Proof.
  intros out g' tr. subst out g' tr.
  pose proof (setup_grid_acts_after_reads g profile env) as Hreads.
  destruct (setup_grid_outcome g profile env)
    as [g' Ha|g' Ha Hb Hs Hc|g' o1 tb n1 ts n2 rest ok Hb Hs [u Hc] E1 E2 R1 R2 R3].
  - split; [by left|done].
  - split; [|done]. right. exists []. rewrite Hc.
    split; [done|]. split; [by intros ?%elem_of_nil|].
    split; [by apply Hreads|]. done.
  - pose proof (place_levels_spec (env_place env) (buy_levels g') (active_orders g) 0) as P1.
    pose proof (place_levels_spec (env_place env) (sell_levels g') o1 0) as P2.
    rewrite E1 in P1. rewrite E2 in P2.
    destruct P1 as (B1 & _ & _ & _ & _ & B6). destruct P2 as (S1 & _ & _ & _ & _ & S6).
    assert (placed_levels (tb ++ ts ++ rest) = buy_levels g' ++ sell_levels g') as Hp.
    { by rewrite !placed_levels_app, B1, S1, R1, app_nil_r. }
    split.
    + right. exists (tb ++ ts ++ rest). rewrite Hc.
      split; [done|]. split; [rewrite !elem_of_app; tauto|].
      split; [by apply Hreads|]. done.
    + intros _. exact Hp.
Qed.

End SetupCalls.

Section RecenterWithoutPrice.
Context {F : PyFloat} {Z0 : PyFloatZero F}.

(** X13. When the mark price cannot be fetched during a recentering (the
    fetch raises or gives a price that is not positive), [recenter_grid] has
    already cancelled all orders and cleared [active_orders]: it returns
    [False] and leaves an engine that tracks no order, with the levels, the
    centre and the recenter time of the old grid, and it has made no further
    call. *)
Theorem recenter_without_price_leaves_no_orders (g : GridLogic num)
  (reason : Reason num) (profile : string) (u v : unit) (env : SetupEnv num)
  (now : Z) :
  (forall p, env_mark_price env = Returned p -> (p >? zero)%py = false) ->
  recenter_grid g reason profile (Returned u) (Returned v) env now
  = (set_active_orders g ∅, [LogEvent "recenter" "INFO"; CancelAllOrders], false).
Proof.
  intros Hp. unfold recenter_grid, setup_grid.
  rewrite (@get_current_price_failed F) by done. by rewrite zero_le_zero.
Qed.

End RecenterWithoutPrice.

(** ** The kill-switch and the cancel-all call *)

Section CancelProofs.
Context {F : PyFloat}.

Lemma cancel_calls_app a b : cancel_calls (a ++ b) = (cancel_calls a + cancel_calls b)%nat.
Proof. unfold cancel_calls. by rewrite filter_app, length_app. Qed.

Lemma cancel_calls_elem tr : RiskCancelAllOrders ∈ tr <-> cancel_calls tr <> 0%nat.
Proof.
  unfold cancel_calls. rewrite length_zero_iff_nil. split.
  - intros Hin Hnil.
    assert (RiskCancelAllOrders ∈ filter (fun c => c = RiskCancelAllOrders) tr) as Hf
      by (by apply list_elem_of_filter).
    rewrite Hnil in Hf. by apply elem_of_nil in Hf.
  - intros Hne. destruct (filter _ tr) as [|x xs] eqn:Ef; [done|].
    assert (x ∈ filter (fun c => c = RiskCancelAllOrders) tr) as Hx
      by (rewrite Ef; left).
    by apply list_elem_of_filter in Hx as [-> ?].
Qed.

Lemma trigger_cancels (r : RiskManager num) reason c l :
  cancel_calls (trigger_kill_switch r reason c l).2
  = (if fresh_activation r (trigger_kill_switch r reason c l).1 then 1 else 0)%nat /\
  (kill_switch_active r = true ->
   kill_switch_reason (trigger_kill_switch r reason c l).1 = kill_switch_reason r).
Proof.
  unfold trigger_kill_switch, fresh_activation.
  destruct (kill_switch_active r) eqn:E; simpl; [done|].
  destruct c as [u|]; simpl; [|done]. by case_match.
Qed.

Lemma check_drawdown_cancels (r r' : RiskManager num) c l tr :
  _check_drawdown r c l = Ok (r', tr) ->
  cancel_calls tr = (if fresh_activation r r' then 1 else 0)%nat /\
  (kill_switch_active r = true -> r' = r).
Proof.
  unfold _check_drawdown.
  assert (cancel_calls [] = (if fresh_activation r r then 1 else 0)%nat) as Hsame.
  { unfold fresh_activation. by destruct (kill_switch_active r). }
  destruct (daily_max_equity r <=? zero)%py; [by intros [= <- <-]|].
  destruct (pydiv _ _) as [d|]; simpl; [|done].
  destruct (fle _ d); [|by intros [= <- <-]].
  intros [= Hc].
  pose proof (trigger_cancels r (DrawdownExceeds d (kill_switch_drawdown_pct r)
    (daily_max_equity r) (total_equity_usdt r)) c l) as (T1 & T2).
  rewrite Hc in T1, T2. simpl in *. split; [done|].
  intros Ha. unfold trigger_kill_switch in Hc. rewrite Ha in Hc. by injection Hc.
Qed.

Lemma update_cancels (r : RiskManager num) now w c l :
  cancel_calls (update_equity_tracking r now w c l).2
  = (if fresh_activation r (update_equity_tracking r now w c l).1 then 1 else 0)%nat /\
  (kill_switch_active r = true ->
   kill_switch_reason (update_equity_tracking r now w c l).1 = kill_switch_reason r).
Proof.
  assert (cancel_calls [] = (if fresh_activation r r then 1 else 0)%nat) as Hsame.
  { unfold fresh_activation. by destruct (kill_switch_active r). }
  unfold update_equity_tracking.
  destruct w as [[e|]|]; [|done..].
  match goal with |- context [_check_drawdown ?x c l] => set (r1 := x) end.
  assert (kill_switch_active r1 = kill_switch_active r /\
          kill_switch_reason r1 = kill_switch_reason r) as [Ha1 Hr1].
  { subst r1. repeat case_match; done. }
  destruct (_check_drawdown r1 c l) as [[r' tr]|] eqn:E.
  - apply check_drawdown_cancels in E as (E1 & E2). simpl.
    unfold fresh_activation in *. rewrite <- Ha1. split; [done|].
    intros Ha. by rewrite (E2 Ha).
  - simpl. unfold fresh_activation in *. by rewrite Ha1.
Qed.

Lemma exposure_cancels (r : RiskManager num) ps w l :
  cancel_calls (check_max_exposure r ps w l).1.2 = 0%nat /\
  kill_switch_active (check_max_exposure r ps w l).1.1 = kill_switch_active r /\
  kill_switch_reason (check_max_exposure r ps w l).1.1 = kill_switch_reason r.
Proof. unfold check_max_exposure. repeat case_match; done. Qed.

Lemma validate_keeps_reason (r : RiskManager num) q p w :
  kill_switch_active (validate_order_size r q p w).1 = kill_switch_active r /\
  kill_switch_reason (validate_order_size r q p w).1 = kill_switch_reason r.
Proof. unfold validate_order_size. repeat case_match; simplify_eq; done. Qed.

Lemma risk_step_cancels (r : RiskManager num) (op : risk_op num) :
  cancel_calls (risk_step r op).2
  = (if fresh_activation r (risk_step r op).1 then 1 else 0)%nat /\
  (kill_switch_active r = true -> is_deactivation op = false ->
   kill_switch_reason (risk_step r op).1 = kill_switch_reason r).
Proof.
  assert (forall r' : RiskManager num, kill_switch_active r' = kill_switch_active r ->
            cancel_calls [] = (if fresh_activation r r' then 1 else 0)%nat) as Hsame.
  { intros r' Hr. unfold fresh_activation. rewrite Hr. by destruct (kill_switch_active r). }
  destruct op; simpl.
  - destruct (update_cancels r now wallet cancelled logged) as (? & ?). auto.
  - destruct (_check_drawdown r cancelled logged) as [[r' tr]|] eqn:E; simpl.
    + apply check_drawdown_cancels in E as (? & E2). split; [done|].
      intros Ha _. by rewrite (E2 Ha).
    + split; [by apply Hsame|done].
  - destruct (trigger_cancels r reason cancelled logged) as (? & ?). auto.
  - split; [|done]. unfold deactivate_kill_switch, fresh_activation.
    destruct (kill_switch_active r) eqn:E; simpl; [done|by rewrite E].
  - pose proof (exposure_cancels r positions wallet logged) as (E1 & E2 & E3).
    destruct (check_max_exposure r positions wallet logged) as [[r' tr] b]. simpl in *.
    rewrite E1. split; [|done]. unfold fresh_activation. rewrite E2.
    by destruct (kill_switch_active r).
  - match goal with |- context [validate_order_size r ?q ?p ?w] =>
      destruct (validate_keeps_reason r q p w) as [V1 V2] end.
    split; [by apply Hsame|done].
  - split; [by apply Hsame|done].
  - unfold get_risk_metrics.
    destruct (update_cancels r now wallet cancelled logged) as (U1 & U2).
    destruct (update_equity_tracking r now wallet cancelled logged) as [r1 tr1].
    pose proof (exposure_cancels r1 positions wallet' logged') as (E1 & E2 & E3).
    destruct (check_max_exposure r1 positions wallet' logged') as [[r2 tr2] b].
    simpl in *. rewrite cancel_calls_app, E1, U1, Nat.add_0_r.
    unfold fresh_activation in *. rewrite E2. split; [done|].
    intros Ha _. rewrite E3. by apply U2.
  - split; [by apply Hsame|done].
  - split; [by apply Hsame|done].
Qed.

(** X14. Whatever operation is called on the risk controller, with whatever
    answers: it asks the gateway to cancel all orders exactly when it takes
    the kill-switch from inactive to active, and then it asks once. *)
Theorem cancel_all_marks_activation (r : RiskManager num) (op : risk_op num) :
  (RiskCancelAllOrders ∈ (risk_step r op).2 <->
   kill_switch_active r = false /\ kill_switch_active (risk_step r op).1 = true) /\
  (cancel_calls (risk_step r op).2 <= 1)%nat.
Proof.
  destruct (risk_step_cancels r op) as [Hc _].
  rewrite cancel_calls_elem, Hc. unfold fresh_activation.
  destruct (kill_switch_active r), (kill_switch_active (risk_step r op).1); simpl;
    (split; [split; [done|by intros [? ?]]|lia]).
Qed.

(** X15. Over any sequence of operations without [deactivate_kill_switch],
    the controller asks for the cancellation of all orders at most once.
    When the kill-switch is active at the start it never asks, and the
    recorded reason stays what it was: later drawdowns and later calls of
    [trigger_kill_switch] do not overwrite it. *)
Theorem one_cancel_per_activation (r : RiskManager num) (ops : list (risk_op num)) :
  forallb (fun op => negb (is_deactivation op)) ops = true ->
  (cancel_calls (risk_run r ops).2 <= 1)%nat /\
  (kill_switch_active r = true ->
   cancel_calls (risk_run r ops).2 = 0%nat /\
   kill_switch_reason (risk_run r ops).1 = kill_switch_reason r).
Proof.
  revert r. induction ops as [|op ops IH]; intros r Hops.
  { simpl. split; [unfold cancel_calls; simpl; lia|done]. }
  simpl in Hops. apply andb_true_iff in Hops as [Hop%negb_true_iff Hops]. simpl.
  destruct (risk_step_cancels r op) as [Hc Hr].
  pose proof (risk_step_latch r op) as Hl.
  destruct (risk_step r op) as [r1 tr1]. simpl in *.
  destruct (IH r1 Hops) as [I1 I2].
  destruct (risk_run r1 ops) as [r2 tr2]. simpl in *.
  rewrite cancel_calls_app, Hc. unfold fresh_activation.
  destruct (kill_switch_active r) eqn:Ea; simpl.
  - specialize (Hl eq_refl Hop). destruct (I2 Hl) as [-> ->].
    split; [lia|]. intros _. split; [done|]. by apply Hr.
  - split; [|done]. destruct (kill_switch_active r1) eqn:E1; [|lia].
    destruct (I2 eq_refl) as [-> _]. lia.
Qed.

(** X19. The exposure limit and the order-size limit neither read nor write
    the kill-switch: [check_max_exposure] and [validate_order_size] give the
    same answer, the same calls and the same tracking whatever the state and
    the reason of the kill-switch, and they leave both, and the day's
    maximum equity, as they were. *)
Theorem limits_ignore_the_kill_switch (r : RiskManager num) (active : bool)
  (reason : KillReason num) (positions : response (list (num * num)))
  (wallet : response (option num)) (logged : response unit) (qty price : num)
  (wallet' : response (option num)) :
  let r0 := set_kill_switch r active reason in
  let out := check_max_exposure r positions wallet logged in
  let out0 := check_max_exposure r0 positions wallet logged in
  let val := validate_order_size r qty price wallet' in
  let val0 := validate_order_size r0 qty price wallet' in
  out0 = (set_kill_switch out.1.1 active reason, out.1.2, out.2) /\
  val0 = (set_kill_switch val.1 active reason, val.2) /\
  kill_switch_active out.1.1 = kill_switch_active r /\
  kill_switch_reason out.1.1 = kill_switch_reason r /\
  daily_max_equity out.1.1 = daily_max_equity r /\
  kill_switch_active val.1 = kill_switch_active r /\
  kill_switch_reason val.1 = kill_switch_reason r /\
  daily_max_equity val.1 = daily_max_equity r.
Proof.
  cbv zeta. split; [|split].
  - unfold check_max_exposure. destruct positions as [ps|]; [|done].
    destruct wallet as [[e|]|]; simpl; [| |done].
    + destruct (fle e zero); [done|]. destruct (pydiv _ e); [|done].
      by destruct (flt _ _).
    + destruct (fle (total_equity_usdt r) zero); [done|].
      destruct (pydiv _ (total_equity_usdt r)); [|done]. by destruct (flt _ _).
  - unfold validate_order_size. simpl.
    destruct (fle (total_equity_usdt r) zero) eqn:E0.
    + destruct wallet' as [[e|]|]; simpl; [| |done].
      * destruct (fle e zero); [done|]. by destruct (pydiv _ e).
      * by rewrite E0.
    + simpl. rewrite E0. by destruct (pydiv _ (total_equity_usdt r)).
  - unfold check_max_exposure, validate_order_size.
    repeat case_match; simplify_eq; done.
Qed.

End CancelProofs.

(** ** The drawdown after an equity update, in exact arithmetic *)

(** X16. In exact arithmetic, after [update_equity_tracking] has read the
    equity [e] from the wallet, the current equity is [e] and the day's
    maximum is not below it; so the drawdown that is compared with the
    threshold lies between 0 and 1 when the equity is not negative. *)
Theorem equity_update_bounds_drawdown (r : RiskManager Q) (now : Z) (e : Q)
  (c l : response unit) :
  let r' := (@update_equity_tracking exact r now (Returned (Some e)) c l).1 in
  total_equity_usdt r' = e /\ (total_equity_usdt r' <= daily_max_equity r')%Q /\
  ((0 < daily_max_equity r')%Q -> (0 <= e)%Q ->
   (0 <= (daily_max_equity r' - total_equity_usdt r') / daily_max_equity r' <= 1)%Q).
Proof.
  intros r'. subst r'.
  destruct (@update_tracking exact r now e c l) as (Hd & _ & Ht).
  cbn [num exact] in Hd, Ht |- *. rewrite Ht. split; [done|].
  assert (e <= daily_max_equity
                 (@update_equity_tracking exact r now (Returned (Some e)) c l).1)%Q as Hle.
  { cbn [num exact]. rewrite Hd. destruct (bool_decide _); [lra|].
    destruct (@flt exact (daily_max_equity r) e) eqn:E; [lra|].
    by apply exact_gt_false in E. }
  split; [done|]. intros Hpos He.
  set (m := daily_max_equity _) in *. split.
  - apply Qle_shift_div_l; [done|]. lra.
  - apply Qle_shift_div_r; [done|]. lra.
Qed.

(** ** Drawdown and exposure, in any arithmetic *)

Lemma exact_drawdown : PyFloatDrawdown exact.
Proof.
  split. intros x y p Hx Hxy Hp.
  apply exact_le_false in Hx. apply exact_gt in Hp. apply exact_le_false.
  change (@zero exact) with 0%Q in *. cbn [fdiv fsub exact num] in *.
  assert (x == y)%Q as He.
  { destruct Hxy as [->|[H1 H2]]; [reflexivity|].
    apply exact_le in H1. apply exact_gt_false in H2. lra. }
  assert ((x - y) / x == 0)%Q as ->; [|done].
  rewrite He. field. lra.
Qed.

Lemma SFsub_self s m e :
  SFsub prec emax (S754_finite s m e) (S754_finite s m e) = S754_zero false.
Proof.
  cbn [SFsub]. rewrite Z.min_id. unfold shl_align. rewrite Z.sub_diag. cbn [fst].
  reflexivity.
Qed.

Lemma binary64_drawdown : PyFloatDrawdown binary64.
Proof.
  split. intros x y p. unfold zero. cbn [flt fle fdiv fsub of_int binary64 num].
  rewrite !leb_spec, !ltb_spec, div_spec, sub_spec, b64_zero_of_int.
  unfold SF64div, SF64sub.
  intros Hx Hxy Hp.
  assert (Prim2SF y = Prim2SF x \/
          (SFleb (Prim2SF x) (Prim2SF y) = true /\ SFltb (Prim2SF x) (Prim2SF y) = false))
    as Hxy'.
  { destruct Hxy as [->|Hc]; [by left|by right]. }
  clear Hxy. revert Hx Hxy' Hp.
  generalize (Prim2SF x) (Prim2SF y) (Prim2SF p). clear x y p.
  intros x y p Hx Hxy Hp.
  assert (forall s, SFleb p (S754_zero s) = false) as Hpz.
  { intros s. destruct p as [[|]|[|]| |[|] pm pe]; done. }
  assert (SFleb p S754_nan = false) as Hpn.
  { destruct p as [[|]|[|]| |[|] pm pe]; done. }
  destruct x as [sx|sx| |sx mx ex].
  - by destruct sx.
  - destruct sx; [done|].
    destruct Hxy as [->|[H1 H2]]; [exact Hpn|].
    destruct y as [sy|[|]| |sy my ey]; done.
  - destruct Hxy as [->|[H1 H2]]; [exact Hpn|]. done.
  - destruct sx; [done|].
    assert (y = S754_finite false mx ex) as ->.
    { destruct Hxy as [->|[H1 H2]]; [done|].
      destruct y as [sy|[|]| |[|] my ey]; try done.
      unfold SFleb, SFltb in *. simpl in *.
      destruct (ex ?= ey) eqn:Ec; try done.
      apply Z.compare_eq in Ec as ->.
      destruct (Pos.compare_cont Eq mx my) eqn:Em; try done.
      by apply Pos.compare_eq in Em as ->. }
    rewrite SFsub_self. simpl. apply Hpz.
Qed.

#[global] Existing Instance exact_drawdown.
#[global] Existing Instance binary64_drawdown.

Section DrawdownProofs.
Context {F : PyFloat} {L : PyFloatLaws F} {D : PyFloatDrawdown F}.

(** X17. Whatever the arithmetic, with a threshold that compares above
    zero: after [deactivate_kill_switch] on an active kill-switch, an equity
    update does not activate it again when the equity it reads has not
    fallen (it compares [>=] to the equity at the deactivation), or when the
    update is the first of a new day.  The day's maximum was reset to the
    equity at the deactivation, so the drawdown starts again from zero; no
    call is issued and the reason stays empty. *)
Theorem deactivation_holds_while_equity_holds (r : RiskManager num) (now : Z) (e : num)
  (c l : response unit) :
  kill_switch_active r = true ->
  (kill_switch_drawdown_pct r >? zero)%py = true ->
  (e >=? total_equity_usdt r)%py = true \/ date now <> date (last_equity_check r) ->
  let out := update_equity_tracking (deactivate_kill_switch r) now
               (Returned (Some e)) c l in
  kill_switch_active out.1 = false /\ out.2 = [] /\
  kill_switch_reason out.1 = NoKillReason.
Proof.
  intros Ha Hpct He out. subst out.
  unfold deactivate_kill_switch. rewrite Ha.
  unfold update_equity_tracking.
  match goal with |- context [_check_drawdown ?x c l] => set (r1 := x) end.
  assert (kill_switch_active r1 = false /\ kill_switch_reason r1 = NoKillReason /\
          total_equity_usdt r1 = e /\
          kill_switch_drawdown_pct r1 = kill_switch_drawdown_pct r /\
          (daily_max_equity r1 = e \/
           ((daily_max_equity r1 <=? e)%py = true /\
            (daily_max_equity r1 <? e)%py = false)))
    as (A1 & A2 & A3 & A4 & A5).
  { subst r1. simpl. destruct (bool_decide _) eqn:Ed; simpl.
    { do 4 (split; [reflexivity|]). left. reflexivity. }
    apply bool_decide_eq_false in Ed.
    destruct He as [He|He]; [|done].
    destruct (total_equity_usdt r <? e)%py eqn:E; simpl.
    - do 4 (split; [reflexivity|]). left. reflexivity.
    - do 4 (split; [reflexivity|]). right. done. }
  assert (_check_drawdown r1 c l = Ok (r1, [])) as ->; [|done].
  unfold _check_drawdown.
  destruct (daily_max_equity r1 <=? zero)%py eqn:Ez; [done|].
  unfold pydiv. rewrite (not_le_zero_nonzero _ Ez). cbn [mbind result_bind].
  rewrite A3, A4.
  rewrite (no_fall_no_drawdown (daily_max_equity r1) e (kill_switch_drawdown_pct r) Ez);
    [done| |done].
  destruct A5 as [A5|A5]; [by left|by right].
Qed.

(** X18. Whatever the arithmetic, when the positions could be listed:
    [check_max_exposure] records the summed value of the positions as the
    current exposure.  It answers [True] only if the equity does not
    compare [<= 0] and the quotient exposure / equity, as the program
    computes it, does not compare above [max_exposure_pct]; it then issues
    no call.  It issues a call only if that quotient compares above
    [max_exposure_pct]: the call is the one warning event, and the answer
    is [False]. *)
Theorem exposure_check_is_sound (r : RiskManager num) (ps : list (num * num))
  (w : response (option num)) (l : response unit) :
  let out := check_max_exposure r (Returned ps) w l in
  let equity := total_equity_usdt out.1.1 in
  let exposure := current_exposure_usdt out.1.1 in
  exposure = total_position_value ps /\
  (out.2 = true ->
   out.1.2 = [] /\ (equity <=? zero)%py = false /\
   (fdiv exposure equity >? max_exposure_pct r)%py = false) /\
  (out.1.2 <> [] ->
   out.2 = false /\ out.1.2 = [RiskLogEvent "max_exposure" "WARNING"] /\
   (equity <=? zero)%py = false /\
   (fdiv exposure equity >? max_exposure_pct r)%py = true).
Proof.
  intros out equity exposure. subst out equity exposure. unfold check_max_exposure.
  destruct w as [w|]; [|done].
  match goal with |- context [fle (total_equity_usdt ?x) _] => set (r1 := x) end.
  assert (current_exposure_usdt r1 = total_position_value ps /\
          max_exposure_pct r1 = max_exposure_pct r) as [Hc Hm].
  { subst r1. by destruct w. }
  destruct (total_equity_usdt r1 <=? zero)%py eqn:Ez; [done|].
  unfold pydiv. rewrite (not_le_zero_nonzero _ Ez). rewrite Hm.
  destruct (flt _ _) eqn:Ef; simpl; rewrite ?Hm; done.
Qed.

End DrawdownProofs.

(** ** The retry loop and the rate limiter of the gateway *)

Section RequestProofs.
Context {R : Type}.
Implicit Types answer : nat -> attempt R.

Lemma request_attempts_bounds answer n k m :
  (k + m = n)%nat ->
  let out := request_attempts answer n (seq k m) in
  (out.2 <= m)%nat /\ (length out.1.2 <= out.2)%nat /\
  sum_list_Z out.1.2 <= 2 ^ Z.of_nat n - 2 ^ Z.of_nat k /\
  Forall (fun w => 1 <= w) out.1.2.
Proof.
  revert k. induction m as [|m IH]; intros k Hk; simpl.
  { subst n. rewrite Nat.add_0_r. unfold sum_list_Z. simpl.
    split; [done|]. split; [done|]. split; [lia|constructor]. }
  assert (2 ^ Z.of_nat k + 2 ^ Z.of_nat k = 2 ^ Z.of_nat (S k)) as Hpow.
  { rewrite Nat2Z.inj_succ, Z.pow_succ_r by lia. lia. }
  assert (0 < 2 ^ Z.of_nat k) as Hpos by (apply Z.pow_pos_nonneg; lia).
  assert (2 ^ Z.of_nat (S k) <= 2 ^ Z.of_nat n) as Hmono.
  { apply Z.pow_le_mono_r; lia. }
  specialize (IH (S k) ltac:(lia)). simpl in IH.
  destruct (request_attempts answer n (seq (S k) m)) as [[r sl] sent]. simpl in IH.
  destruct IH as (I1 & I2 & I3 & I4).
  assert (forall w, 1 <= w <= 2 ^ Z.of_nat k ->
    (S sent <= S m)%nat /\ (length (w :: sl) <= S sent)%nat /\
    sum_list_Z (w :: sl) <= 2 ^ Z.of_nat n - 2 ^ Z.of_nat k /\
    Forall (fun w => 1 <= w) (w :: sl)) as Hretry.
  { intros w Hw. simpl. split; [lia|]. split; [lia|].
    split; [unfold sum_list_Z in *; simpl; lia|]. constructor; [lia|done]. }
  assert ((1 <= S m)%nat /\ (length (@nil Z) <= 1)%nat /\
    sum_list_Z [] <= 2 ^ Z.of_nat n - 2 ^ Z.of_nat k /\
    Forall (fun w => 1 <= w) []) as Hstop.
  { split; [lia|]. split; [simpl; lia|]. unfold sum_list_Z. simpl.
    split; [lia|constructor]. }
  destruct (answer k) as [code payload| |].
  - destruct (bool_decide (code = Some 0)); [exact Hstop|].
    destruct (non_critical code); [exact Hstop|].
    destruct (bool_decide (code = Some 10006)); [apply Hretry; lia|].
    destruct (k <? n - 1)%nat; [apply Hretry; lia|exact Hstop].
  - destruct (k <? n - 1)%nat; [apply Hretry; lia|exact Hstop].
  - destruct (k <? n - 1)%nat; [apply Hretry; lia|exact Hstop].
Qed.

Lemma request_attempts_end answer n k m :
  (k + m = n)%nat ->
  let out := request_attempts answer n (seq k m) in
  (out.1.1 = Raised <->
   (1 <= m)%nat /\ raises (answer (n - 1)%nat) = true /\
   forall i, (k <= i < n - 1)%nat -> settles (answer i) = false) /\
  (out.1.1 = Returned MaxRetries <->
   m = 0%nat \/
   rate_limited (answer (n - 1)%nat) = true /\
   forall i, (k <= i < n - 1)%nat -> settles (answer i) = false).
Proof.
  revert k. induction m as [|m IH]; intros k Hk; simpl.
  { split; [split; [done|intros [? _]; lia]|]. split; [by left|done]. }
  specialize (IH (S k) ltac:(lia)). simpl in IH.
  destruct (request_attempts answer n (seq (S k) m)) as [[r sl] sent]. simpl in IH.
  destruct IH as [IR IM].
  assert ((k < n - 1)%nat -> settles (answer k) = false ->
    (r = Raised <->
     (1 <= S m)%nat /\ raises (answer (n - 1)%nat) = true /\
     forall i, (k <= i < n - 1)%nat -> settles (answer i) = false) /\
    (r = Returned MaxRetries <->
     S m = 0%nat \/
     rate_limited (answer (n - 1)%nat) = true /\
     forall i, (k <= i < n - 1)%nat -> settles (answer i) = false)) as Hretry.
  { intros Hlt Hns. split.
    - rewrite IR. split.
      + intros (? & ? & Hi). split; [lia|]. split; [done|]. intros i Hik.
        destruct (decide (i = k)) as [->|?]; [done|]. apply Hi. lia.
      + intros (? & ? & Hi). split; [lia|]. split; [done|]. intros i Hik. apply Hi. lia.
    - rewrite IM. split.
      + intros [->|[? Hi]]; [lia|]. right. split; [done|]. intros i Hik.
        destruct (decide (i = k)) as [->|?]; [done|]. apply Hi. lia.
      + intros [?|[? Hi]]; [lia|]. right. split; [done|]. intros i Hik. apply Hi. lia. }
  assert (settles (answer k) = true -> forall r0 : response (reply R),
    r0 <> Raised -> r0 <> Returned MaxRetries ->
    (r0 = Raised <->
     (1 <= S m)%nat /\ raises (answer (n - 1)%nat) = true /\
     forall i, (k <= i < n - 1)%nat -> settles (answer i) = false) /\
    (r0 = Returned MaxRetries <->
     S m = 0%nat \/
     rate_limited (answer (n - 1)%nat) = true /\
     forall i, (k <= i < n - 1)%nat -> settles (answer i) = false)) as Hsettle.
  { intros Hs r0 H1 H2.
    destruct (decide (k < n - 1)%nat) as [Hl|Hl].
    - split; (split; [done|]).
      + intros (_ & _ & Hi). rewrite Hi in Hs by lia. done.
      + intros [?|[_ Hi]]; [lia|]. rewrite Hi in Hs by lia. done.
    - assert (k = (n - 1)%nat) as Hkn by lia.
      split; (split; [done|]).
      + intros (_ & Hr & _). rewrite <- Hkn in Hr.
        destruct (answer k); simpl in *; done.
      + intros [?|[Hr _]]; [lia|]. rewrite <- Hkn in Hr.
        destruct (answer k) as [code ?| |]; simpl in *; try done.
        destruct (bool_decide (code = Some 10006)) eqn:E; [|done].
        apply bool_decide_eq_true in E. subst code. done. }
  destruct (answer k) as [code payload| |] eqn:Ea.
  - destruct (bool_decide (code = Some 0)) eqn:E0.
    { apply Hsettle; [by simpl; rewrite E0|done|done]. }
    destruct (non_critical code) eqn:En.
    { apply Hsettle; [by simpl; rewrite E0, En|done|done]. }
    destruct (bool_decide (code = Some 10006)) eqn:E6.
    + destruct (decide (k < n - 1)%nat) as [Hlt|Hge].
      * apply Hretry; [done|]. simpl. by rewrite E0, En.
      * assert (m = 0%nat) as -> by lia. assert (k = (n - 1)%nat) as Hkn by lia.
        simpl in *. rewrite <- Hkn, Ea. simpl. rewrite E6, En. simpl.
        clear Hretry Hsettle.
        assert (r = Returned MaxRetries) as -> by (apply IM; by left).
        split; split; try done.
        -- intros (_ & ? & _). done.
        -- intros _. right. split; [done|]. intros i Hi. lia.
    + destruct (k <? n - 1)%nat eqn:El.
      * apply Nat.ltb_lt in El. apply Hretry; [done|]. simpl. by rewrite E0, En.
      * apply Nat.ltb_ge in El. assert (k = (n - 1)%nat) as Hkn by lia.
        rewrite <- Hkn, Ea. simpl. rewrite E6. simpl.
        split; (split; [done|]).
        -- intros (_ & ? & _). done.
        -- intros [?|[? _]]; [lia|done].
  - destruct (k <? n - 1)%nat eqn:El.
    + apply Nat.ltb_lt in El. by apply Hretry.
    + apply Nat.ltb_ge in El. assert (k = (n - 1)%nat) as Hkn by lia.
      rewrite <- Hkn, Ea. simpl. split.
      * split; [|done]. intros _. split; [lia|]. split; [done|]. intros i Hi. lia.
      * split; [done|]. intros [?|[? _]]; [lia|done].
  - destruct (k <? n - 1)%nat eqn:El.
    + apply Nat.ltb_lt in El. by apply Hretry.
    + apply Nat.ltb_ge in El. assert (k = (n - 1)%nat) as Hkn by lia.
      rewrite <- Hkn, Ea. simpl. split.
      * split; [|done]. intros _. split; [lia|]. split; [done|]. intros i Hi. lia.
      * split; [done|]. intros [?|[? _]]; [lia|done].
Qed.

Lemma request_attempts_first answer n j m k :
  (j + m = n)%nat -> (j <= k < n)%nat ->
  settles (answer k) = true ->
  (forall i, (j <= i < k)%nat -> settles (answer i) = false) ->
  let out := request_attempts answer n (seq j m) in
  out.1.1 = Returned (settled (answer k)) /\ out.2 = (k - j + 1)%nat /\
  length out.1.2 = (k - j)%nat.
Proof.
  revert j. induction m as [|m IH]; intros j Hj Hk Hs Hi; [lia|]. simpl.
  destruct (decide (j = k)) as [->|Hne].
  - replace (k - k)%nat with 0%nat by lia. clear IH Hi.
    destruct (answer k) as [code payload| |]; simpl in *; [|done..].
    destruct (bool_decide (code = Some 0)); [done|]. simpl in Hs. by rewrite Hs.
  - specialize (IH (S j) ltac:(lia) ltac:(lia) Hs).
    destruct IH as (I1 & I2 & I3); [intros i ?; apply Hi; lia|].
    destruct (request_attempts answer n (seq (S j) m)) as [[r sl] sent].
    simpl in I1, I2, I3.
    assert (forall w, (r, w :: sl, S sent).1.1 = Returned (settled (answer k)) /\
              (r, w :: sl, S sent).2 = (k - j + 1)%nat /\
              length (r, w :: sl, S sent).1.2 = (k - j)%nat) as Hretry.
    { intros w. simpl. split; [done|]. split; lia. }
    assert ((j <? n - 1)%nat = true) as -> by (apply Nat.ltb_lt; lia).
    pose proof (Hi j ltac:(lia)) as Hjs.
    destruct (answer j) as [code payload| |]; simpl in Hjs; [|apply Hretry..].
    apply orb_false_iff in Hjs as [-> ->].
    destruct (bool_decide (code = Some 10006)); apply Hretry.
Qed.

(** X21. The retry loop of [_request] makes at most [retry_count] attempts
    (an attempt is one pass through the body of the loop, which sends one
    HTTP request, or none for an unsupported method) and sleeps at most once
    per attempt made; every sleep of the loop lasts at least one second, and
    all of them together last at most [2 ^ retry_count - 1] seconds (7 with
    the default of three attempts).  The wait of [_rate_limit], which the
    method awaits once before the loop, is not among these sleeps and comes
    on top. *)
Theorem request_effort_is_bounded answer (retry_count : nat) :
  let out := _request answer retry_count in
  (out.2 <= retry_count)%nat /\ (length out.1.2 <= out.2)%nat /\
  Forall (fun wait => 1 <= wait) out.1.2 /\
  sum_list_Z out.1.2 <= 2 ^ Z.of_nat retry_count - 1.
Proof.
  pose proof (request_attempts_bounds answer retry_count 0 retry_count eq_refl)
    as (H1 & H2 & H3 & H4).
  cbv zeta. unfold _request. simpl in H3. done.
Qed.

(** X22. How [_request] ends when no attempt settles the call.  It raises
    exactly when the last attempt timed out or raised and no earlier attempt
    was answered with success or with one of the three return codes handed
    back at once: an exhausted retry loop re-raises the last exception
    rather than returning an error dictionary.  It returns the
    ['max_retries'] dictionary exactly when [retry_count] is zero or the
    last attempt, under the same condition, was answered with the
    rate-limit code. *)
Theorem request_raises_after_last_attempt answer (retry_count : nat) :
  let out := _request answer retry_count in
  (out.1.1 = Raised <->
   (1 <= retry_count)%nat /\ raises (answer (retry_count - 1)%nat) = true /\
   forall i, (i < retry_count - 1)%nat -> settles (answer i) = false) /\
  (out.1.1 = Returned MaxRetries <->
   retry_count = 0%nat \/
   rate_limited (answer (retry_count - 1)%nat) = true /\
   forall i, (i < retry_count - 1)%nat -> settles (answer i) = false).
Proof.
  pose proof (request_attempts_end answer retry_count 0 retry_count eq_refl) as [H1 H2].
  cbv zeta in *. unfold _request. split.
  - rewrite H1. split; intros (? & ? & Hi); (split; [done|]); (split; [done|]);
      intros i ?; apply Hi; lia.
  - rewrite H2. split; (intros [?|[? Hi]]; [by left|right]); (split; [done|]);
      intros i ?; apply Hi; lia.
Qed.

(** X23. The first attempt that is answered with success, or with one of
    the three return codes handed back at once, decides the call: [_request]
    returns its result (or the error dictionary with its code) after exactly
    that many requests, having slept once after each earlier attempt. *)
Theorem request_returns_first_settled answer (retry_count k : nat) :
  (k < retry_count)%nat -> settles (answer k) = true ->
  (forall i, (i < k)%nat -> settles (answer i) = false) ->
  let out := _request answer retry_count in
  out.1.1 = Returned (settled (answer k)) /\ out.2 = S k /\ length out.1.2 = k.
Proof.
  intros Hk Hs Hi.
  destruct (request_attempts_first answer retry_count 0 retry_count k eq_refl
              ltac:(lia) Hs) as (H1 & H2 & H3).
  { intros i ?. apply Hi. lia. }
  cbv zeta. unfold _request. split; [done|]. split; lia.
Qed.

End RequestProofs.

(** X24. In exact arithmetic, after [_rate_limit] the list [request_times]
    holds at most ten entries, each less than one second before the clock
    reading, the newest being that reading.  Whenever the method sleeps, it
    sleeps for a positive time and forgets all earlier requests. *)
Theorem rate_limit_window (request_times : list Q) (current_time : Q) :
  let out := @_rate_limit exact request_times current_time in
  (length out.1 <= rate_limit_per_second)%nat /\
  Forall (fun t => (current_time - t < 1)%Q) out.1 /\
  last out.1 = Some current_time /\
  (forall s, out.2 = Some s -> out.1 = [current_time] /\ (0 < s)%Q).
Proof.
  cbv zeta. unfold _rate_limit.
  assert (Forall (fun t => (current_time - t < 1)%Q) [current_time]) as Hc.
  { constructor; [lra|constructor]. }
  match goal with
  | |- context [@filter ?A ?B ?C ?P ?D request_times] =>
      assert (Forall (fun t => (current_time - t < 1)%Q)
                (@filter A B C P D request_times)) as Hw;
      [|revert Hw; generalize (@filter A B C P D request_times)]
  end.
  { apply Forall_forall. intros t [Ht _]%list_elem_of_filter.
    apply exact_gt in Ht. exact Ht. }
  intros times Hw.
  destruct (rate_limit_per_second <=? length times)%nat eqn:E.
  - destruct times as [|first rest]; [done|].
    apply Forall_cons in Hw as [Hf _].
    destruct (@flt exact _ _) eqn:Ef.
    + apply exact_gt in Ef. simpl.
      split; [unfold rate_limit_per_second; lia|]. split; [done|].
      split; [done|]. intros s [= <-]. split; [done|]. exact Ef.
    + exfalso. apply exact_gt_false in Ef.
      change (@zero exact) with 0%Q in Ef. change (@lit exact 1 0) with 1%Q in Ef.
      cbn [fsub exact] in Ef. lra.
  - apply Nat.leb_gt in E. simpl. rewrite length_app. simpl.
    unfold rate_limit_per_second in *. cbn [num exact] in *. split; [lia|].
    split; [by apply Forall_app|]. split; [apply last_snoc|done].
Qed.

(** ** The bot: who may place orders, and when trading stops *)

Section BotProofs.
Context {F : PyFloat} {L : PyFloatLaws F}.

Lemma risk_metrics_never_raise (r : RiskManager num) : exists m, risk_metrics r = Ok m.
Proof.
  unfold risk_metrics.
  destruct (total_equity_usdt r >? zero)%py eqn:E1;
    destruct (daily_max_equity r >? zero)%py eqn:E2;
    rewrite ?(pydiv_positive _ _ (gt_zero_not_le _ E1)),
            ?(pydiv_positive _ _ (gt_zero_not_le _ E2)); simpl; by eexists.
Qed.

(** X25. [start_trading] up to the start of its monitoring loops.  When
    the bot is already running or the kill-switch is active, the method
    returns at once: the bot is unchanged and no call was issued.  It goes
    on to the monitoring loops exactly when the bot was not running, the
    kill-switch was inactive and [setup_grid] reported success, and then it
    has set [running]; when it returns instead, [running] is as it was.
    None of this touches the risk controller, which is the same when the
    loops start or the method returns as it was at the call (it is the
    loops that use it). *)
Theorem start_trading_is_gated (b : Bot num) (env : SetupEnv num) :
  let out := start_trading b env in
  (running b = true \/ kill_switch_active (risk b) = true ->
   out = (b, [], StartReturned)) /\
  (out.2 = StartMonitoring <->
   running b = false /\ kill_switch_active (risk b) = false /\
   (setup_grid (grid b) (active_profile b) env).2 = true) /\
  (out.2 = StartMonitoring -> running out.1.1 = true) /\
  (out.2 = StartReturned -> running out.1.1 = running b) /\
  risk out.1.1 = risk b.
Proof.
  cbv zeta. unfold start_trading.
  destruct (running b) eqn:Er.
  { split; [done|]. split; [|done]. split; [done|]. by intros (? & _). }
  destruct (kill_switch_active (risk b)) eqn:Ea.
  { split; [done|]. split; [|done]. split; [done|]. by intros (_ & ? & _). }
  destruct (setup_grid _ _ _) as [[g tr] [|]]; simpl.
  - split; [by intros [?|?]|]. split; [|done]. split; done.
  - split; [by intros [?|?]|]. split; [|done]. split; [done|]. by intros (_ & _ & ?).
Qed.

(** X26. One iteration of the grid monitor.  With the kill-switch active
    it does nothing: no price is fetched, no call is issued, the bot is
    unchanged.  It issues calls of the engine (the recentering) only when
    the kill-switch is inactive, [should_recenter] asked for a recentering
    and [check_max_exposure] answered [True].  It never changes the
    kill-switch or [running]. *)
Theorem grid_monitor_is_gated (b : Bot num) (t : GridTick num) :
  let out := monitor_grid_step b t in
  (kill_switch_active (risk b) = true -> out = (b, [], [])) /\
  (out.2 <> [] ->
   kill_switch_active (risk b) = false /\
   (exists reason,
      (should_recenter (grid b) (grid_now t) (grid_mark_price t)
         (grid_open_orders t)).2 = Ok (true, reason)) /\
   (check_max_exposure (risk b) (grid_positions t) (grid_wallet t)
      (grid_exposure_logged t)).2 = true) /\
  kill_switch_active (risk out.1.1) = kill_switch_active (risk b) /\
  running out.1.1 = running b.
Proof.
  cbv zeta. unfold monitor_grid_step.
  destruct (kill_switch_active (risk b)) eqn:Ea.
  { simpl. rewrite Ea. split; [done|]. split; [done|]. done. }
  split; [done|].
  destruct (should_recenter _ _ _ _) as [g [[[|] reason]|]]; simpl;
    [|by rewrite Ea..].
  pose proof (exposure_keeps_switch (risk b) (grid_positions t) (grid_wallet t)
                (grid_exposure_logged t)) as Hk.
  destruct (check_max_exposure _ _ _ _) as [[r rtr] [|]]; simpl in *.
  - destruct (recenter_grid _ _ _ _ _ _ _) as [[g' tr] ok]. simpl.
    split; [|by rewrite Hk, Ea]. intros _. split; [done|]. split; [by eexists|done].
  - split; [done|]. by rewrite Hk, Ea.
Qed.

(** X27. One iteration of the risk monitor.  If the kill-switch is active
    when the iteration ends, trading has been stopped: [running] is [False],
    and if the bot was running the iteration asked the gateway once to
    cancel all orders.  If the kill-switch is inactive, [running] is
    unchanged and [stop_trading] was not called.  The engine is not
    touched. *)
Theorem risk_monitor_stops_trading (b : Bot num) (t : RiskTick num) :
  let out := monitor_risk_step b t in
  (kill_switch_active (risk out.1.1) = true ->
   running out.1.1 = false /\
   (running b = true -> out.2 = [CancelAllOrders])) /\
  (kill_switch_active (risk out.1.1) = false ->
   running out.1.1 = running b /\ out.2 = []) /\
  grid out.1.1 = grid b.
Proof.
  cbv zeta. unfold monitor_risk_step.
  destruct (update_equity_tracking _ _ _ _ _) as [r1 tr1].
  destruct (check_max_exposure r1 _ _ _) as [[r2 tr2] ok].
  destruct (get_risk_metrics r2 _ _ _ _ _ _ _) as [r3 tr3].
  destruct (risk_metrics_never_raise r3) as [m ->].
  simpl. unfold stop_trading. simpl.
  destruct (kill_switch_active r3) eqn:Ea, (running b) eqn:Er; simpl;
    rewrite ?Ea; repeat split; try done; try congruence.
Qed.

End BotProofs.

(** ** The further properties at sample inputs *)

Lemma should_recenter_never_raises_witness :
  exists decision,
    (@should_recenter exact scenario_grid after_49_hours (Returned 105%Q)
       (Returned scenario_orders)).2 = Ok decision.
Proof.
  destruct (@should_recenter_never_raises exact exact_laws scenario_grid
              after_49_hours (Returned 105%Q) (Returned scenario_orders))
    as [_ Hd]; [constructor|exact Hd].
Defined.

Lemma one_sided_orders_never_trigger_witness :
  (@should_recenter exact scenario_grid after_49_hours (Returned 105%Q)
     (Returned buy_only_orders)).2 = Ok (false, NoReason).
Proof.
  apply (@one_sided_orders_never_trigger exact scenario_grid after_49_hours
           (Returned 105%Q) buy_only_orders Sell).
  - discriminate.
  - repeat constructor; discriminate.
Defined.

Lemma grid_spacing_choice_witness :
  @get_grid_spacing binary64 coarse_grid "Normal" = Ok (@lit binary64 3 3).
Proof.
  destruct (@grid_spacing_choice binary64 binary64_laws binary64_zero
              coarse_grid "Normal") as (sp & Hsp & _ & Hbase & _).
  rewrite Hsp, Hbase; [reflexivity|simpl; lia].
Defined.

Lemma level_numbers_witness :
  (length scenario_levels.1 <= 3)%nat /\ (length scenario_levels.2 <= 3)%nat /\
  (forall l, l ∈ scenario_levels.1 -> side l = Buy /\ -3 <= level l <= -1) /\
  (forall l, l ∈ scenario_levels.2 -> side l = Sell /\ 1 <= level l <= 3).
Proof.
  destruct (@level_numbers exact scenario_grid 100%Q "Normal" 100%Q
              scenario_levels.1 scenario_levels.2)
    as (H1 & H2 & H3 & H4 & _); [vm_compute; reflexivity|].
  split; [exact H1|]. split; [exact H2|]. split; [exact H3|exact H4].
Defined.

Lemma level_plan_is_affordable_witness :
  exists q max_possible_levels,
    @pydiv binary64 (@lit binary64 418 2)
      (PrimFloat.mul (min_notional (@thin_grid binary64)) (@lit binary64 11 1)) = Ok q /\
    b64_trunc q = Some max_possible_levels /\
    Z.of_nat (length thin_levels_binary64.1 + length thin_levels_binary64.2)
    <= Z.max 0 max_possible_levels.
Proof.
  destruct (@level_plan_is_affordable binary64 thin_grid (b64_of_int 1) "Normal"
              (@lit binary64 418 2) thin_levels_binary64.1 thin_levels_binary64.2)
    as (q & mp & H1 & H2 & H3 & _); [vm_compute; reflexivity|].
  exists q, mp. split; [exact H1|]. split; [exact H2|exact H3].
Defined.

Lemma prices_follow_levels_witness :
  (forall l l', l ∈ scenario_levels.1 -> l' ∈ scenario_levels.1 ->
     level l' <= level l -> (price l' <= price l)%Q) /\
  (forall l l', l ∈ scenario_levels.2 -> l' ∈ scenario_levels.2 ->
     level l <= level l' -> (price l <= price l')%Q) /\
  (forall l l', l ∈ scenario_levels.1 -> l' ∈ scenario_levels.2 ->
     (price l <= price l')%Q).
Proof.
  apply (prices_follow_levels scenario_grid 100%Q "Normal" 100%Q
           (1 # 100)%Q (1 # 100)%Q scenario_levels.1 scenario_levels.2).
  - vm_compute. discriminate.
  - reflexivity.
  - vm_compute. discriminate.
  - reflexivity.
  - reflexivity.
  - vm_compute. reflexivity.
Defined.

Lemma grid_stats_extremes_witness :
  (forall l, l ∈ scenario_levels.1 ->
     (lowest_buy (@get_grid_stats exact scenario_grid_with_levels) <= price l)%Q) /\
  (forall l, l ∈ scenario_levels.2 ->
     (price l <= highest_sell (@get_grid_stats exact scenario_grid_with_levels))%Q).
Proof.
  apply (grid_stats_extremes scenario_grid scenario_grid_with_levels 100%Q "Normal"
           100%Q (1 # 100)%Q (1 # 100)%Q).
  - vm_compute. discriminate.
  - reflexivity.
  - vm_compute. discriminate.
  - reflexivity.
  - reflexivity.
  - vm_compute. reflexivity.
Defined.

Lemma nonpositive_target_places_nothing_witness :
  (@setup_grid exact flat_grid "Flat" refusing_env).1.2 = [] /\
  (@setup_grid exact flat_grid "Flat" refusing_env).2 = false.
Proof.
  apply (@nonpositive_target_places_nothing exact flat_grid "Flat" refusing_env).
  vm_compute. discriminate.
Defined.

Lemma setup_cancels_then_places_each_level_witness :
  placed_levels (@setup_grid exact scenario_grid "Normal" refusing_env).1.2
  = buy_levels (@setup_grid exact scenario_grid "Normal" refusing_env).1.1
    ++ sell_levels (@setup_grid exact scenario_grid "Normal" refusing_env).1.1.
Proof.
  apply (@setup_cancels_then_places_each_level exact exact_zero scenario_grid
           "Normal" refusing_env).
  vm_compute. reflexivity.
Defined.

Lemma recenter_without_price_leaves_no_orders_witness :
  @recenter_grid exact scenario_grid_with_levels NoActiveOrders "Normal"
    (Returned tt) (Returned tt) priceless_env after_49_hours
  = (@set_active_orders exact scenario_grid_with_levels ∅,
     [LogEvent "recenter" "INFO"; CancelAllOrders], false).
Proof.
  apply (@recenter_without_price_leaves_no_orders exact exact_zero
           scenario_grid_with_levels NoActiveOrders "Normal" tt tt priceless_env
           after_49_hours).
  intros p Hp. discriminate Hp.
Defined.

Lemma one_cancel_per_activation_witness :
  (cancel_calls (@risk_run exact (sample_risk false) recovery_ops).2 <= 1)%nat /\
  cancel_calls (@risk_run exact (sample_risk true) recovery_ops).2 = 0%nat /\
  kill_switch_reason (@risk_run exact (sample_risk true) recovery_ops).1
  = KillReasonText "manual".
Proof.
  destruct (@one_cancel_per_activation exact (sample_risk false) recovery_ops
              eq_refl) as [Hle _].
  destruct (@one_cancel_per_activation exact (sample_risk true) recovery_ops
              eq_refl) as [_ Hkeep].
  split; [exact Hle|]. exact (Hkeep eq_refl).
Defined.

Lemma deactivation_holds_while_equity_holds_witness :
  kill_switch_active
    (@update_equity_tracking binary64 (@deactivate_kill_switch binary64 tripped_risk)
       1000 (Returned (Some (b64_of_int 950))) (Returned tt) (Returned tt)).1 = false.
Proof.
  destruct (@deactivation_holds_while_equity_holds binary64 binary64_laws
              binary64_drawdown tripped_risk 1000 (b64_of_int 950)
              (Returned tt) (Returned tt)) as [Hoff _].
  - reflexivity.
  - vm_compute. reflexivity.
  - left. vm_compute. reflexivity.
  - exact Hoff.
Defined.

Lemma exposure_check_is_sound_witness :
  (@check_max_exposure binary64 tripped_risk
     (Returned [(b64_of_int 1, @lit binary64 50337 3)])
     (Returned (Some (@lit binary64 5593 2))) (Returned tt)).1.2 = [].
Proof.
  pose proof (@exposure_check_is_sound binary64 binary64_laws tripped_risk
                [(b64_of_int 1, @lit binary64 50337 3)]
                (Returned (Some (@lit binary64 5593 2))) (Returned tt)) as H.
  cbv zeta in H. destruct H as (_ & H & _).
  destruct H as [Hnone _]; [vm_compute; reflexivity|]. exact Hnone.
Defined.

Lemma step_precision_suffices_witness :
  (precision_of "0.0010" <= 4)%nat /\
  (10 ^ Z.of_nat (4 - precision_of "0.0010") | 10).
Proof. apply (step_precision_suffices "0.0010" 10 4). reflexivity. Defined.

Lemma request_returns_first_settled_witness :
  (_request flaky_gateway 3).1.1 = Returned (Result tt) /\
  (_request flaky_gateway 3).2 = 3%nat /\
  length (_request flaky_gateway 3).1.2 = 2%nat.
Proof.
  apply (request_returns_first_settled flaky_gateway 3 2).
  - lia.
  - reflexivity.
  - intros [|[|i]] Hi; [reflexivity|reflexivity|lia].
Defined.

Lemma risk_monitor_stops_trading_witness :
  running (@monitor_risk_step exact sample_bot falling_tick).1.1 = false /\
  (@monitor_risk_step exact sample_bot falling_tick).2 = [CancelAllOrders].
Proof.
  destruct (@risk_monitor_stops_trading exact exact_laws sample_bot falling_tick)
    as [Hstop _].
  destruct Hstop as [Hoff Hcancel]; [vm_compute; reflexivity|].
  split; [exact Hoff|]. apply Hcancel. reflexivity.
Defined.
